(** * Alphaminr editor portal: a shallow embedding of [editor_portal.py]
      and [github_helper.py], and the properties of its specification.

    The portal is a Flask application whose handlers orchestrate calls to
    external collaborators (generation backend, GitHub, Mailchimp, the
    Anthropic API, Premailer, the template engine, the local file system).
    The handlers are embedded as computations in a reader + state +
    exception monad:

    - the reader part ([env]) holds the process configuration, the current
      request and one answer function per collaborator;
    - the state part ([state]) holds the Flask session and the trace of the
      outbound calls the handler has made so far;
    - a computation ends in [Ok v] or in [Raise e], a Python exception that
      is a subclass of [Exception].

    Writes to standard output ([print], [traceback.print_exc]) are not part
    of the model; an expression that a [print] evaluates is, where it can
    raise.

    The definitions come first: the model of the two source files, the
    vocabulary in which the properties are stated and sample worlds, on
    which the properties are exercised; then the same for the index page
    and for the generation and listing routes, which run in a monad of
    their own.  The properties and their proofs follow, in that order. *)

From Stdlib Require Import ZArith NArith List String Ascii Bool Lia DecimalString.
From Stdlib Require Import Permutation Sorted.
Import ListNotations.

Set Warnings "-register-all".

(** ** Text

    A Python [str] is a sequence of Unicode code points. *)

Definition char := N.
Definition text := list char.

Definition lit (s : string) : text :=
  List.map N_of_ascii (list_ascii_of_string s).

Definition char_eqb (a b : char) : bool := N.eqb a b.

Fixpoint text_eqb (a b : text) : bool :=
  match a, b with
  | [], [] => true
  | x :: a', y :: b' => char_eqb x y && text_eqb a' b'
  | _, _ => false
  end.

(** [s.startswith(p)] *)
Fixpoint starts_with (p s : text) : bool :=
  match p, s with
  | [], _ => true
  | x :: p', y :: s' => char_eqb x y && starts_with p' s'
  | _ :: _, [] => false
  end.

(** [sub in s] *)
Fixpoint contains (sub s : text) : bool :=
  starts_with sub s ||
  match s with
  | [] => false
  | _ :: s' => contains sub s'
  end.

(** [s.replace(old, new)] for a non-empty [old]: the occurrences of [old]
    are found left to right and do not overlap.  [skip] counts the
    characters of the occurrence under the cursor that are still to be
    dropped. *)
Fixpoint replace_from (old new : text) (skip : nat) (s : text) : text :=
  match s with
  | [] => []
  | c :: s' =>
      match skip with
      | S k => replace_from old new k s'
      | O =>
          if starts_with old s
          then new ++ replace_from old new (Nat.pred (List.length old)) s'
          else c :: replace_from old new 0 s'
      end
  end.

Definition str_replace (s old new : text) : text := replace_from old new 0 s.

(** ** The regular expression of the send pipeline

    [re.sub(PATTERN, '', html_content, flags=re.IGNORECASE)] where PATTERN
    is [<link[^>]*href=Q[^Q]*newsletter\.css Q[^>]*>] and Q stands for the
    character class of the double and the single quote.

    The pattern is a concatenation of single-character tests and greedy
    stars over single-character tests, which is all the matcher below
    handles.  The matcher backtracks like Python's: a star first tries to
    take one more character and gives characters back one at a time. *)

Inductive item :=
| One (f : char -> bool)
| Star (f : char -> bool).

Fixpoint match_len (p : list item) (s : text) : option nat :=
  match p with
  | [] => Some 0%nat
  | One f :: p' =>
      match s with
      | c :: s' => if f c then option_map S (match_len p' s') else None
      | [] => None
      end
  | Star f :: p' =>
      (fix star (s : text) : option nat :=
         match s with
         | c :: s' =>
             if f c
             then match star s' with
                  | Some n => Some (S n)
                  | None => match_len p' s
                  end
             else match_len p' s
         | [] => match_len p' s
         end) s
  end.

(** Case folding as [re.IGNORECASE] does it on a [str] pattern: a pattern
    character is lower-cased, and a subject character matches it when its
    simple lower case is the pattern character or one of the characters
    that [sre] lists as case-equivalent to it.  Only the code points whose
    image is an ASCII character are given: an ASCII pattern observes no
    other. *)
Definition unicode_tolower (c : char) : char :=
  (if (65 <=? c) && (c <=? 90) then c + 32
   else if c =? 304 then 105          (* U+0130, capital I with dot *)
   else if c =? 8490 then 107         (* U+212A, Kelvin sign *)
   else c)%N.

Definition ignorecase_fixes (lo : char) : list char :=
  if (lo =? 105)%N then [305%N]       (* i and U+0131, dotless i *)
  else if (lo =? 115)%N then [383%N]  (* s and U+017F, long s *)
  else [].

Definition lit_ignore (pc : char) (c : char) : bool :=
  let lo := unicode_tolower pc in
  let c' := unicode_tolower c in
  existsb (N.eqb c') (lo :: ignorecase_fixes lo).

Definition not_in (cs : text) (c : char) : bool :=
  negb (existsb (N.eqb c) cs).

Definition lits_ignore (s : string) : list item :=
  List.map (fun c => One (lit_ignore c)) (lit s).

Definition gt_char : char := 62%N.        (* > *)
Definition quotes : text := [34%N; 39%N].    (* double and single quote *)

Definition css_link_re : list item :=
  lits_ignore "<link" ++ [Star (not_in [gt_char])] ++
  lits_ignore "href=" ++ [One (fun c => existsb (N.eqb c) quotes)] ++
  [Star (not_in quotes)] ++
  lits_ignore "newsletter.css" ++ [One (fun c => existsb (N.eqb c) quotes)] ++
  [Star (not_in [gt_char])] ++ [One (N.eqb gt_char)].

(** [re.sub(p, '', s)]: the subject is scanned left to right; where the
    pattern matches, the matched characters are dropped and the scan goes
    on after them; elsewhere the character is kept.  [skip] counts the
    characters of the current match that are still to be dropped.  (The
    pattern used here matches no empty string.) *)
Fixpoint sub_from (p : list item) (skip : nat) (s : text) : text :=
  match s with
  | [] => []
  | c :: s' =>
      match skip with
      | S k => sub_from p k s'
      | O =>
          match match_len p s with
          | Some (S k) => sub_from p k s'
          | _ => c :: sub_from p 0 s'
          end
      end
  end.

Definition re_sub_empty (p : list item) (s : text) : text := sub_from p 0 s.

Definition remove_css_link (html : text) : text := re_sub_empty css_link_re html.

(** A match of [p] starts somewhere in [s]: [re.search(p, s) is not None]. *)
Fixpoint has_match (p : list item) (s : text) : bool :=
  match match_len p s with
  | Some _ => true
  | None => match s with
            | [] => false
            | _ :: s' => has_match p s'
            end
  end.

(** ** Python values

    The values that the handlers exchange with JSON bodies: what
    [response.json()] and [request.json] return and what [jsonify] and
    [json.dumps] take.  A float is kept as what the handlers can observe of
    it: whether it is non-zero and how [str] prints it.  A dict is the list
    of its items in insertion order, with distinct keys. *)

Inductive json :=
| JNull
| JBool (b : bool)
| JInt (n : Z)
| JFloat (nonzero : bool) (shown : text)
| JStr (s : text)
| JList (l : list json)
| JObj (fields : list (text * json)).

(** [bool(v)] *)
Definition truthy (v : json) : bool :=
  match v with
  | JNull => false
  | JBool b => b
  | JInt n => negb (n =? 0)%Z
  | JFloat nz _ => nz
  | JStr s => match s with [] => false | _ => true end
  | JList l => match l with [] => false | _ => true end
  | JObj f => match f with [] => false | _ => true end
  end.

(** [v is True] *)
Definition is_True (v : json) : bool :=
  match v with
  | JBool true => true
  | _ => false
  end.

Fixpoint assoc (k : text) (d : list (text * json)) : option json :=
  match d with
  | [] => None
  | (k', v) :: d' => if text_eqb k k' then Some v else assoc k d'
  end.

(** An environment variable or configuration entry: absent or a string. *)
Definition env_truthy (o : option text) : bool :=
  match o with
  | Some (_ :: _) => true
  | _ => false
  end.

Definition env_json (o : option text) : json :=
  match o with
  | Some t => JStr t
  | None => JNull
  end.

(** [os.environ.get(name, default)] *)
Definition env_default (o : option text) (default : text) : text :=
  match o with
  | Some t => t
  | None => default
  end.

Definition nl : text := [10%N].
Definition dquote : text := [34%N].

Definition Z_to_text (n : Z) : text :=
  lit (DecimalString.NilZero.string_of_int (Z.to_int n)).

(** ** UTF-8 and base64, as [base64.b64encode(s.encode("utf-8"))] *)

Definition utf8_char (c : char) : option (list N) :=
  (if c <? 128 then Some [c]
   else if c <? 2048 then Some [192 + c / 64; 128 + c mod 64]
   else if c <? 65536 then
     if (55296 <=? c) && (c <=? 57343) then None     (* a lone surrogate *)
     else Some [224 + c / 4096; 128 + (c / 64) mod 64; 128 + c mod 64]
   else if c <? 1114112 then
     Some [240 + c / 262144; 128 + (c / 4096) mod 64;
           128 + (c / 64) mod 64; 128 + c mod 64]
   else None)%N.

Fixpoint utf8_encode (s : text) : option (list N) :=
  match s with
  | [] => Some []
  | c :: s' =>
      match utf8_char c, utf8_encode s' with
      | Some b, Some bs => Some (b ++ bs)
      | _, _ => None
      end
  end.

Definition b64_digit (n : N) : char :=
  (if n <? 26 then 65 + n
   else if n <? 52 then 97 + (n - 26)
   else if n <? 62 then 48 + (n - 52)
   else if n =? 62 then 43
   else 47)%N.

Fixpoint b64encode (bs : list N) : text :=
  match bs with
  | [] => []
  | [a] =>
      [b64_digit (a / 4); b64_digit ((a mod 4) * 16); 61; 61]%N
  | [a; b] =>
      [b64_digit (a / 4); b64_digit ((a mod 4) * 16 + b / 16);
       b64_digit ((b mod 16) * 4); 61]%N
  | a :: b :: c :: rest =>
      [b64_digit (a / 4); b64_digit ((a mod 4) * 16 + b / 16);
       b64_digit ((b mod 16) * 4 + c / 64); b64_digit (c mod 64)]%N
      ++ b64encode rest
  end.

(** ** Exceptions and results

    The exception classes that the handlers tell apart, all subclasses of
    [Exception]; any other subclass is an [OtherError] with its class name. *)

Inductive exn :=
| HTTPError (status : Z)          (* requests.exceptions.HTTPError, with e.response.status_code *)
| ApiClientError (txt : text)     (* mailchimp_marketing.api_client.ApiClientError, with e.text *)
| RuntimeError (msg : text)
| AttributeError (msg : text)
| KeyError (key : text)
| TypeError (msg : text)
| IndexError (msg : text)
| NameError (name : text)
| UnicodeEncodeError
| OtherError (cls msg : text).

Inductive result (A : Type) :=
| Ok (a : A)
| Raise (e : exn).

Arguments Ok {A} a.
Arguments Raise {A} e.

(** [str(e)], abridged for the classes whose message depends on more than
    what is kept of the exception here. *)
Definition exn_str (e : exn) : text :=
  match e with
  | HTTPError status => Z_to_text status ++ lit " Error"
  | ApiClientError t => t
  | RuntimeError m => m
  | AttributeError m => m
  | KeyError k => lit "'" ++ k ++ lit "'"
  | TypeError m => m
  | IndexError m => m
  | NameError n => lit "name '" ++ n ++ lit "' is not defined"
  | UnicodeEncodeError => lit "'utf-8' codec can't encode character"
  | OtherError _ m => m
  end.

(** [d.get(k, default)]: only a dict has the method. *)
Definition py_get (d : json) (k : text) (default : json) : result json :=
  match d with
  | JObj f => Ok (match assoc k f with Some v => v | None => default end)
  | _ => Raise (AttributeError (lit "object has no attribute 'get'"))
  end.

(** [d[k]] for a string key [k]. *)
Definition py_index (d : json) (k : text) : result json :=
  match d with
  | JObj f => match assoc k f with
              | Some v => Ok v
              | None => Raise (KeyError k)
              end
  | JList _ | JStr _ => Raise (TypeError (lit "indices must be integers"))
  | _ => Raise (TypeError (lit "object is not subscriptable"))
  end.

(** [len(v)] *)
Definition py_len (v : json) : result Z :=
  match v with
  | JStr s => Ok (Z.of_nat (List.length s))
  | JList l => Ok (Z.of_nat (List.length l))
  | JObj f => Ok (Z.of_nat (List.length f))
  | _ => Raise (TypeError (lit "object has no len()"))
  end.

(** [s.encode("utf-8")] then [base64.b64encode(...).decode("utf-8")]: only
    a [str] has [encode], and a lone surrogate cannot be encoded. *)
Definition b64_of_content (v : json) : result text :=
  match v with
  | JStr s => match utf8_encode s with
              | Some bs => Ok (b64encode bs)
              | None => Raise UnicodeEncodeError
              end
  | _ => Raise (AttributeError (lit "object has no attribute 'encode'"))
  end.

(** ** Configuration, request and collaborators *)

Record config := {
  SECRET_KEY : option text;            (* app.config['SECRET_KEY'] *)
  EDITOR_PASSWORD : option text;
  MOCK_MODE_var : option text;         (* os.getenv('MOCK_MODE') *)
  PREMAILER_AVAILABLE : bool;
  GITHUB_HELPER_AVAILABLE : bool;
  MAILCHIMP_AVAILABLE : bool;
  ANTHROPIC_AVAILABLE : bool;
  MAILCHIMP_API_KEY : option text;
  mailchimp_Client_ok : bool;          (* MailchimpMarketing.Client() does not raise *)
  ANTHROPIC_API_KEY : option text;
  anthropic_Client_ok : bool;          (* anthropic.Anthropic(api_key=...) does not raise *)
  GITHUB_TOKEN : option text;
  RAILWAY_BACKEND_URL : option text;
  MAILCHIMP_LIST_ID : option text;
  REPLY_TO_EMAIL : option text;
  EDITOR_EMAIL : option text;
  module_dir : text                    (* os.path.dirname(os.path.abspath(__file__)) *)
}.

Definition ascii_lower (c : char) : char :=
  (if (65 <=? c) && (c <=? 90) then c + 32 else c)%N.

(** [os.getenv('MOCK_MODE', 'false').lower() == 'true']: no character
    outside ASCII has a letter of [true] as its lower case. *)
Definition MOCK_MODE (c : config) : bool :=
  text_eqb (List.map ascii_lower (env_default (MOCK_MODE_var c) (lit "false")))
           (lit "true").

(** The module globals [mailchimp] and [client]: [true] when a client
    object was built at start-up, [false] when the global stayed [None]. *)
Definition mailchimp (c : config) : bool :=
  MAILCHIMP_AVAILABLE c && negb (MOCK_MODE c) &&
  env_truthy (MAILCHIMP_API_KEY c) && mailchimp_Client_ok c.

Definition client (c : config) : bool :=
  ANTHROPIC_AVAILABLE c && negb (MOCK_MODE c) &&
  env_truthy (ANTHROPIC_API_KEY c) && anthropic_Client_ok c.

Inductive http_method := GET | POST.

Record request := {
  request_url : text;
  request_method : http_method;
  request_json : result json;             (* request.json *)
  request_form_password : option text;    (* request.form.get('password') *)
  request_args_next : option text         (* request.args.get('next') *)
}.

(** What [requests] hands back: [status_code], [text] and [json()]. *)
Record http_response := {
  status_code : Z;
  response_text : text;
  response_json : result json
}.

(** The collaborators, each as the answer it gives to a call. *)
Record services := {
  requests_get : text -> result http_response;
  requests_put : text -> json -> result http_response;
  path_exists : text -> bool;
  read_file : text -> result text;
  premailer_transform : text -> result text;
  campaigns_create : json -> result json;
  campaigns_set_content : json -> json -> result unit;
  campaigns_send_test_email : json -> json -> result unit;
  campaigns_send : json -> result unit;
  soup_get_text : text -> result text;
  messages_create : text -> result (list text);
  render : string -> json -> result text;
  strftime : string -> text;
  session_unavailable : option exn;
  str_of_container : json -> text
}.

Record env := {
  cfg : config;
  req : request;
  svc : services
}.

(** The calls a handler makes to the outside, in the order it makes them. *)
Inductive event :=
| HttpGet (url : text)
| HttpPut (url : text) (data : json)
| FileExists (path : text)
| FileRead (path : text)
| PremailerTransform (html : text)
| CampaignsCreate (data : json)
| CampaignsSetContent (id : json) (content : json)
| CampaignsSendTestEmail (id : json) (payload : json)
| CampaignsSend (id : json)
| SoupGetText (html : text)
| MessagesCreate (prompt : text)
| RenderTemplate (name : string) (context : json).

Record state := {
  logged_in : option json;      (* session['logged_in'], when the key is there *)
  trace : list event
}.

(** ** The monad of handlers *)

Definition M (A : Type) : Type := env -> state -> result A * state.

Definition ret {A} (a : A) : M A := fun _ s => (Ok a, s).

Definition raise {A} (e : exn) : M A := fun _ s => (Raise e, s).

Definition bind {A B} (m : M A) (k : A -> M B) : M B :=
  fun e s =>
    match m e s with
    | (Ok a, s') => k a e s'
    | (Raise x, s') => (Raise x, s')
    end.

Declare Scope monad_scope.
Delimit Scope monad_scope with monad.
Bind Scope monad_scope with M.
Notation "x <- m ;; k" := (bind m (fun x => k))
  (at level 61, m at next level, right associativity) : monad_scope.
Notation "m ;; k" := (bind m (fun _ => k))
  (at level 61, right associativity) : monad_scope.
Local Open Scope monad_scope.

Definition ask : M env := fun e s => (Ok e, s).

Definition lift {A} (r : result A) : M A := fun _ s => (r, s).

Definition emit (ev : event) : M unit :=
  fun _ s => (Ok tt, {| logged_in := logged_in s; trace := trace s ++ [ev] |}).

(** [try: body / except <classes picked by h> as e: h e]: an exception
    that [h] does not pick goes on to the caller. *)
Definition try_except {A} (body : M A) (h : exn -> option (M A)) : M A :=
  fun e s =>
    match body e s with
    | (Ok a, s') => (Ok a, s')
    | (Raise x, s') =>
        match h x with
        | Some k => k e s'
        | None => (Raise x, s')
        end
    end.

(** [except Exception as e] *)
Definition any_exception {A} (k : exn -> M A) : exn -> option (M A) :=
  fun x => Some (k x).

(** A call to a collaborator: recorded, then answered. *)
Definition call {A} (ev : event) (answer : services -> result A) : M A :=
  emit ev ;; e <- ask ;; lift (answer (svc e)).

(** [str(v)], as an f-string formats a value. *)
Definition str_of (sv : services) (v : json) : text :=
  match v with
  | JNull => lit "None"
  | JBool true => lit "True"
  | JBool false => lit "False"
  | JInt n => Z_to_text n
  | JFloat _ shown => shown
  | JStr s => s
  | JList _ | JObj _ => str_of_container sv v
  end.

Definition py_str (v : json) : M text :=
  e <- ask ;; ret (str_of (svc e) v).

(** The Flask session: every access fails when the session is unavailable. *)
Definition session_guard : M unit :=
  e <- ask ;;
  match session_unavailable (svc e) with
  | Some x => raise x
  | None => ret tt
  end.

(** [session.get('logged_in')] *)
Definition session_get_logged_in : M json :=
  session_guard ;;
  fun _ s => (Ok match logged_in s with Some v => v | None => JNull end, s).

(** Without a secret key ([app.secret_key] false) the session of a request
    is Flask's null session: it answers reads, and every method that
    changes it raises this [RuntimeError]. *)
Definition null_session_error : exn :=
  RuntimeError (lit "The session is unavailable because no secret key was set.  Set the secret_key on the application to something unique and secret.").

Definition session_write_guard : M unit :=
  session_guard ;;
  e <- ask ;;
  if env_truthy (SECRET_KEY (cfg e)) then ret tt else raise null_session_error.

(** [session['logged_in'] = v] *)
Definition session_set_logged_in (v : json) : M unit :=
  session_write_guard ;;
  fun _ s => (Ok tt, {| logged_in := Some v; trace := trace s |}).

(** [session.pop('logged_in', None)] *)
Definition session_pop_logged_in : M unit :=
  session_write_guard ;;
  fun _ s => (Ok tt, {| logged_in := None; trace := trace s |}).

(** ** Responses *)

Inductive location :=
| UrlFor (endpoint : string) (query : list (string * text))   (* url_for(endpoint, **query) *)
| Url (u : text).

Inductive response :=
| Json (status : Z) (body : json)       (* jsonify(body), status *)
| Page (status : Z) (body : text)       (* a string body, status *)
| Redirect (target : location).         (* redirect(target) *)

(** [render_template(name, **context)] *)
Definition render_template (name : string) (context : json) : M text :=
  call (RenderTemplate name context) (fun s => render s name context).

(** [request.json] *)
Definition get_request_json : M json :=
  e <- ask ;; lift (request_json (req e)).

(** ** [github_helper.py] *)

Module github_helper.

Definition REPO_NAME : text := lit "krishivseth/Alphaminr".
Definition BASE_URL : text := lit "https://api.github.com/repos/" ++ REPO_NAME.

(** [response.raise_for_status()] *)
Definition raise_for_status (r : http_response) : M unit :=
  if (400 <=? status_code r)%Z && (status_code r <? 600)%Z
  then raise (HTTPError (status_code r))
  else ret tt.

Definition contents_url (path : text) : text :=
  BASE_URL ++ lit "/contents/" ++ path.

(** The [data] of [commit_file]: the [sha] entry is added for a true [sha]. *)
Definition commit_data (commit_message content_b64 : text) (sha : json) : json :=
  JObj ([(lit "message", JStr commit_message);
         (lit "content", JStr content_b64);
         (lit "branch", JStr (lit "main"))]
        ++ (if truthy sha then [(lit "sha", sha)] else [])).

Definition get_file_sha (path : text) : M json :=
  try_except
    (let url := contents_url path in
     response <- call (HttpGet url) (fun s => requests_get s url) ;;
     raise_for_status response ;;
     body <- lift (response_json response) ;;
     lift (py_index body (lit "sha")))
    (fun x =>
       match x with
       | HTTPError status =>
           Some (if (status =? 404)%Z then ret JNull else raise x)
       | _ => None
       end).

Definition commit_file (file_path : text) (file_content : json)
           (commit_message : text) : M json :=
  e <- ask ;;
  if negb (env_truthy (GITHUB_TOKEN (cfg e))) then
    ret (JObj [(lit "error", JStr (lit "Server is not configured to save files."))])
  else
    content_b64 <- lift (b64_of_content file_content) ;;
    sha <- get_file_sha file_path ;;
    let data := commit_data commit_message content_b64 sha in
    let url := contents_url file_path in
    response <- call (HttpPut url data) (fun s => requests_put s url data) ;;
    if (status_code response =? 200)%Z || (status_code response =? 201)%Z then
      body <- lift (response_json response) ;;
      commit <- lift (py_index body (lit "commit")) ;;
      commit_sha <- lift (py_index commit (lit "sha")) ;;
      ret (JObj [(lit "success", JBool true); (lit "commit_sha", commit_sha)])
    else
      body <- lift (response_json response) ;;
      message <- lift (py_get body (lit "message") (JStr (lit "Unknown error"))) ;;
      ret (JObj [(lit "error", message)]).

End github_helper.

(** ** [editor_portal.py] *)

Definition NEWSLETTER_DIR : text := lit "newsletters".

(** *** Authentication *)

Definition login_required (f : M response) : M response :=
  e <- ask ;;
  if negb (env_truthy (EDITOR_PASSWORD (cfg e))) then f
  else if negb (env_truthy (SECRET_KEY (cfg e))) then f
  else
    early <- try_except
      (v <- session_get_logged_in ;;
       if negb (is_True v)
       then ret (Some (Redirect (UrlFor "login" [("next"%string, request_url (req e))])))
       else ret None)
      (fun x =>
         match x with
         | RuntimeError _ => Some (r <- f ;; ret (Some r))
         | _ => None
         end) ;;
    match early with
    | Some r => ret r
    | None => f
    end.

Definition login : M response :=
  e <- ask ;;
  if negb (env_truthy (EDITOR_PASSWORD (cfg e))) then
    ret (Redirect (UrlFor "index" []))
  else
    v <- session_get_logged_in ;;
    if truthy v then ret (Redirect (UrlFor "index" []))
    else
      match request_method (req e) with
      | POST =>
          if match request_form_password (req e), EDITOR_PASSWORD (cfg e) with
             | Some p, Some q => text_eqb p q
             | _, _ => false
             end
          then
            session_set_logged_in (JBool true) ;;
            ret (Redirect match request_args_next (req e) with
                          | Some (c :: u) => Url (c :: u)      (* next_url or ... *)
                          | _ => UrlFor "index" []
                          end)
          else
            page <- render_template "login.html"
                      (JObj [(lit "error", JStr (lit "Invalid password. Please try again."))]) ;;
            ret (Page 200 page)
      | GET =>
          page <- render_template "login.html" (JObj [(lit "error", JNull)]) ;;
          ret (Page 200 page)
      end.

Definition logout : M response :=
  session_pop_logged_in ;;
  ret (Redirect (UrlFor "login" [])).

(** *** Data functions *)

Definition railway_url (c : config) : text :=
  env_default (RAILWAY_BACKEND_URL c) (lit "http://localhost:5000").

(** The [api_url] of [get_all_newsletters] and of [get_newsletter_content]. *)
Definition list_url (e : env) : text := railway_url (cfg e) ++ lit "/api/newsletters".

Definition content_url (e : env) (newsletter_id : text) : text :=
  railway_url (cfg e) ++ lit "/newsletter/" ++ newsletter_id.

Definition get_all_newsletters : M json :=
  found <- try_except
    (e <- ask ;;
     let api_url := list_url e in
     response <- call (HttpGet api_url) (fun s => requests_get s api_url) ;;
     if (status_code response =? 200)%Z then
       data <- lift (response_json response) ;;
       success <- lift (py_get data (lit "success") JNull) ;;
       if truthy success then
         newsletters <- lift (py_get data (lit "newsletters") (JList [])) ;;
         lift (py_len newsletters) ;;       (* the count printed in the debug line *)
         ret (Some newsletters)
       else ret None
     else ret None)
    (any_exception (fun _ => ret None)) ;;
  match found with
  | Some newsletters => ret newsletters
  | None => ret (JList [])
  end.

(** The result is [None] for Python's [None]. *)
Definition get_newsletter_content (newsletter_id : text) : M (option text) :=
  try_except
    (e <- ask ;;
     let api_url := content_url e newsletter_id in
     response <- call (HttpGet api_url) (fun s => requests_get s api_url) ;;
     if (status_code response =? 200)%Z then ret (Some (response_text response))
     else ret None)
    (any_exception (fun _ => ret None)).

(** *** Protected routes: the handlers under [login_required] *)

(** The keyword argument [newsletter] of the editor template. *)
Definition editor_context (newsletter_id html : text) : json :=
  JObj [(lit "newsletter",
         JObj [(lit "id", JStr newsletter_id); (lit "html_content", JStr html)])].

Definition editor (newsletter_id : text) : M response :=
  content <- get_newsletter_content newsletter_id ;;
  match content with
  | None => ret (Page 404 (lit "Newsletter not found"))
  | Some html =>
      page <- render_template "editor.html" (editor_context newsletter_id html) ;;
      ret (Page 200 page)
  end.

Definition commit_message_of (newsletter_id notes : text) : text :=
  lit "docs: update " ++ newsletter_id ++ nl ++ nl ++ lit "Notes: " ++ notes.

(** The last two lines of [save_newsletter]: the answer for the [result] of
    the commit helper. *)
Definition save_reply (result : json) : M response :=
  success <- lift (py_get result (lit "success") JNull) ;;
  if truthy success then
    ret (Json 200 (JObj [(lit "success", JBool true);
                         (lit "message", JStr (lit "Saved to GitHub."))]))
  else
    error <- lift (py_get result (lit "error") JNull) ;;
    shown <- py_str error ;;
    ret (Json 500 (JObj [(lit "error", JStr (lit "GitHub Save Failed: " ++ shown))])).

Definition save_newsletter (newsletter_id : text) : M response :=
  e <- ask ;;
  data <- get_request_json ;;
  html_content <- lift (py_get data (lit "html_content") JNull) ;;
  if negb (truthy html_content) then
    ret (Json 400 (JObj [(lit "error", JStr (lit "No content"))]))
  else
    let file_path := NEWSLETTER_DIR ++ lit "/" ++ newsletter_id in
    editor_notes <- lift (py_get data (lit "editor_notes") (JStr (lit "n/a"))) ;;
    notes <- py_str editor_notes ;;
    let commit_message := commit_message_of newsletter_id notes in
    (if GITHUB_HELPER_AVAILABLE (cfg e) then ret tt
     else raise (NameError (lit "github_helper"))) ;;
    content <- lift (py_index data (lit "html_content")) ;;
    result <- github_helper.commit_file file_path content commit_message ;;
    save_reply result.

Definition review_prompt (text_content : text) : text :=
  lit "Please review this financial newsletter content for quality and provide constructive feedback. Focus ONLY on the content, writing quality, and reader value - ignore any formatting or HTML.

Newsletter Content:
" ++ text_content ++ lit "

Provide feedback on:
- Content accuracy and relevance
- Writing clarity and engagement
- Value to financial newsletter readers
- Suggestions for improvement

Keep your review concise and actionable.".

(** The [try] of [ai_review_newsletter]. *)
Definition review_stage (html_content : text) : M response :=
  text_content <- call (SoupGetText html_content)
                       (fun s => soup_get_text s html_content) ;;
  let prompt := review_prompt text_content in
  blocks <- call (MessagesCreate prompt) (fun s => messages_create s prompt) ;;
  match blocks with
  | first :: _ =>
      ret (Json 200 (JObj [(lit "success", JBool true);
                           (lit "review", JStr first)]))
  | [] => raise (IndexError (lit "list index out of range"))
  end.

Definition ai_review_newsletter (newsletter_id : text) : M response :=
  e <- ask ;;
  html_content <- get_newsletter_content newsletter_id ;;
  match html_content with
  | None | Some [] => ret (Json 404 (JObj [(lit "error", JStr (lit "Not found"))]))
  | Some html =>
      if MOCK_MODE (cfg e) || negb (client (cfg e)) then
        ret (Json 200 (JObj [(lit "success", JBool true);
                             (lit "review", JStr (lit "[MOCK] Looks great!"))]))
      else
        try_except (review_stage html)
          (any_exception (fun x =>
             ret (Json 500 (JObj [(lit "error",
                                   JStr (lit "AI review failed: " ++ exn_str x))]))))
  end.

(** The CSS asset of the send pipeline. *)
Definition css_file_path (c : config) : text :=
  module_dir c ++ lit "/static/css/newsletter.css".

Definition style_block (css_text : text) : text :=
  lit "<style type=" ++ dquote ++ lit "text/css" ++ dquote ++ lit ">"
  ++ css_text ++ lit "</style></head>".

(** [html_with_style]: the link removed, then the style block put before
    every [</head>]. *)
Definition inliner_input (html_content css_text : text) : text :=
  let html_without_link := remove_css_link html_content in
  str_replace html_without_link (lit "</head>") (style_block css_text).

(** The body of the [try] of [send_newsletter]: its value is what
    [inlined_html] holds when the body ends without an exception. *)
Definition css_inlining (html_content : text) : M text :=
  e <- ask ;;
  let path := css_file_path (cfg e) in
  found <- call (FileExists path) (fun s => Ok (path_exists s path)) ;;
  css_text <- (if found : bool
               then call (FileRead path) (fun s => read_file s path)
               else ret []) ;;
  match css_text with
  | _ :: _ =>
      let html_with_style := inliner_input html_content css_text in
      (if PREMAILER_AVAILABLE (cfg e) then ret tt
       else raise (NameError (lit "Premailer"))) ;;
      call (PremailerTransform html_with_style)
           (fun s => premailer_transform s html_with_style)
  | [] => ret html_content
  end.

(** [inlined_html] after the [try]/[except Exception] of [send_newsletter]. *)
Definition inlined_html_of (html_content : text) : M text :=
  try_except (css_inlining html_content)
             (any_exception (fun _ => ret html_content)).

Definition campaign_data (e : env) : json :=
  JObj [(lit "type", JStr (lit "regular"));
        (lit "recipients", JObj [(lit "list_id", env_json (MAILCHIMP_LIST_ID (cfg e)))]);
        (lit "settings",
         JObj [(lit "subject_line", JStr (lit "Alphaminr - " ++ strftime (svc e) "%B %d, %Y"));
               (lit "title", JStr (lit "Alphaminr " ++ strftime (svc e) "%Y-%m-%d"));
               (lit "from_name", JStr (lit "Alphaminr"));
               (lit "reply_to", env_json (REPLY_TO_EMAIL (cfg e)))])].

(** [{"html": inlined_html}] and [test_payload]. *)
Definition html_content_of (inlined_html : text) : json :=
  JObj [(lit "html", JStr inlined_html)].

Definition test_payload_of (e : env) : json :=
  JObj [(lit "test_emails", JList [env_json (EDITOR_EMAIL (cfg e))]);
        (lit "send_type", JStr (lit "html"))].

(** The [try] of the email-platform stage. *)
Definition mailchimp_stage (inlined_html : text) : M response :=
  e <- ask ;;
  campaign <- call (CampaignsCreate (campaign_data e))
                   (fun s => campaigns_create s (campaign_data e)) ;;
  campaign_id <- lift (py_index campaign (lit "id")) ;;
  let content := html_content_of inlined_html in
  call (CampaignsSetContent campaign_id content)
       (fun s => campaigns_set_content s campaign_id content) ;;
  data <- get_request_json ;;
  test_mode <- lift (py_get data (lit "test_mode") JNull) ;;
  if truthy test_mode then
    let test_payload := test_payload_of e in
    id <- lift (py_index campaign (lit "id")) ;;
    call (CampaignsSendTestEmail id test_payload)
         (fun s => campaigns_send_test_email s id test_payload) ;;
    ret (Json 200 (JObj [(lit "success", JBool true);
                         (lit "message", JStr (lit "Test email sent!"))]))
  else
    id <- lift (py_index campaign (lit "id")) ;;
    call (CampaignsSend id) (fun s => campaigns_send s id) ;;
    ret (Json 200 (JObj [(lit "success", JBool true);
                         (lit "message", JStr (lit "Newsletter sent successfully!"))])).

(** What [send_newsletter] does with [inlined_html] once the inlining
    [try] is over. *)
Definition deliver (inlined_html : text) : M response :=
  e <- ask ;;
  if MOCK_MODE (cfg e) || negb (mailchimp (cfg e)) then
    data <- get_request_json ;;
    test_mode <- lift (py_get data (lit "test_mode") JNull) ;;
    let msg := if truthy test_mode
               then lit "Test email sent!" else lit "Newsletter sent!" in
    ret (Json 200 (JObj [(lit "success", JBool true);
                         (lit "message", JStr (lit "[MOCK] " ++ msg))]))
  else
    try_except (mailchimp_stage inlined_html)
      (fun x =>
         match x with
         | ApiClientError txt =>
             Some (ret (Json 500 (JObj [(lit "error",
                                         JStr (lit "Mailchimp error: " ++ txt))])))
         | _ => None
         end).

Definition send_newsletter (newsletter_id : text) : M response :=
  html_content <- get_newsletter_content newsletter_id ;;
  match html_content with
  | None | Some [] =>
      ret (Json 404 (JObj [(lit "error", JStr (lit "Newsletter not found"))]))
  | Some html =>
      inlined_html <- inlined_html_of html ;;
      deliver inlined_html
  end.

(** The routes: each handler behind the authentication gate. *)
Definition route_editor (id : text) : M response := login_required (editor id).
Definition route_save_newsletter (id : text) : M response := login_required (save_newsletter id).
Definition route_ai_review_newsletter (id : text) : M response :=
  login_required (ai_review_newsletter id).
Definition route_send_newsletter (id : text) : M response := login_required (send_newsletter id).

(** * Vocabulary of the properties *)

(** ** Traces *)

Definition record (s : state) (ev : event) : state :=
  {| logged_in := logged_in s; trace := trace s ++ [ev] |}.

Definition extend (s : state) (evs : list event) : state :=
  {| logged_in := logged_in s; trace := trace s ++ evs |}.

Definition is_file_access (ev : event) : bool :=
  match ev with
  | FileExists _ | FileRead _ => true
  | _ => false
  end.

Definition is_email_call (ev : event) : bool :=
  match ev with
  | CampaignsCreate _ | CampaignsSetContent _ _
  | CampaignsSendTestEmail _ _ | CampaignsSend _ => true
  | _ => false
  end.

Definition is_inlining_event (ev : event) : bool :=
  match ev with
  | FileExists _ | FileRead _ | PremailerTransform _ => true
  | _ => false
  end.

(** ** The backend *)

(** The ways in which the listing call fails: the request or the decoding of
    its body raises, the status is not 200, or the [success] flag of the body
    is false. *)
Inductive list_call_fails (e : env) : Prop :=
| list_raises x :
    requests_get (svc e) (list_url e) = Raise x -> list_call_fails e
| list_not_200 r :
    requests_get (svc e) (list_url e) = Ok r -> status_code r <> 200%Z ->
    list_call_fails e
| list_undecodable r x :
    requests_get (svc e) (list_url e) = Ok r -> response_json r = Raise x ->
    list_call_fails e
| list_flag_negative r data flag :
    requests_get (svc e) (list_url e) = Ok r -> response_json r = Ok data ->
    py_get data (lit "success") JNull = Ok flag -> truthy flag = false ->
    list_call_fails e.

Inductive content_call_fails (e : env) (newsletter_id : text) : Prop :=
| content_raises x :
    requests_get (svc e) (content_url e newsletter_id) = Raise x ->
    content_call_fails e newsletter_id
| content_not_200 r :
    requests_get (svc e) (content_url e newsletter_id) = Ok r ->
    status_code r <> 200%Z ->
    content_call_fails e newsletter_id.

(** The backend answers the per-item request with HTTP 200 and body [html]. *)
Definition backend_serves (e : env) (newsletter_id html : text) : Prop :=
  exists r,
    requests_get (svc e) (content_url e newsletter_id) = Ok r /\
    status_code r = 200%Z /\ response_text r = html.

(** ** Request bodies and answers *)

(** [data.get(k)] on a dict body. *)
Definition field (k : string) (data : list (text * json)) : json :=
  match assoc (lit k) data with
  | Some v => v
  | None => JNull
  end.

(** A body that is a JSON object, a [dict] to the handler. *)
Definition is_object (v : json) : bool :=
  match v with
  | JObj _ => true
  | _ => false
  end.

(** The exception of [body.get(...)] for a body that is no [dict]. *)
Definition no_get : exn := AttributeError (lit "object has no attribute 'get'").

Definition simulated (c : config) : bool := MOCK_MODE c || negb (mailchimp c).

Definition mock_reply (test_mode : json) : response :=
  Json 200 (JObj [(lit "success", JBool true);
                  (lit "message",
                   JStr (lit "[MOCK] " ++
                         (if truthy test_mode
                          then lit "Test email sent!" else lit "Newsletter sent!")))]).




Definition review_failed (x : exn) : response :=
  Json 500 (JObj [(lit "error", JStr (lit "AI review failed: " ++ exn_str x))]).

Definition mailchimp_error (txt : text) : response :=
  Json 500 (JObj [(lit "error", JStr (lit "Mailchimp error: " ++ txt))]).

Definition save_failed (e : env) (error : json) : response :=
  Json 500 (JObj [(lit "error",
                   JStr (lit "GitHub Save Failed: " ++ str_of (svc e) error))]).

(** A JSON error body with a message. *)
Definition json_error (r : response) : Prop :=
  exists status msg, r = Json status (JObj [(lit "error", JStr msg)]).

Definition no_content_reply : response :=
  Json 400 (JObj [(lit "error", JStr (lit "No content"))]).

Definition saved_reply : response :=
  Json 200 (JObj [(lit "success", JBool true);
                  (lit "message", JStr (lit "Saved to GitHub."))]).

Definition send_not_found : response :=
  Json 404 (JObj [(lit "error", JStr (lit "Newsletter not found"))]).

Definition review_not_found : response :=
  Json 404 (JObj [(lit "error", JStr (lit "Not found"))]).

Definition test_sent_reply : response :=
  Json 200 (JObj [(lit "success", JBool true);
                  (lit "message", JStr (lit "Test email sent!"))]).

Definition to_login (e : env) : response :=
  Redirect (UrlFor "login" [("next"%string, request_url (req e))]).

(** ** Saving *)

(** [data.get('editor_notes', 'n/a')] as the f-string prints it. *)
Definition notes_of (sv : services) (data : list (text * json)) : text :=
  str_of sv match assoc (lit "editor_notes") data with
            | Some v => v
            | None => JStr (lit "n/a")
            end.

Definition file_path_of (newsletter_id : text) : text :=
  NEWSLETTER_DIR ++ lit "/" ++ newsletter_id.

(** What the store answers to the fetch of the revision marker of [path]:
    404, and the marker is [None]; or a status that is no error, with a
    body that has a [sha]. *)
Inductive revision_marker (e : env) (path : text) : json -> Prop :=
| marker_absent r :
    requests_get (svc e) (github_helper.contents_url path) = Ok r ->
    status_code r = 404%Z ->
    revision_marker e path JNull
| marker_present r body sha :
    requests_get (svc e) (github_helper.contents_url path) = Ok r ->
    ((status_code r < 400)%Z \/ (600 <= status_code r)%Z) ->
    response_json r = Ok body ->
    py_index body (lit "sha") = Ok sha ->
    revision_marker e path sha.

(** The store accepts the put: 200 or 201, with the new commit in the body. *)
Definition store_accepts (e : env) (url : text) (data : json) : Prop :=
  exists r body commit commit_sha,
    requests_put (svc e) url data = Ok r /\
    (status_code r = 200%Z \/ status_code r = 201%Z) /\
    response_json r = Ok body /\
    py_index body (lit "commit") = Ok commit /\
    py_index commit (lit "sha") = Ok commit_sha.

Definition sent_sha (data : json) : option json :=
  match data with
  | JObj fields => assoc (lit "sha") fields
  | _ => None
  end.

(** ** Pages *)

(** The answer of a handler that ends by returning a rendered template. *)
Definition page_of (r : result text) : result response :=
  match r with
  | Ok page => Ok (Page 200 page)
  | Raise x => Raise x
  end.

(** ** The send pipeline *)

(** The texts that a pattern matches: a test takes one character that
    passes it, a star any run of characters that pass it. *)
Inductive matches : list item -> text -> Prop :=
| matches_nil : matches [] []
| matches_one f p c m :
    f c = true -> matches p m -> matches (One f :: p) (c :: m)
| matches_star f p a m :
    forallb f a = true -> matches p m -> matches (Star f :: p) (a ++ m).

(** A text that the pattern matches lies somewhere in [s]. *)
Definition occurs (p : list item) (s : text) : Prop :=
  exists before m after, s = before ++ m ++ after /\ matches p m.

(** What [re.sub(p, '', s)] computes, told without a cursor: where the
    pattern does not match, the character is kept; where it matches, the
    matched characters are dropped and the scan goes on behind them. *)
Inductive scan (p : list item) : text -> text -> Prop :=
| scan_end : scan p [] []
| scan_keep c s out :
    match_len p (c :: s) = None ->
    scan p s out ->
    scan p (c :: s) (c :: out)
| scan_drop s n out :
    match_len p s = Some (S n) ->
    scan p (skipn (S n) s) out ->
    scan p s out.

(** What [s.replace(old, new)] computes for a non-empty [old], told without
    a cursor: where [s] does not begin with [old], its first character is
    kept; where it does, [new] stands in for [old] and the replacement goes
    on behind it. *)
Inductive substituted (old new : text) : text -> text -> Prop :=
| substituted_end : substituted old new [] []
| substituted_keep c s out :
    (forall tail, c :: s <> old ++ tail) ->
    substituted old new s out ->
    substituted old new (c :: s) (c :: out)
| substituted_here tail out :
    substituted old new tail out ->
    substituted old new (old ++ tail) (new ++ out).

(** * Sample worlds *)

Definition unreachable : exn :=
  OtherError (lit "ConnectionError") (lit "backend unreachable").

Definition no_services : services :=
  {| requests_get := fun _ => Raise unreachable;
     requests_put := fun _ _ => Raise unreachable;
     path_exists := fun _ => false;
     read_file := fun _ => Raise (OtherError (lit "FileNotFoundError") []);
     premailer_transform := fun _ => Raise (OtherError (lit "ParserError") []);
     campaigns_create := fun _ => Raise (ApiClientError (lit "unauthorized"));
     campaigns_set_content := fun _ _ => Raise (ApiClientError (lit "unauthorized"));
     campaigns_send_test_email := fun _ _ => Raise (ApiClientError (lit "unauthorized"));
     campaigns_send := fun _ => Raise (ApiClientError (lit "unauthorized"));
     soup_get_text := fun _ => Raise (OtherError (lit "ImportError") []);
     messages_create := fun _ => Raise unreachable;
     render := fun _ _ => Ok [];
     strftime := fun _ => lit "2024-05-01";
     session_unavailable := None;
     str_of_container := fun _ => lit "[...]" |}.

(** A development set-up: no password, no keys, every import available. *)
Definition dev_config : config :=
  {| SECRET_KEY := None;
     EDITOR_PASSWORD := None;
     MOCK_MODE_var := None;
     PREMAILER_AVAILABLE := true;
     GITHUB_HELPER_AVAILABLE := true;
     MAILCHIMP_AVAILABLE := true;
     ANTHROPIC_AVAILABLE := true;
     MAILCHIMP_API_KEY := None;
     mailchimp_Client_ok := true;
     ANTHROPIC_API_KEY := None;
     anthropic_Client_ok := true;
     GITHUB_TOKEN := None;
     RAILWAY_BACKEND_URL := None;
     MAILCHIMP_LIST_ID := None;
     REPLY_TO_EMAIL := None;
     EDITOR_EMAIL := None;
     module_dir := lit "/app" |}.

(** A production set-up: password, session key and all credentials. *)
Definition prod_config : config :=
  {| SECRET_KEY := Some (lit "k3y");
     EDITOR_PASSWORD := Some (lit "hunter2");
     MOCK_MODE_var := Some (lit "false");
     PREMAILER_AVAILABLE := true;
     GITHUB_HELPER_AVAILABLE := true;
     MAILCHIMP_AVAILABLE := true;
     ANTHROPIC_AVAILABLE := true;
     MAILCHIMP_API_KEY := Some (lit "mc-key");
     mailchimp_Client_ok := true;
     ANTHROPIC_API_KEY := Some (lit "ai-key");
     anthropic_Client_ok := true;
     GITHUB_TOKEN := Some (lit "gh-token");
     RAILWAY_BACKEND_URL := Some (lit "https://backend.example");
     MAILCHIMP_LIST_ID := Some (lit "list1");
     REPLY_TO_EMAIL := Some (lit "reply@example.com");
     EDITOR_EMAIL := Some (lit "editor@example.com");
     module_dir := lit "/app" |}.

Definition post (body : json) : request :=
  {| request_url := lit "http://portal.example/api";
     request_method := POST;
     request_json := Ok body;
     request_form_password := None;
     request_args_next := None |}.

Definition s0 : state := {| logged_in := None; trace := [] |}.

Definition abc : text := lit "abc.html".

Definition served (body : text) : http_response :=
  {| status_code := 200; response_text := body;
     response_json := Raise (OtherError (lit "JSONDecodeError") []) |}.

Definition down_env : env :=
  {| cfg := dev_config; req := post JNull; svc := no_services |}.

(** Services that differ from [no_services] in the HTTP answers, the CSS
    asset, the inliner and the creation of campaigns. *)
Definition services_of (get : text -> result http_response)
           (put : text -> json -> result http_response)
           (css : option (result text)) (inliner : text -> result text)
           (create : json -> result json)
  : services :=
  {| requests_get := get;
     requests_put := put;
     path_exists := fun _ => match css with Some _ => true | None => false end;
     read_file := fun p => match css with
                           | Some r => r
                           | None => read_file no_services p
                           end;
     premailer_transform := inliner;
     campaigns_create := create;
     campaigns_set_content := fun _ _ => Ok tt;
     campaigns_send_test_email := fun _ _ => Ok tt;
     campaigns_send := fun _ => Ok tt;
     soup_get_text := soup_get_text no_services;
     messages_create := messages_create no_services;
     render := render no_services;
     strftime := strftime no_services;
     session_unavailable := None;
     str_of_container := str_of_container no_services |}.

Definition campaign_c1 : json := JObj [(lit "id", JStr (lit "c1"))].

Definition pipeline_services (get : text -> result http_response)
           (css : option (result text)) (inliner : text -> result text)
  : services :=
  services_of get (requests_put no_services) css inliner (fun _ => Ok campaign_c1).

Definition answered (status : Z) (body : json) : http_response :=
  {| status_code := status; response_text := []; response_json := Ok body |}.

Definition s_in : state := {| logged_in := Some (JBool true); trace := [] |}.

Definition save_request : request :=
  post (JObj [(lit "html_content", JStr (lit "<p>hi</p>"));
              (lit "editor_notes", JStr (lit "fix typo"))]).

Definition linked_html : text :=
  lit "<html><head><link rel='stylesheet' href='/static/css/newsletter.css'></head><body><p>hi</p></body></html>".

(** A password but no session secret key. *)
Definition keyless_config : config :=
  {| SECRET_KEY := None;
     EDITOR_PASSWORD := Some (lit "hunter2");
     MOCK_MODE_var := MOCK_MODE_var prod_config;
     PREMAILER_AVAILABLE := true;
     GITHUB_HELPER_AVAILABLE := true;
     MAILCHIMP_AVAILABLE := true;
     ANTHROPIC_AVAILABLE := true;
     MAILCHIMP_API_KEY := MAILCHIMP_API_KEY prod_config;
     mailchimp_Client_ok := true;
     ANTHROPIC_API_KEY := ANTHROPIC_API_KEY prod_config;
     anthropic_Client_ok := true;
     GITHUB_TOKEN := GITHUB_TOKEN prod_config;
     RAILWAY_BACKEND_URL := RAILWAY_BACKEND_URL prod_config;
     MAILCHIMP_LIST_ID := MAILCHIMP_LIST_ID prod_config;
     REPLY_TO_EMAIL := REPLY_TO_EMAIL prod_config;
     EDITOR_EMAIL := EDITOR_EMAIL prod_config;
     module_dir := module_dir prod_config |}.

Definition editor_request : request :=
  {| request_url := lit "http://portal.example/editor/abc.html";
     request_method := GET;
     request_json := Raise (OtherError (lit "UnsupportedMediaType") []);
     request_form_password := None;
     request_args_next := None |}.

Definition gate_env (c : config) : env :=
  {| cfg := c; req := editor_request; svc := no_services |}.

Definition malformed_env : env :=
  {| cfg := prod_config;
     req := post (JObj [(lit "test_mode", JBool true)]);
     svc := pipeline_services (fun _ => Ok (served linked_html))
              (Some (Ok (lit "p { color: red }")))
              (fun _ => Raise (OtherError (lit "ParserError") (lit "malformed markup"))) |}.

Definition malformed_trace : list event :=
  [HttpGet (content_url malformed_env abc);
   FileExists (css_file_path prod_config);
   FileRead (css_file_path prod_config);
   PremailerTransform (inliner_input linked_html (lit "p { color: red }"))].

Definition mock_env : env :=
  {| cfg := dev_config;
     req := post (JObj [(lit "test_mode", JBool true)]);
     svc := pipeline_services (fun _ => Ok (served linked_html)) None
              (premailer_transform no_services) |}.


Definition abc_store_url : text :=
  github_helper.BASE_URL ++ lit "/contents/newsletters/abc.html".

(** The store answers every request with HTTP 500. *)
Definition store_down_env : env :=
  {| cfg := prod_config;
     req := save_request;
     svc := services_of
              (fun _ => Ok (answered 500 (JObj [(lit "message", JStr (lit "Server Error"))])))
              (requests_put no_services) None (premailer_transform no_services)
              (campaigns_create no_services) |}.

(** The email platform answers the creation of a campaign without an id. *)
Definition odd_campaign_env : env :=
  {| cfg := prod_config;
     req := post (JObj [(lit "test_mode", JBool true)]);
     svc := services_of (fun _ => Ok (served linked_html))
              (requests_put no_services) None (premailer_transform no_services)
              (fun _ => Ok (JObj [])) |}.

(** The backend serves the newsletter; parsing it for the review fails and
    the email platform refuses the campaign. *)
Definition refusing_env : env :=
  {| cfg := prod_config;
     req := post (JObj [(lit "test_mode", JBool true)]);
     svc := services_of (fun _ => Ok (served linked_html))
              (requests_put no_services) None (premailer_transform no_services)
              (campaigns_create no_services) |}.

(** The store has no such file and rejects the commit. *)
Definition rejecting_store_env : env :=
  {| cfg := prod_config;
     req := save_request;
     svc := services_of
              (fun _ => Ok (answered 404 (JObj [(lit "message", JStr (lit "Not Found"))])))
              (fun _ _ => Ok (answered 422 (JObj [(lit "message", JStr (lit "Invalid request"))])))
              None (premailer_transform no_services) (campaigns_create no_services) |}.

Definition hi_commit (sha : list (text * json)) : json :=
  JObj ([(lit "message",
          JStr (commit_message_of abc (lit "fix typo")));
         (lit "content", JStr (lit "PHA+aGk8L3A+"));
         (lit "branch", JStr (lit "main"))] ++ sha).

Definition empty_save_env (body : json) : env :=
  {| cfg := prod_config; req := post body; svc := no_services |}.

(** The store knows the file under marker [old1] and accepts the put. *)
Definition accepting_store_env (known : bool) : env :=
  {| cfg := prod_config;
     req := save_request;
     svc := services_of
              (fun _ => Ok (if known
                            then answered 200 (JObj [(lit "sha", JStr (lit "old1"))])
                            else answered 404 (JObj [(lit "message", JStr (lit "Not Found"))])))
              (fun _ _ => Ok (answered (if known then 200 else 201)
                                (JObj [(lit "commit", JObj [(lit "sha", JStr (lit "new2"))])])))
              None (premailer_transform no_services) (campaigns_create no_services) |}.

Definition empty_body_env : env :=
  {| cfg := prod_config;
     req := post (JObj [(lit "test_mode", JBool true)]);
     svc := services_of (fun _ => Ok (served []))
              (requests_put no_services) None (premailer_transform no_services)
              (campaigns_create no_services) |}.

(** Everything is configured, but the CSS asset is not on disk. *)
Definition no_css_env : env :=
  {| cfg := prod_config;
     req := post (JObj [(lit "test_mode", JBool true)]);
     svc := pipeline_services (fun _ => Ok (served linked_html)) None
              (fun html => Ok html) |}.

Definition split_link_html : text :=
  lit "<head><li<link href='newsletter.css'>nk rel='stylesheet' href='newsletter.css'></head>".

(** The CSS asset is on disk and the inliner answers. *)
Definition inlining_env : env :=
  {| cfg := prod_config;
     req := post (JObj [(lit "test_mode", JBool true)]);
     svc := pipeline_services (fun _ => Ok (served linked_html))
              (Some (Ok (lit "p { color: red }")))
              (fun _ => Ok (lit "<html><head></head><body><p style='color:red'>hi</p></body></html>")) |}.

Definition inlined_sample : text :=
  lit "<html><head></head><body><p style='color:red'>hi</p></body></html>".

(** What the inliner is given for [linked_html] and the stylesheet
    [p { color: red }]. *)
Definition unlinked_html : text :=
  lit "<html><head></head><body><p>hi</p></body></html>".

Definition styled_html : text :=
  lit "<html><head><style type=" ++ dquote ++ lit "text/css" ++ dquote
  ++ lit ">p { color: red }</style></head><body><p>hi</p></body></html>".

(** The CSS asset is on disk, with rules for no element of the newsletter:
    the inliner answers with HTML that has no [style] attribute. *)
Definition unstyled_env : env :=
  {| cfg := prod_config;
     req := post (JObj [(lit "test_mode", JBool true)]);
     svc := pipeline_services (fun _ => Ok (served linked_html))
              (Some (Ok (lit "h1 { color: red }")))
              (fun _ => Ok unlinked_html) |}.

(** Simulated mode, a test send, and a backend that cannot be reached. *)
Definition mock_down_env : env :=
  {| cfg := dev_config;
     req := post (JObj [(lit "test_mode", JBool true)]);
     svc := no_services |}.

(** * The rest of the portal: vocabulary, sample worlds and the index page *)

(** ** Logging in and out *)

Definition login_page (error : json) : json := JObj [(lit "error", error)].

Definition invalid_password : json :=
  JStr (lit "Invalid password. Please try again.").

Definition logged (s : state) : json :=
  match logged_in s with
  | Some v => v
  | None => JNull
  end.

Definition with_flag (s : state) (flag : option json) : state :=
  {| logged_in := flag; trace := trace s |}.

Definition login_post (password next : option text) : request :=
  {| request_url := lit "http://portal.example/login";
     request_method := POST;
     request_json := Raise (OtherError (lit "UnsupportedMediaType") []);
     request_form_password := password;
     request_args_next := next |}.

Definition login_env (r : request) : env :=
  {| cfg := prod_config; req := r; svc := no_services |}.

(** The same request where a password is set but no session secret key. *)
Definition keyless_login_env (r : request) : env :=
  {| cfg := keyless_config; req := r; svc := no_services |}.

(** The session raises [x] at every access. *)
Definition broken_session (x : exn) : services :=
  {| requests_get := requests_get no_services;
     requests_put := requests_put no_services;
     path_exists := path_exists no_services;
     read_file := read_file no_services;
     premailer_transform := premailer_transform no_services;
     campaigns_create := campaigns_create no_services;
     campaigns_set_content := campaigns_set_content no_services;
     campaigns_send_test_email := campaigns_send_test_email no_services;
     campaigns_send := campaigns_send no_services;
     soup_get_text := soup_get_text no_services;
     messages_create := messages_create no_services;
     render := render no_services;
     strftime := strftime no_services;
     session_unavailable := Some x;
     str_of_container := str_of_container no_services |}.

Definition broken_session_env (x : exn) : env :=
  {| cfg := prod_config; req := editor_request; svc := broken_session x |}.

(** ** The version-control store *)

(** [response.json().get("message", "Unknown error")] on a dict body. *)
Definition rejection_message (body : list (text * json)) : json :=
  match assoc (lit "message") body with
  | Some m => m
  | None => JStr (lit "Unknown error")
  end.

Definition is_surrogate (c : char) : bool := ((55296 <=? c) && (c <=? 57343))%N.

Definition is_string (v : json) : bool :=
  match v with
  | JStr _ => true
  | _ => false
  end.

Definition no_encode : exn := AttributeError (lit "object has no attribute 'encode'").

(** The store answers the fetch of the marker with [status] and [body]. *)
Definition marker_env (status : Z) (body : json) : env :=
  {| cfg := prod_config;
     req := save_request;
     svc := services_of (fun _ => Ok (answered status body))
              (requests_put no_services) None (premailer_transform no_services)
              (campaigns_create no_services) |}.

(** The store answers the marker request with HTTP 200 and a body that is
    no JSON. *)
Definition undecodable_marker_env : env :=
  {| cfg := prod_config;
     req := save_request;
     svc := services_of (fun _ => Ok (served (lit "<html>")))
              (requests_put no_services) None (premailer_transform no_services)
              (campaigns_create no_services) |}.

(** A save request whose content is [content], to a store with no such
    file that answers the put with 422 and [body]. *)
Definition rejected_save_env (content : json) (body : json) : env :=
  {| cfg := prod_config;
     req := post (JObj [(lit "html_content", content);
                        (lit "editor_notes", JStr (lit "fix typo"))]);
     svc := services_of
              (fun _ => Ok (answered 404 (JObj [])))
              (fun _ _ => Ok (answered 422 body))
              None (premailer_transform no_services) (campaigns_create no_services) |}.

(** ** The link pattern and the case of letters *)

Definition ascii_upper (c : char) : char :=
  (if (97 <=? c) && (c <=? 122) then c - 32 else c)%N.

(** [g] changes at most the case of ASCII letters. *)
Definition recases (g : char -> char) : Prop :=
  forall c, ascii_lower (g c) = ascii_lower c.

(** No test of the pattern tells [g c] from [c]. *)
Fixpoint respects (g : char -> char) (p : list item) : Prop :=
  match p with
  | [] => True
  | One f :: p' | Star f :: p' => (forall c, f (g c) = f c) /\ respects g p'
  end.

Definition upper_head_html : text :=
  lit "<HTML><HEAD><LINK REL='stylesheet' HREF='/static/css/newsletter.css'></HEAD><BODY><P>hi</P></BODY></HTML>".

(** ** The email platform and the AI provider *)

(** The calls to the email platform among the events of a run. *)
Definition email_calls (evs : list event) : list event :=
  List.filter is_email_call evs.

(** The last step of the email stage: a test email for a true [test_mode],
    the send to the whole list otherwise. *)
Definition last_email_call (e : env) (cid test_mode : json) : event :=
  if truthy test_mode
  then CampaignsSendTestEmail cid (test_payload_of e)
  else CampaignsSend cid.

Definition review_reply (review : text) : response :=
  Json 200 (JObj [(lit "success", JBool true); (lit "review", JStr review)]).

(** The provider answers the review prompt with the blocks [blocks]. *)
Definition reviewing_env (blocks : result (list text)) : env :=
  {| cfg := prod_config;
     req := post (JObj []);
     svc := {| requests_get := fun _ => Ok (served (lit "<p>Rates rose.</p>"));
               requests_put := requests_put no_services;
               path_exists := path_exists no_services;
               read_file := read_file no_services;
               premailer_transform := premailer_transform no_services;
               campaigns_create := campaigns_create no_services;
               campaigns_set_content := campaigns_set_content no_services;
               campaigns_send_test_email := campaigns_send_test_email no_services;
               campaigns_send := campaigns_send no_services;
               soup_get_text := fun _ => Ok (lit "Rates rose.");
               messages_create := fun _ => blocks;
               render := render no_services;
               strftime := strftime no_services;
               session_unavailable := None;
               str_of_container := str_of_container no_services |} |}.

(** ** The listing and the index page *)

(** The values that [len] accepts. *)
Definition sized (v : json) : bool :=
  match v with
  | JStr _ | JList _ | JObj _ => true
  | _ => false
  end.

(** The page that [index] returns when its [try] raises: [found] is the
    count it shows, [error] the text of the exception. *)
Definition index_fallback (found error : text) : text :=
  nl ++ lit "        <html>"
  ++ nl ++ lit "        <head><title>Alphaminr Newsletter Generator</title></head>"
  ++ nl ++ lit "        <body>"
  ++ nl ++ lit "            <h1>Alphaminr Newsletter Generator</h1>"
  ++ nl ++ lit "            <p>Status: Working (Template issue resolved)</p>"
  ++ nl ++ lit "            <p>Newsletters found: " ++ found ++ lit "</p>"
  ++ nl ++ lit "            <p>Error: " ++ error ++ lit "</p>"
  ++ nl ++ lit "            <a href=" ++ dquote ++ lit "/api/test" ++ dquote
        ++ lit ">Test API</a> | "
  ++ nl ++ lit "            <a href=" ++ dquote ++ lit "/health" ++ dquote
        ++ lit ">Health Check</a> |"
  ++ nl ++ lit "            <a href=" ++ dquote ++ lit "/api/env-check" ++ dquote
        ++ lit ">Environment Check</a>"
  ++ nl ++ lit "        </body>"
  ++ nl ++ lit "        </html>"
  ++ nl ++ lit "        ".

(** The keyword argument [newsletters] of the index template. *)
Definition index_context (newsletters : json) : json :=
  JObj [(lit "newsletters", newsletters)].

(** The handler of [/].  Its [except] reads the local [newsletters] only
    when the call that binds it has returned: [inl] is the bound local,
    [inr] the exception of the call that was to bind it. *)
Definition index : M response :=
  bound <- try_except (newsletters <- get_all_newsletters ;; ret (inl newsletters))
                      (any_exception (fun x => ret (inr x))) ;;
  match bound with
  | inl newsletters =>
      try_except
        (page <- render_template "index.html" (index_context newsletters) ;;
         ret (Page 200 page))
        (any_exception (fun x =>
           found <- lift (py_len newsletters) ;;
           ret (Page 200 (index_fallback (Z_to_text found) (exn_str x)))))
  | inr x => ret (Page 200 (index_fallback (lit "0") (exn_str x)))
  end.

Definition route_index : M response := login_required index.

(** The backend answers the listing request with HTTP 200 and [body]. *)
Definition listing_env (body : json) : env :=
  {| cfg := prod_config;
     req := editor_request;
     svc := services_of (fun _ => Ok (answered 200 body))
              (requests_put no_services) None (premailer_transform no_services)
              (campaigns_create no_services) |}.

(** * The generation and listing routes

    The handlers below reach collaborators that the handlers above do not:
    the backend's generation endpoint, the directory of generated
    newsletters and the interpreter itself.  They are embedded in a second
    monad of the same shape, over the [host] together with the [env], with
    a trace of [host_event]s; they do not touch the session. *)

(** [os.path.join(a, b)] on POSIX. *)
Definition path_join (a b : text) : text :=
  if starts_with (lit "/") b then b
  else match List.rev a with
       | [] => b
       | last :: _ => if char_eqb last 47%N then a ++ b else a ++ lit "/" ++ b
       end.

(** [s.endswith(suffix)] *)
Definition ends_with (suffix s : text) : bool :=
  starts_with (List.rev suffix) (List.rev s).

Definition is_html (filename : text) : bool := ends_with (lit ".html") filename.

(** [a < b] on [str]: code point by code point, a proper prefix first. *)
Fixpoint text_ltb (a b : text) : bool :=
  match a, b with
  | _, [] => false
  | [], _ :: _ => true
  | x :: a', y :: b' => (x <? y)%N || ((x =? y)%N && text_ltb a' b')
  end.

Record host := {
  import_requests : result unit;       (* [import requests], [import time] in a handler *)
  requests_post : text -> json -> result http_response;
  unbound_local : text -> text;        (* the message of UnboundLocalError for a name *)
  format_exc : exn -> text;            (* traceback.format_exc() while the exception is handled *)
  makedirs : text -> result unit;      (* os.makedirs(path, exist_ok=True) *)
  open_for_writing : text -> result unit;
  write_file : text -> text -> result unit;
  listdir : text -> result (list text);
  getctime : text -> result Z;         (* a finite float; only its order is used *)
  stat : text -> result (text * Z)     (* fromtimestamp(st_ctime).isoformat() and st_size *)
}.

Inductive host_event :=
| Portal (ev : event)
| HttpPost (url : text) (body : json)
| MakeDirs (path : text)
| FileOpen (path : text)
| FileWrite (path : text) (content : text)
| ListDir (path : text)
| GetCTime (path : text)
| Stat (path : text).

Definition H (A : Type) : Type :=
  host -> env -> list host_event -> result A * list host_event.

Module Host.

Definition ret {A} (a : A) : H A := fun _ _ t => (Ok a, t).

Definition raise {A} (x : exn) : H A := fun _ _ t => (Raise x, t).

Definition bind {A B} (m : H A) (k : A -> H B) : H B :=
  fun h e t =>
    match m h e t with
    | (Ok a, t') => k a h e t'
    | (Raise x, t') => (Raise x, t')
    end.

Definition ask : H env := fun _ e t => (Ok e, t).

Definition ask_host : H host := fun h _ t => (Ok h, t).

Definition lift {A} (r : result A) : H A := fun _ _ t => (r, t).

Definition try_except {A} (body : H A) (handler : exn -> option (H A)) : H A :=
  fun h e t =>
    match body h e t with
    | (Ok a, t') => (Ok a, t')
    | (Raise x, t') =>
        match handler x with
        | Some k => k h e t'
        | None => (Raise x, t')
        end
    end.

(** [except Exception as e] *)
Definition any_exception {A} (k : exn -> H A) : exn -> option (H A) :=
  fun x => Some (k x).

(** A call to a collaborator of the host: recorded, then answered. *)
Definition call {A} (ev : host_event) (answer : host -> result A) : H A :=
  fun h _ t => (answer h, t ++ [ev]).

(** A call to a collaborator that the other handlers share. *)
Definition portal {A} (ev : event) (answer : services -> result A) : H A :=
  fun _ e t => (answer (svc e), t ++ [Portal ev]).

(** A read of a local variable of the running function: [None] while no
    statement has bound it. *)
Definition local {A} (name : string) (v : option A) : H A :=
  fun h _ t =>
    match v with
    | Some a => (Ok a, t)
    | None => (Raise (OtherError (lit "UnboundLocalError") (unbound_local h (lit name))), t)
    end.

(** [str(v)], as an f-string formats a value. *)
Definition py_str (v : json) : H text :=
  fun _ e t => (Ok (str_of (svc e) v), t).

End Host.

Declare Scope host_scope.
Delimit Scope host_scope with host.
Bind Scope host_scope with H.
Notation "x <- m ;; k" := (Host.bind m (fun x => k))
  (at level 61, m at next level, right associativity) : host_scope.
Notation "m ;; k" := (Host.bind m (fun _ => k))
  (at level 61, right associativity) : host_scope.
Local Open Scope host_scope.

(** [os.path.exists(path)] *)
Definition exists_on_disk (path : text) : H bool :=
  Host.portal (FileExists path) (fun s => Ok (path_exists s path)).

Definition lock_file (c : config) : text :=
  path_join (module_dir c) (lit "generation.lock").

(** *** [generate_newsletter] *)

Definition mock_generated (mock_id : text) : response :=
  Json 200 (JObj [(lit "success", JBool true);
                  (lit "message", JStr (lit "[MOCK] Newsletter generated!"));
                  (lit "newsletter_id", JStr mock_id)]).

Definition generation_in_progress : response :=
  Json 409 (JObj [(lit "error",
                   JStr (lit "Newsletter generation is already in progress. Please wait for it to complete."))]).

(** Lines 419 to 443: the generated newsletter is written to the newsletters
    directory and the success is answered.  [init_database] is a name that
    the module does not define; the [NameError] is caught on the spot. *)
Definition save_generated (data html_content newsletter_id : json) : H response :=
  newsletter_path <- Host.lift
    match newsletter_id with
    | JStr name => Ok (path_join NEWSLETTER_DIR name)
    | _ => Raise (TypeError (lit "expected str, bytes or os.PathLike object"))
    end ;;
  Host.call (MakeDirs NEWSLETTER_DIR) (fun h => makedirs h NEWSLETTER_DIR) ;;
  Host.call (FileOpen newsletter_path) (fun h => open_for_writing h newsletter_path) ;;
  content <- Host.lift
    match html_content with
    | JStr s => Ok s
    | _ => Raise (TypeError (lit "write() argument must be str"))
    end ;;
  Host.call (FileWrite newsletter_path content)
            (fun h => write_file h newsletter_path content) ;;
  Host.try_except (Host.raise (NameError (lit "init_database")))
                  (Host.any_exception (fun _ => Host.ret tt)) ;;
  shown <- Host.py_str newsletter_id ;;
  generation_time <- Host.lift (py_get data (lit "generation_time_seconds") (JInt 0)) ;;
  total_time <- Host.lift (py_get data (lit "total_time_seconds") (JInt 0)) ;;
  Host.ret (Json 200 (JObj [(lit "success", JBool true);
                            (lit "message",
                             JStr (lit "Newsletter generated successfully! Saved as " ++ shown));
                            (lit "newsletter_id", newsletter_id);
                            (lit "generation_time", generation_time);
                            (lit "total_time", total_time)])).

(** Lines 403 to 451, from the binding of [railway_url] on.  [datetime] is
    the local variable of [generate_newsletter] of that name: the function
    binds it, by the import of its mock branch, so every use in the function
    reads the local.  The default of the [get] of [newsletter_id] is
    evaluated before the [get] is called. *)
Definition generate_request (datetime : option unit) (railway_url : text) : H response :=
  let api_url := railway_url ++ lit "/api/generate" in
  response <- Host.call (HttpPost api_url (JObj []))
                        (fun h => requests_post h api_url (JObj [])) ;;
  if (status_code response =? 200)%Z then
    data <- Host.lift (response_json response) ;;
    success <- Host.lift (py_get data (lit "success") JNull) ;;
    if truthy success then
      html_content <- Host.lift (py_get data (lit "html") (JStr [])) ;;
      Host.local "datetime" datetime ;;
      e <- Host.ask ;;
      let default := lit "alphaminr_" ++ strftime (svc e) "%Y-%m-%d_%H%M" ++ lit ".html" in
      newsletter_id <- Host.lift (py_get data (lit "newsletter_id") (JStr default)) ;;
      save_generated data html_content newsletter_id
    else
      error <- Host.lift (py_get data (lit "error") (JStr (lit "Unknown error"))) ;;
      shown <- Host.py_str error ;;
      Host.ret (Json 500 (JObj [(lit "error",
                                 JStr (lit "Backend generation failed: " ++ shown))]))
  else
    Host.ret (Json 500 (JObj [(lit "error",
                               JStr (lit "API call failed with status "
                                     ++ Z_to_text (status_code response)
                                     ++ lit ": " ++ response_text response))])).

(** The inner [except Exception as e] of [generate_newsletter].  It reads the
    local [railway_url], which the [try] binds after its imports. *)
Definition generation_failed (railway_url : option text) (x : exn) : H response :=
  h <- Host.ask_host ;;
  url <- Host.local "railway_url" railway_url ;;
  Host.ret (Json 500 (JObj [(lit "error",
                             JStr (lit "Failed to generate newsletter: " ++ exn_str x));
                            (lit "traceback", JStr (format_exc h x));
                            (lit "railway_url", JStr url)])).

Definition generate_newsletter : H response :=
  e <- Host.ask ;;
  if MOCK_MODE (cfg e) then
    (* [from datetime import datetime] has just bound the local *)
    let mock_id := lit "alphaminr_" ++ strftime (svc e) "%Y-%m-%d" ++ lit ".html" in
    Host.ret (mock_generated mock_id)
  else
    let datetime : option unit := None in
    Host.try_except
      (locked <- exists_on_disk (lock_file (cfg e)) ;;
       if locked : bool then Host.ret generation_in_progress
       else
         imported <- Host.try_except
           (h <- Host.ask_host ;; Host.lift (import_requests h) ;; Host.ret None)
           (Host.any_exception (fun x =>
              r <- generation_failed None x ;; Host.ret (Some r))) ;;
         match imported with
         | Some r => Host.ret r
         | None =>
             let railway_url := railway_url (cfg e) in
             Host.try_except (generate_request datetime railway_url)
               (Host.any_exception (generation_failed (Some railway_url)))
         end)
      (Host.any_exception (fun x =>
         Host.ret (Json 500 (JObj [(lit "error",
                                    JStr (lit "Failed to start generation: " ++ exn_str x))])))).

(** *** [generation_status] *)

(** [max(files, key=key)] from the second element on: [best] is the element
    kept so far, replaced only by one whose key is greater. *)
Fixpoint max_from (key : text -> H Z) (best : text) (best_key : Z) (rest : list text)
  : H text :=
  match rest with
  | [] => Host.ret best
  | x :: rest' =>
      k <- key x ;;
      if (best_key <? k)%Z then max_from key x k rest'
      else max_from key best best_key rest'
  end.

Definition newsletter_dir (c : config) : text :=
  path_join (module_dir c) (lit "newsletters").

Definition ctime_in (dir : text) (x : text) : H Z :=
  Host.call (GetCTime (path_join dir x)) (fun h => getctime h (path_join dir x)).

Definition status_in_progress : response :=
  Json 200 (JObj [(lit "status", JStr (lit "in_progress"));
                  (lit "message", JStr (lit "Newsletter generation is currently running..."))]).

Definition status_completed (latest_file : text) : response :=
  Json 200 (JObj [(lit "status", JStr (lit "completed"));
                  (lit "message", JStr (lit "Latest newsletter: " ++ latest_file));
                  (lit "latest_file", JStr latest_file)]).

Definition status_idle : response :=
  Json 200 (JObj [(lit "status", JStr (lit "idle"));
                  (lit "message",
                   JStr (lit "No generation in progress and no newsletters found"))]).

Definition generation_status : H response :=
  Host.try_except
    (e <- Host.ask ;;
     locked <- exists_on_disk (lock_file (cfg e)) ;;
     if locked : bool then Host.ret status_in_progress
     else
       let dir := newsletter_dir (cfg e) in
       present <- exists_on_disk dir ;;
       if present : bool then
         entries <- Host.call (ListDir dir) (fun h => listdir h dir) ;;
         match List.filter is_html entries with
         | first :: rest =>
             first_key <- ctime_in dir first ;;
             latest_file <- max_from (ctime_in dir) first first_key rest ;;
             Host.ret (status_completed latest_file)
         | [] => Host.ret status_idle
         end
       else Host.ret status_idle)
    (Host.any_exception (fun x =>
       Host.ret (Json 500 (JObj [(lit "error",
                                  JStr (lit "Status check failed: " ++ exn_str x))])))).

(** *** [get_newsletters] *)

Definition newsletter_entry (filename created : text) (size : Z) : json :=
  JObj [(lit "filename", JStr filename);
        (lit "created", JStr created);
        (lit "size", JInt size);
        (lit "location", JStr (lit "newsletters"))].

(** The loop over the directory: one [os.stat] for every [.html] entry. *)
Fixpoint stat_entries (names : list text) : H (list json) :=
  match names with
  | [] => Host.ret []
  | filename :: names' =>
      if is_html filename then
        let filepath := path_join NEWSLETTER_DIR filename in
        st <- Host.call (Stat filepath) (fun h => stat h filepath) ;;
        newsletters <- stat_entries names' ;;
        Host.ret (newsletter_entry filename (fst st) (snd st) :: newsletters)
      else stat_entries names'
  end.

(** The sort key [x['created']] of an entry. *)
Definition created_of (entry : json) : text :=
  match py_index entry (lit "created") with
  | Ok (JStr created) => created
  | _ => []
  end.

(** [list.sort(key=key, reverse=True)]: the sort is stable, so the result is
    that of inserting each element, last to first, before the first element
    that is not greater than it. *)
Fixpoint insert_desc (key : json -> text) (x : json) (sorted : list json) : list json :=
  match sorted with
  | [] => [x]
  | y :: sorted' =>
      if text_ltb (key x) (key y) then y :: insert_desc key x sorted'
      else x :: sorted
  end.

Definition sort_reverse (key : json -> text) (l : list json) : list json :=
  List.fold_right (insert_desc key) [] l.

Definition get_newsletters : H response :=
  Host.try_except
    (present <- exists_on_disk NEWSLETTER_DIR ;;
     newsletters <- (if present : bool then
                       names <- Host.call (ListDir NEWSLETTER_DIR)
                                          (fun h => listdir h NEWSLETTER_DIR) ;;
                       stat_entries names
                     else Host.ret []) ;;
     Host.ret (Json 200 (JList (sort_reverse created_of newsletters))))
    (Host.any_exception (fun x =>
       Host.ret (Json 500 (JObj [(lit "error",
                                  JStr (lit "Failed to list newsletters: " ++ exn_str x))])))).

(** *** [env_check] *)

Definition set_or_not (v : option text) : json :=
  JStr (if env_truthy v then lit "Set" else lit "Not set").

Definition env_check : H response :=
  Host.try_except
    (e <- Host.ask ;;
     let env_vars :=
       JObj [(lit "SECRET_KEY", set_or_not (SECRET_KEY (cfg e)));
             (lit "EDITOR_PASSWORD", set_or_not (EDITOR_PASSWORD (cfg e)));
             (lit "RAILWAY_BACKEND_URL",
              JStr (env_default (RAILWAY_BACKEND_URL (cfg e)) (lit "Not set")));
             (lit "ANTHROPIC_API_KEY", set_or_not (ANTHROPIC_API_KEY (cfg e)));
             (lit "MAILCHIMP_API_KEY", set_or_not (MAILCHIMP_API_KEY (cfg e)))] in
     Host.ret (Json 200 (JObj [(lit "status", JStr (lit "ok"));
                               (lit "environment_variables", env_vars)])))
    (Host.any_exception (fun x =>
       h <- Host.ask_host ;;
       Host.ret (Json 500 (JObj [(lit "status", JStr (lit "error"));
                                 (lit "error", JStr (exn_str x));
                                 (lit "traceback", JStr (format_exc h x))])))).

Close Scope host_scope.

(** ** Vocabulary and sample hosts of the generation and listing routes *)

Definition touches_disk (ev : host_event) : bool :=
  match ev with
  | MakeDirs _ | FileOpen _ | FileWrite _ _ => true
  | _ => false
  end.

(** The URL of the backend's generation endpoint. *)
Definition generate_url (e : env) : text := railway_url (cfg e) ++ lit "/api/generate".

(** The exception of a read of the local [name] before any binding. *)
Definition unbound (h : host) (name : string) : exn :=
  OtherError (lit "UnboundLocalError") (unbound_local h (lit name)).

Definition generation_lost (h : host) (e : env) : response :=
  Json 500 (JObj [(lit "error",
                   JStr (lit "Failed to generate newsletter: "
                         ++ unbound_local h (lit "datetime")));
                  (lit "traceback", JStr (format_exc h (unbound h "datetime")));
                  (lit "railway_url", JStr (railway_url (cfg e)))]).

(** What the configuration shows to [env_check]: whether each secret is
    set, and the backend URL. *)
Definition same_exposure (c1 c2 : config) : Prop :=
  env_truthy (SECRET_KEY c1) = env_truthy (SECRET_KEY c2) /\
  env_truthy (EDITOR_PASSWORD c1) = env_truthy (EDITOR_PASSWORD c2) /\
  env_truthy (ANTHROPIC_API_KEY c1) = env_truthy (ANTHROPIC_API_KEY c2) /\
  env_truthy (MAILCHIMP_API_KEY c1) = env_truthy (MAILCHIMP_API_KEY c2) /\
  RAILWAY_BACKEND_URL c1 = RAILWAY_BACKEND_URL c2.

(** [created a >= created b], as the sort compares two entries. *)
Definition not_older (a b : json) : Prop :=
  text_ltb (created_of a) (created_of b) = false.

(** A host on which the backend's generation endpoint answers [generated]
    and the newsletters directory lists [names], with the change time and
    the creation text that [times] gives. *)
Definition host_of (generated : result http_response) (names : list text)
           (times : text -> Z * text) : host :=
  {| import_requests := Ok tt;
     requests_post := fun _ _ => generated;
     unbound_local := fun name =>
       lit "cannot access local variable '" ++ name
       ++ lit "' where it is not associated with a value";
     format_exc := fun _ => lit "Traceback (most recent call last): ...";
     makedirs := fun _ => Ok tt;
     open_for_writing := fun _ => Ok tt;
     write_file := fun _ _ => Ok tt;
     listdir := fun _ => Ok names;
     getctime := fun path => Ok (fst (times path));
     stat := fun path => Ok (snd (times path), 120%Z) |}.

Definition generated_ok : http_response :=
  answered 200 (JObj [(lit "success", JBool true);
                      (lit "html", JStr (lit "<p>hi</p>"));
                      (lit "newsletter_id", JStr (lit "alphaminr_2024-05-01_0900.html"))]).

(** Production set-up, no lock file; the directories exist when [dirs]. *)
Definition live_env (dirs : bool) : env :=
  {| cfg := prod_config;
     req := post (JObj []);
     svc := {| requests_get := requests_get no_services;
               requests_put := requests_put no_services;
               path_exists := fun path =>
                 dirs && negb (ends_with (lit "generation.lock") path);
               read_file := read_file no_services;
               premailer_transform := premailer_transform no_services;
               campaigns_create := campaigns_create no_services;
               campaigns_set_content := campaigns_set_content no_services;
               campaigns_send_test_email := campaigns_send_test_email no_services;
               campaigns_send := campaigns_send no_services;
               soup_get_text := soup_get_text no_services;
               messages_create := messages_create no_services;
               render := render no_services;
               strftime := strftime no_services;
               session_unavailable := None;
               str_of_container := str_of_container no_services |} |}.

Definition three_files : list text :=
  [lit "a.html"; lit "notes.txt"; lit "b.html"; lit "c.html"].

(** [b.html] and [c.html] are equally recent, [a.html] is older. *)
Definition three_times (path : text) : Z * text :=
  if ends_with (lit "a.html") path then (100%Z, lit "2024-05-01T09:00:00")
  else (200%Z, lit "2024-05-02T09:00:00").

(** The production set-up with every secret changed. *)
Definition rotated_config : config :=
  {| SECRET_KEY := Some (lit "another-k3y");
     EDITOR_PASSWORD := Some (lit "correct horse");
     MOCK_MODE_var := MOCK_MODE_var prod_config;
     PREMAILER_AVAILABLE := true;
     GITHUB_HELPER_AVAILABLE := true;
     MAILCHIMP_AVAILABLE := true;
     ANTHROPIC_AVAILABLE := true;
     MAILCHIMP_API_KEY := Some (lit "mc-key-2");
     mailchimp_Client_ok := true;
     ANTHROPIC_API_KEY := Some (lit "ai-key-2");
     anthropic_Client_ok := true;
     GITHUB_TOKEN := Some (lit "gh-token-2");
     RAILWAY_BACKEND_URL := RAILWAY_BACKEND_URL prod_config;
     MAILCHIMP_LIST_ID := Some (lit "list2");
     REPLY_TO_EMAIL := REPLY_TO_EMAIL prod_config;
     EDITOR_EMAIL := EDITOR_EMAIL prod_config;
     module_dir := module_dir prod_config |}.

Definition rotated_env : env :=
  {| cfg := rotated_config; req := editor_request; svc := no_services |}.

(** * Properties *)

(** ** The library models on examples *)

Example remove_css_link_plain :
  remove_css_link (lit "<head><link rel='stylesheet' href='/static/css/newsletter.css'></head>")
  = lit "<head></head>".
Proof. vm_compute. reflexivity. Qed.

Example remove_css_link_upper :
  remove_css_link (lit "a<LINK HREF='x/NEWSLETTER.CSS' media=all>b<p>") = lit "ab<p>".
Proof. vm_compute. reflexivity. Qed.

Example b64encode_hi :
  option_map b64encode (utf8_encode (lit "<p>hi</p>")) = Some (lit "PHA+aGk8L3A+").
Proof. vm_compute. reflexivity. Qed.

(** ** Running computations *)

Lemma bind_Ok {A B} (m : M A) (k : A -> M B) e s a s' :
  m e s = (Ok a, s') -> bind m k e s = k a e s'.
Proof. intros H. unfold bind. rewrite H. reflexivity. Qed.

Lemma call_run {A} (ev : event) (answer : services -> result A) e s :
  call ev answer e s = (answer (svc e), record s ev).
Proof. reflexivity. Qed.

Lemma try_except_Ok {A} (body : M A) h e s a s' :
  body e s = (Ok a, s') -> try_except body h e s = (Ok a, s').
Proof. intros H. unfold try_except. rewrite H. reflexivity. Qed.

Lemma try_except_any {A} (body : M A) (k : exn -> M A) e s x s' :
  body e s = (Raise x, s') -> try_except body (any_exception k) e s = k x e s'.
Proof. intros H. unfold try_except. rewrite H. reflexivity. Qed.

Lemma extend_extend s a b : extend (extend s a) b = extend s (a ++ b).
Proof. unfold extend. simpl. rewrite <- app_assoc. reflexivity. Qed.

Lemma record_is_extend s ev : record s ev = extend s [ev].
Proof. reflexivity. Qed.

Ltac trace_norm :=
  unfold record, extend; simpl; repeat rewrite <- app_assoc; simpl.

(** ** The newsletter store proxy *)

Lemma get_all_newsletters_on_failure e s :
  list_call_fails e ->
  get_all_newsletters e s = (Ok (JList []), record s (HttpGet (list_url e))).
Proof.
  intros F. unfold get_all_newsletters, try_except, bind, ask.
  rewrite call_run.
  destruct F as [x H | r H Hs | r x H Hj | r data flag H Hj Hg Ht]; rewrite H.
  - reflexivity.
  - apply Z.eqb_neq in Hs. rewrite Hs. reflexivity.
  - destruct (status_code r =? 200)%Z; [|reflexivity].
    unfold lift. rewrite Hj. reflexivity.
  - destruct (status_code r =? 200)%Z; [|reflexivity].
    unfold lift. rewrite Hj, Hg, Ht. reflexivity.
Qed.

Lemma get_newsletter_content_on_failure e s id :
  content_call_fails e id ->
  get_newsletter_content id e s = (Ok None, record s (HttpGet (content_url e id))).
Proof.
  intros F. unfold get_newsletter_content, try_except, bind, ask.
  rewrite call_run.
  destruct F as [x H | r H Hs]; rewrite H.
  - reflexivity.
  - apply Z.eqb_neq in Hs. rewrite Hs. reflexivity.
Qed.

(** Both functions are total: whatever the backend does, they end without
    an exception, having made the one request to the backend and nothing
    else. *)
Lemma get_all_newsletters_total e s :
  exists v, get_all_newsletters e s = (Ok v, record s (HttpGet (list_url e))).
Proof.
  unfold get_all_newsletters, try_except, bind, ask.
  rewrite call_run.
  destruct (requests_get (svc e) (list_url e)) as [r|x]; [|eexists; reflexivity].
  destruct (status_code r =? 200)%Z; [|eexists; reflexivity].
  unfold lift. destruct (response_json r) as [data|x]; [|eexists; reflexivity].
  destruct (py_get data (lit "success") JNull) as [flag|x]; [|eexists; reflexivity].
  destruct (truthy flag); [|eexists; reflexivity].
  destruct (py_get data (lit "newsletters") (JList [])) as [n|x]; [|eexists; reflexivity].
  destruct (py_len n); eexists; reflexivity.
Qed.

Lemma get_newsletter_content_total e s id :
  exists v, get_newsletter_content id e s
            = (Ok v, record s (HttpGet (content_url e id))).
Proof.
  unfold get_newsletter_content, try_except, bind, ask.
  rewrite call_run.
  destruct (requests_get (svc e) (content_url e id)) as [r|x]; [|eexists; reflexivity].
  destruct (status_code r =? 200)%Z; eexists; reflexivity.
Qed.

Lemma get_newsletter_content_served e s id html :
  backend_serves e id html ->
  get_newsletter_content id e s
  = (Ok (Some html), record s (HttpGet (content_url e id))).
Proof.
  intros (r & Hget & Hst & Htx).
  unfold get_newsletter_content, try_except, bind, ask.
  rewrite call_run. rewrite Hget, Hst, Htx.
  reflexivity.
Qed.

(** [C1] While the backend call fails (the request or the decoding of its
    answer raises, the status is not 200, or the listing's [success] flag is
    false), [get_all_newsletters] returns the empty list and
    [get_newsletter_content] returns [None]; both end without an exception,
    and the only call either has made to the outside is its one request to
    the backend: no local file is looked up or read. *)
Theorem store_proxy_failure e s id :
  (list_call_fails e ->
   exists evs,
     get_all_newsletters e s = (Ok (JList []), extend s evs) /\
     existsb is_file_access evs = false) /\
  (content_call_fails e id ->
   exists evs,
     get_newsletter_content id e s = (Ok None, extend s evs) /\
     existsb is_file_access evs = false).
Proof.
  split; intros F.
  - exists [HttpGet (list_url e)]. split; [|reflexivity].
    now apply get_all_newsletters_on_failure.
  - exists [HttpGet (content_url e id)]. split; [|reflexivity].
    now apply get_newsletter_content_on_failure.
Qed.

Lemma store_proxy_failure_witness :
  (exists evs,
     get_all_newsletters down_env s0 = (Ok (JList []), extend s0 evs) /\
     existsb is_file_access evs = false) /\
  (exists evs,
     get_newsletter_content abc down_env s0 = (Ok None, extend s0 evs) /\
     existsb is_file_access evs = false).
Proof.
  destruct (store_proxy_failure down_env s0 abc) as [L C].
  split.
  - apply L. apply list_raises with (x := unreachable). reflexivity.
  - apply C. apply content_raises with (x := unreachable). reflexivity.
Defined.

(** ** The authentication gate *)

Lemma session_get_available e s :
  session_unavailable (svc e) = None ->
  session_get_logged_in e s
  = (Ok match logged_in s with Some v => v | None => JNull end, s).
Proof.
  intros H. unfold session_get_logged_in, session_guard, bind, ask.
  rewrite H. reflexivity.
Qed.

Lemma is_True_iff v : is_True v = true <-> v = JBool true.
Proof.
  split.
  - destruct v as [|[|]| | | | |]; simpl; intros H; congruence.
  - intros ->. reflexivity.
Qed.

Lemma login_required_enforced e s f :
  env_truthy (EDITOR_PASSWORD (cfg e)) = true ->
  env_truthy (SECRET_KEY (cfg e)) = true ->
  session_unavailable (svc e) = None ->
  login_required f e s
  = if is_True match logged_in s with Some v => v | None => JNull end
    then f e s else (Ok (to_login e), s).
Proof.
  intros Hpw Hkey Hsession.
  unfold login_required, bind, ask. rewrite Hpw, Hkey. simpl.
  unfold try_except, bind. rewrite (session_get_available e s Hsession).
  destruct (is_True match logged_in s with Some v => v | None => JNull end);
    reflexivity.
Qed.

(** The branch of [login_required] for a session that cannot be read: the
    handler runs. *)
Lemma login_required_session_unavailable e s f msg :
  env_truthy (EDITOR_PASSWORD (cfg e)) = true ->
  env_truthy (SECRET_KEY (cfg e)) = true ->
  session_unavailable (svc e) = Some (RuntimeError msg) ->
  login_required f e s = f e s.
Proof.
  intros Hpw Hkey Hsession.
  unfold login_required, bind, ask. rewrite Hpw, Hkey. simpl.
  unfold try_except, bind, session_get_logged_in, session_guard, bind, ask.
  rewrite Hsession. unfold raise.
  destruct (f e s) as [[r|x] s']; reflexivity.
Qed.

(** [C5] The gate of a protected route.  With no editor password the
    handler runs; with a password but no session secret key the handler
    runs; with both, and a session that can be read, the handler runs
    exactly when [session['logged_in']] is [True], and otherwise the answer
    is a redirect to [login] whose [next] is the requested URL, the handler
    not having run. *)
Theorem login_required_gate e s f :
  (env_truthy (EDITOR_PASSWORD (cfg e)) = false -> login_required f e s = f e s) /\
  (env_truthy (EDITOR_PASSWORD (cfg e)) = true ->
   env_truthy (SECRET_KEY (cfg e)) = false ->
   login_required f e s = f e s) /\
  (env_truthy (EDITOR_PASSWORD (cfg e)) = true ->
   env_truthy (SECRET_KEY (cfg e)) = true ->
   session_unavailable (svc e) = None ->
   (logged_in s = Some (JBool true) -> login_required f e s = f e s) /\
   (logged_in s <> Some (JBool true) ->
    login_required f e s
    = (Ok (Redirect (UrlFor "login" [("next"%string, request_url (req e))])), s))).
Proof.
  split; [|split].
  - intros Hpw. unfold login_required, bind, ask. rewrite Hpw. reflexivity.
  - intros Hpw Hkey. unfold login_required, bind, ask. rewrite Hpw, Hkey. reflexivity.
  - intros Hpw Hkey Hsession.
    rewrite (login_required_enforced e s f Hpw Hkey Hsession). split.
    + intros ->. reflexivity.
    + intros Hno.
      destruct (is_True match logged_in s with Some v => v | None => JNull end) eqn:E;
        [|reflexivity].
      apply is_True_iff in E. destruct (logged_in s); [|discriminate].
      subst. congruence.
Qed.

Lemma login_required_gate_witness :
  login_required (editor abc) (gate_env dev_config) s0
  = editor abc (gate_env dev_config) s0 /\
  login_required (editor abc) (gate_env keyless_config) s0
  = editor abc (gate_env keyless_config) s0 /\
  login_required (editor abc) (gate_env prod_config) s_in
  = editor abc (gate_env prod_config) s_in /\
  login_required (editor abc) (gate_env prod_config) s0
  = (Ok (Redirect (UrlFor "login"
                     [("next"%string, lit "http://portal.example/editor/abc.html")])),
     s0).
Proof.
  split; [|split; [|split]].
  - exact (proj1 (login_required_gate (gate_env dev_config) s0 (editor abc)) eq_refl).
  - exact (proj1 (proj2 (login_required_gate (gate_env keyless_config) s0 (editor abc)))
             eq_refl eq_refl).
  - exact (proj1 (proj2 (proj2 (login_required_gate (gate_env prod_config) s_in
                                  (editor abc)))
                    eq_refl eq_refl eq_refl) eq_refl).
  - refine (proj2 (proj2 (proj2 (login_required_gate (gate_env prod_config) s0
                                   (editor abc)))
                     eq_refl eq_refl eq_refl) _).
    discriminate.
Defined.

Lemma text_eqb_refl t : text_eqb t t = true.
Proof.
  induction t as [|c t IH]; simpl; [reflexivity|].
  unfold char_eqb. now rewrite N.eqb_refl.
Qed.

(** A [POST] of the configured password to [login] sets the session flag,
    after which the gate lets the handlers run. *)
Lemma login_opens_the_gate e s e' f password :
  EDITOR_PASSWORD (cfg e) = Some password ->
  env_truthy (EDITOR_PASSWORD (cfg e)) = true ->
  env_truthy (SECRET_KEY (cfg e)) = true ->
  session_unavailable (svc e) = None ->
  logged_in s = None ->
  request_method (req e) = POST ->
  request_form_password (req e) = Some password ->
  cfg e' = cfg e -> svc e' = svc e ->
  exists target s',
    login e s = (Ok (Redirect target), s') /\
    logged_in s' = Some (JBool true) /\
    login_required f e' s' = f e' s'.
Proof.
  intros Hpw Htruthy Hkey Hsession Hout Hpost Hform Hcfg Hsvc.
  unfold login, bind, ask. rewrite Htruthy. simpl.
  rewrite (session_get_available e s Hsession), Hout. simpl.
  rewrite Hpost, Hform, Hpw, text_eqb_refl.
  unfold session_set_logged_in, session_write_guard, session_guard, bind, ask.
  rewrite Hsession. simpl. rewrite Hkey.
  simpl. eexists _, _. split; [reflexivity|]. split; [reflexivity|].
  rewrite login_required_enforced by (rewrite ?Hcfg, ?Hsvc; assumption).
  reflexivity.
Qed.

(** ** Saving *)

Lemma field_missing k data :
  assoc (lit k) data = None -> truthy (field k data) = false.
Proof. intros H. unfold field. rewrite H. reflexivity. Qed.

Lemma field_empty k data :
  assoc (lit k) data = Some (JStr []) -> truthy (field k data) = false.
Proof. intros H. unfold field. rewrite H. reflexivity. Qed.

(** Against [C7] as stated: a body that is JSON but no object ([null], an
    array) has no [html_content] field, and yet the save is not answered
    with HTTP 400: the [get] on the body raises, and nothing in
    [save_newsletter] catches the exception. *)
Lemma fieldless_body_is_not_rejected :
  save_newsletter abc (empty_save_env JNull) s_in = (Raise no_get, s_in) /\
  save_newsletter abc (empty_save_env (JList [])) s_in = (Raise no_get, s_in).
Proof. split; reflexivity. Qed.

(** [C7], amended.  A save request whose body is a JSON object with no
    [html_content], or an empty one (or any other false value), is answered
    with HTTP 400 and [No content]; the handler has then made no call at
    all: the state, and with it the trace of calls to the version-control
    store, is as it was.  A body that is JSON but no object is not answered
    with HTTP 400: the handler ends in an [AttributeError], also without
    any call. *)
Theorem empty_content_rejected e s id :
  (forall data,
     request_json (req e) = Ok (JObj data) ->
     truthy (field "html_content" data) = false ->
     save_newsletter id e s = (Ok no_content_reply, s)) /\
  (forall body,
     request_json (req e) = Ok body ->
     is_object body = false ->
     save_newsletter id e s = (Raise no_get, s)).
Proof.
  split.
  - intros data Hreq Hempty.
    unfold save_newsletter, get_request_json, bind, ask, lift. rewrite Hreq.
    unfold py_get at 1. fold (field "html_content" data). rewrite Hempty.
    reflexivity.
  - intros body Hreq Hno.
    unfold save_newsletter, get_request_json, bind, ask, lift. rewrite Hreq.
    destruct body; try discriminate; reflexivity.
Qed.

Lemma empty_content_rejected_witness :
  save_newsletter abc (empty_save_env (JObj [(lit "editor_notes", JStr (lit "x"))])) s_in
  = (Ok no_content_reply, s_in) /\
  save_newsletter abc (empty_save_env (JObj [(lit "html_content", JStr [])])) s_in
  = (Ok no_content_reply, s_in) /\
  save_newsletter abc (empty_save_env (JInt 7)) s_in = (Raise no_get, s_in).
Proof.
  split; [|split].
  - apply (proj1 (empty_content_rejected _ s_in abc)
             [(lit "editor_notes", JStr (lit "x"))]).
    + reflexivity.
    + apply field_missing. reflexivity.
  - apply (proj1 (empty_content_rejected _ s_in abc) [(lit "html_content", JStr [])]).
    + reflexivity.
    + apply field_empty. reflexivity.
  - apply (proj2 (empty_content_rejected _ s_in abc) (JInt 7)); reflexivity.
Defined.

Lemma save_newsletter_commits e s id data content :
  request_json (req e) = Ok (JObj data) ->
  assoc (lit "html_content") data = Some content ->
  truthy content = true ->
  GITHUB_HELPER_AVAILABLE (cfg e) = true ->
  save_newsletter id e s
  = bind (github_helper.commit_file (file_path_of id) content
            (commit_message_of id (notes_of (svc e) data)))
         save_reply e s.
Proof.
  intros Hreq Hfield Htruthy Hhelper.
  unfold save_newsletter, get_request_json, py_str, bind, ask, lift.
  rewrite Hreq. unfold py_get, py_index. rewrite Hfield, Htruthy. simpl.
  rewrite Hhelper. unfold ret. reflexivity.
Qed.

Lemma save_reply_error e s fields :
  truthy (field "success" fields) = false ->
  save_reply (JObj fields) e s = (Ok (save_failed e (field "error" fields)), s).
Proof.
  intros H. unfold save_reply, bind, lift, py_get.
  fold (field "success" fields). rewrite H. reflexivity.
Qed.


Lemma get_file_sha_marker e s path sha :
  revision_marker e path sha ->
  github_helper.get_file_sha path e s
  = (Ok sha, record s (HttpGet (github_helper.contents_url path))).
Proof.
  intros [r Hget Hst | r body sha' Hget Hst Hbody Hsha];
    unfold github_helper.get_file_sha, try_except, bind;
    rewrite call_run, Hget; unfold github_helper.raise_for_status.
  - rewrite Hst. reflexivity.
  - assert ((400 <=? status_code r)%Z && (status_code r <? 600)%Z = false) as ->.
    { apply andb_false_iff. destruct Hst; [left|right]; lia. }
    unfold ret, lift. rewrite Hbody, Hsha. reflexivity.
Qed.

Lemma starts_with_app x b : starts_with x (x ++ b) = true.
Proof.
  induction x as [|c x IH]; simpl; [reflexivity|].
  unfold char_eqb. now rewrite N.eqb_refl.
Qed.

Lemma contains_here x s : starts_with x s = true -> contains x s = true.
Proof. intros H. destruct s; simpl; rewrite H; reflexivity. Qed.

Lemma contains_app x a b : contains x (a ++ x ++ b) = true.
Proof.
  induction a as [|c a IH]; simpl.
  - apply contains_here, starts_with_app.
  - rewrite IH. apply orb_true_r.
Qed.

Lemma commit_message_contains id notes :
  contains id (commit_message_of id notes) = true /\
  contains notes (commit_message_of id notes) = true.
Proof.
  unfold commit_message_of. split.
  - apply contains_app.
  - replace (lit "docs: update " ++ id ++ nl ++ nl ++ lit "Notes: " ++ notes)
      with ((lit "docs: update " ++ id ++ nl ++ nl ++ lit "Notes: ") ++ notes ++ [])
      by (rewrite app_nil_r; repeat rewrite <- app_assoc; reflexivity).
    apply contains_app.
Qed.

Lemma commit_file_footprint e s path content bytes message sha :
  env_truthy (GITHUB_TOKEN (cfg e)) = true ->
  utf8_encode content = Some bytes ->
  revision_marker e path sha ->
  let url := github_helper.contents_url path in
  let put := github_helper.commit_data message (b64encode bytes) sha in
  (exists r,
     github_helper.commit_file path (JStr content) message e s
     = (r, extend s [HttpGet url; HttpPut url put])) /\
  (store_accepts e url put ->
   exists commit_sha,
     github_helper.commit_file path (JStr content) message e s
     = (Ok (JObj [(lit "success", JBool true); (lit "commit_sha", commit_sha)]),
        extend s [HttpGet url; HttpPut url put])).
Proof.
  intros Htok Hutf Hmarker url put.
  assert (Hrun :
    github_helper.commit_file path (JStr content) message e s
    = bind (lift (requests_put (svc e) url put))
        (fun response =>
           if (status_code response =? 200)%Z || (status_code response =? 201)%Z then
             body <- lift (response_json response) ;;
             commit <- lift (py_index body (lit "commit")) ;;
             commit_sha <- lift (py_index commit (lit "sha")) ;;
             ret (JObj [(lit "success", JBool true); (lit "commit_sha", commit_sha)])
           else
             body <- lift (response_json response) ;;
             message <- lift (py_get body (lit "message") (JStr (lit "Unknown error"))) ;;
             ret (JObj [(lit "error", message)]))
        e (extend s [HttpGet url; HttpPut url put])).
  { unfold github_helper.commit_file. unfold bind at 1. unfold ask.
    rewrite Htok. simpl negb. cbv iota.
    unfold bind at 1. unfold lift at 1. unfold b64_of_content. rewrite Hutf.
    change (negb true) with false. cbv beta iota.
    unfold bind at 1. rewrite (get_file_sha_marker e s path sha Hmarker).
    fold url. fold put.
    unfold bind at 1. rewrite call_run.
    unfold bind at 1. unfold lift at 1.
    replace (record (record s (HttpGet url)) (HttpPut url put))
      with (extend s [HttpGet url; HttpPut url put]) by (trace_norm; reflexivity).
    reflexivity. }
  rewrite Hrun. unfold bind, lift, ret. split.
  - destruct (requests_put (svc e) url put) as [r|x]; [|eexists; reflexivity].
    destruct ((status_code r =? 200)%Z || (status_code r =? 201)%Z);
      destruct (response_json r) as [body|x]; try (eexists; reflexivity).
    + destruct (py_index body (lit "commit")) as [commit|x]; [|eexists; reflexivity].
      destruct (py_index commit (lit "sha")); eexists; reflexivity.
    + destruct (py_get body (lit "message") (JStr (lit "Unknown error")));
        eexists; reflexivity.
  - intros (r & body & commit & commit_sha & Hput & Hst & Hbody & Hc & Hs).
    exists commit_sha. rewrite Hput.
    assert ((status_code r =? 200)%Z || (status_code r =? 201)%Z = true) as ->.
    { apply orb_true_iff. destruct Hst as [H|H]; rewrite H; auto. }
    rewrite Hbody, Hc, Hs. reflexivity.
Qed.

(** [C8] A save request with non-empty content and editor notes, while the
    version-control token is configured: [save_newsletter] first fetches
    the revision marker of [newsletters/<id>] and then puts the encoded
    content with a commit message that contains the newsletter id and the
    editor notes; no marker is sent when the fetch answered 404 (or gave a
    false marker), and the fetched marker is sent otherwise; when the store
    accepts the put the answer is
    [{"success": true, "message": "Saved to GitHub."}]. *)
Theorem save_commits e s id data c html notes bytes sha :
  request_json (req e) = Ok (JObj data) ->
  assoc (lit "html_content") data = Some (JStr (c :: html)) ->
  assoc (lit "editor_notes") data = Some (JStr notes) ->
  utf8_encode (c :: html) = Some bytes ->
  env_truthy (GITHUB_TOKEN (cfg e)) = true ->
  GITHUB_HELPER_AVAILABLE (cfg e) = true ->
  revision_marker e (file_path_of id) sha ->
  let url := github_helper.contents_url (file_path_of id) in
  let message := commit_message_of id notes in
  let put := github_helper.commit_data message (b64encode bytes) sha in
  (exists r, save_newsletter id e s = (r, extend s [HttpGet url; HttpPut url put])) /\
  contains id message = true /\
  contains notes message = true /\
  (truthy sha = false -> sent_sha put = None) /\
  (truthy sha = true -> sent_sha put = Some sha) /\
  (store_accepts e url put ->
   save_newsletter id e s = (Ok saved_reply, extend s [HttpGet url; HttpPut url put])).
Proof.
  intros Hreq Hcontent Hnotes Hutf Htok Hhelper Hmarker url message put.
  assert (Hn : notes_of (svc e) data = notes)
    by (unfold notes_of; rewrite Hnotes; reflexivity).
  pose proof (save_newsletter_commits e s id data (JStr (c :: html))
                Hreq Hcontent eq_refl Hhelper) as Hsave.
  rewrite Hn in Hsave. fold message in Hsave.
  destruct (commit_file_footprint e s (file_path_of id) (c :: html) bytes message sha
              Htok Hutf Hmarker) as [Hany Hok].
  fold url in Hany, Hok. fold put in Hany, Hok.
  split; [|split; [|split; [|split; [|split]]]].
  - destruct Hany as (r & Hr). rewrite Hsave. unfold bind at 1. rewrite Hr.
    destruct r as [result|x]; [|eexists; reflexivity].
    unfold save_reply, py_str, bind, lift, ask, ret.
    destruct (py_get result (lit "success") JNull) as [flag|x]; [|eexists; reflexivity].
    destruct (truthy flag); [eexists; reflexivity|].
    destruct (py_get result (lit "error") JNull); eexists; reflexivity.
  - apply commit_message_contains.
  - apply commit_message_contains.
  - intros Hfalse. unfold put, github_helper.commit_data. rewrite Hfalse. reflexivity.
  - intros Htrue. unfold put, github_helper.commit_data. rewrite Htrue. reflexivity.
  - intros Hacc. destruct (Hok Hacc) as (commit_sha & Hr).
    rewrite Hsave. unfold bind at 1. rewrite Hr. reflexivity.
Qed.

Lemma save_commits_witness :
  (save_newsletter abc (accepting_store_env false) s_in
   = (Ok saved_reply,
      extend s_in [HttpGet abc_store_url; HttpPut abc_store_url (hi_commit [])]) /\
   sent_sha (hi_commit []) = None) /\
  (save_newsletter abc (accepting_store_env true) s_in
   = (Ok saved_reply,
      extend s_in [HttpGet abc_store_url;
                   HttpPut abc_store_url (hi_commit [(lit "sha", JStr (lit "old1"))])]) /\
   sent_sha (hi_commit [(lit "sha", JStr (lit "old1"))]) = Some (JStr (lit "old1"))) /\
  contains abc (commit_message_of abc (lit "fix typo")) = true /\
  contains (lit "fix typo") (commit_message_of abc (lit "fix typo")) = true.
Proof.
  assert (A : revision_marker (accepting_store_env false) (file_path_of abc) JNull).
  { eapply marker_absent; reflexivity. }
  assert (P : revision_marker (accepting_store_env true) (file_path_of abc)
                (JStr (lit "old1"))).
  { eapply marker_present; try reflexivity. left. reflexivity. }
  destruct (save_commits (accepting_store_env false) s_in abc _
              60%N (List.tl (lit "<p>hi</p>")) (lit "fix typo") (lit "<p>hi</p>") JNull
              eq_refl eq_refl eq_refl eq_refl eq_refl eq_refl A)
    as (_ & Hid & Hnotes & Hnone & _ & Hnew).
  destruct (save_commits (accepting_store_env true) s_in abc _
              60%N (List.tl (lit "<p>hi</p>")) (lit "fix typo") (lit "<p>hi</p>")
              (JStr (lit "old1"))
              eq_refl eq_refl eq_refl eq_refl eq_refl eq_refl P)
    as (_ & _ & _ & _ & Hsome & Hupd).
  split; [|split; [|split]].
  - split; [|exact (Hnone eq_refl)].
    apply Hnew. eexists _, _, _, _. repeat split; try reflexivity.
    right. reflexivity.
  - split; [|exact (Hsome eq_refl)].
    apply Hupd. eexists _, _, _, _. repeat split; try reflexivity.
    left. reflexivity.
  - exact Hid.
  - exact Hnotes.
Defined.

(** ** The send pipeline: the inlining stage and what follows it *)

Lemma inlined_html_of_fallback e s html x s' :
  css_inlining html e s = (Raise x, s') ->
  inlined_html_of html e s = (Ok html, s').
Proof.
  intros H. unfold inlined_html_of.
  rewrite (try_except_any _ _ _ _ _ _ H). reflexivity.
Qed.

Lemma inlined_html_of_success e s html out s' :
  css_inlining html e s = (Ok out, s') ->
  inlined_html_of html e s = (Ok out, s').
Proof. intros H. unfold inlined_html_of. now apply try_except_Ok. Qed.

Lemma send_newsletter_fetched e s id c html s1 :
  get_newsletter_content id e s = (Ok (Some (c :: html)), s1) ->
  send_newsletter id e s
  = bind (inlined_html_of (c :: html)) deliver e s1.
Proof.
  intros H. unfold send_newsletter. rewrite (bind_Ok _ _ _ _ _ _ H). reflexivity.
Qed.

Lemma css_inlining_with_css e s html c css :
  path_exists (svc e) (css_file_path (cfg e)) = true ->
  read_file (svc e) (css_file_path (cfg e)) = Ok (c :: css) ->
  PREMAILER_AVAILABLE (cfg e) = true ->
  css_inlining html e s
  = (premailer_transform (svc e) (inliner_input html (c :: css)),
     extend s [FileExists (css_file_path (cfg e));
               FileRead (css_file_path (cfg e));
               PremailerTransform (inliner_input html (c :: css))]).
Proof.
  intros Hex Hread Hprem.
  unfold css_inlining, bind, ask. rewrite call_run, Hex.
  rewrite call_run, Hread, Hprem. unfold ret. rewrite call_run.
  trace_norm. reflexivity.
Qed.

Lemma css_inlining_without_css e s html :
  path_exists (svc e) (css_file_path (cfg e)) = false ->
  css_inlining html e s = (Ok html, extend s [FileExists (css_file_path (cfg e))]).
Proof.
  intros Hex. unfold css_inlining, bind, ask. rewrite call_run, Hex.
  reflexivity.
Qed.

Lemma css_inlining_empty_css e s html :
  path_exists (svc e) (css_file_path (cfg e)) = true ->
  read_file (svc e) (css_file_path (cfg e)) = Ok [] ->
  css_inlining html e s
  = (Ok html, extend s [FileExists (css_file_path (cfg e));
                        FileRead (css_file_path (cfg e))]).
Proof.
  intros Hex Hread. unfold css_inlining, bind, ask. rewrite call_run, Hex.
  rewrite call_run, Hread. trace_norm. reflexivity.
Qed.

Lemma css_inlining_footprint e s html :
  exists r evs,
    css_inlining html e s = (r, extend s evs) /\
    forallb is_inlining_event evs = true.
Proof.
  unfold css_inlining, bind, ask. rewrite call_run. unfold lift.
  destruct (path_exists (svc e) (css_file_path (cfg e))).
  - rewrite call_run.
    destruct (read_file (svc e) (css_file_path (cfg e))) as [css|x].
    + destruct css as [|c css].
      * eexists _, [_; _]. split; [trace_norm; reflexivity | reflexivity].
      * destruct (PREMAILER_AVAILABLE (cfg e)).
        -- unfold ret. rewrite call_run.
           eexists _, [_; _; _]. split; [trace_norm; reflexivity | reflexivity].
        -- eexists _, [_; _]. split; [trace_norm; reflexivity | reflexivity].
    + eexists _, [_; _]. split; [trace_norm; reflexivity | reflexivity].
  - eexists _, [_]. split; [trace_norm; reflexivity | reflexivity].
Qed.

Lemma inlined_html_of_total e s html :
  exists out evs,
    inlined_html_of html e s = (Ok out, extend s evs) /\
    forallb is_inlining_event evs = true.
Proof.
  destruct (css_inlining_footprint e s html) as (r & evs & H & Hev).
  destruct r as [out|x].
  - exists out, evs. split; [exact (inlined_html_of_success _ _ _ _ _ H) | exact Hev].
  - exists html, evs. split; [exact (inlined_html_of_fallback _ _ _ _ _ H) | exact Hev].
Qed.

Lemma inlining_event_not_email evs :
  forallb is_inlining_event evs = true -> existsb is_email_call evs = false.
Proof.
  induction evs as [|ev evs IH]; simpl; [reflexivity|].
  intros H. apply andb_prop in H. destruct H as [H1 H2].
  rewrite (IH H2). destruct ev; simpl in *; congruence.
Qed.

Lemma mailchimp_stage_sets_content e s inlined campaign cid :
  campaigns_create (svc e) (campaign_data e) = Ok campaign ->
  py_index campaign (lit "id") = Ok cid ->
  exists r evs,
    mailchimp_stage inlined e s
    = (r, extend s (CampaignsCreate (campaign_data e)
                    :: CampaignsSetContent cid (html_content_of inlined) :: evs)).
Proof.
  intros Hcreate Hid.
  unfold mailchimp_stage, bind, ask. rewrite call_run, Hcreate.
  unfold lift at 1. rewrite Hid. rewrite call_run.
  destruct (campaigns_set_content (svc e) cid (html_content_of inlined)) as [[]|x].
  2:{ eexists _, []. trace_norm. reflexivity. }
  unfold get_request_json, bind, ask, lift.
  destruct (request_json (req e)) as [data|x].
  2:{ eexists _, []. trace_norm. reflexivity. }
  destruct (py_get data (lit "test_mode") JNull) as [test_mode|x].
  2:{ eexists _, []. trace_norm. reflexivity. }
  destruct (truthy test_mode); rewrite call_run.
  - destruct (campaigns_send_test_email (svc e) cid _);
      eexists _, [_]; trace_norm; reflexivity.
  - destruct (campaigns_send (svc e) cid);
      eexists _, [_]; trace_norm; reflexivity.
Qed.

Lemma deliver_sets_content e s inlined campaign cid :
  simulated (cfg e) = false ->
  campaigns_create (svc e) (campaign_data e) = Ok campaign ->
  py_index campaign (lit "id") = Ok cid ->
  exists r evs,
    deliver inlined e s
    = (r, extend s (CampaignsCreate (campaign_data e)
                    :: CampaignsSetContent cid (html_content_of inlined) :: evs)).
Proof.
  intros Hlive Hcreate Hid.
  destruct (mailchimp_stage_sets_content e s inlined campaign cid Hcreate Hid)
    as (r & evs & Hstage).
  unfold deliver, bind, ask. unfold simulated in Hlive. rewrite Hlive.
  unfold try_except. rewrite Hstage.
  destruct r as [r|[]]; eexists _, evs; reflexivity.
Qed.

Lemma deliver_ApiClientError e s html txt s' :
  simulated (cfg e) = false ->
  mailchimp_stage html e s = (Raise (ApiClientError txt), s') ->
  deliver html e s = (Ok (mailchimp_error txt), s').
Proof.
  intros Hlive Hstage. unfold deliver, bind, ask.
  unfold simulated in Hlive. rewrite Hlive.
  unfold try_except. rewrite Hstage. reflexivity.
Qed.

(** [C2] Whenever the CSS-inlining stage of [send_newsletter] ends in an
    exception (reading the CSS file, building the inliner or running its
    transform), [inlined_html] is the fetched content itself, character for
    character, and it is with that content that the pipeline goes on: in
    particular it is what is set as the content of the campaign. *)
Theorem inlining_failure_keeps_original e s id c html x s2 :
  backend_serves e id (c :: html) ->
  css_inlining (c :: html) e (extend s [HttpGet (content_url e id)]) = (Raise x, s2) ->
  inlined_html_of (c :: html) e (extend s [HttpGet (content_url e id)])
  = (Ok (c :: html), s2) /\
  send_newsletter id e s = deliver (c :: html) e s2 /\
  (forall campaign cid,
     simulated (cfg e) = false ->
     campaigns_create (svc e) (campaign_data e) = Ok campaign ->
     py_index campaign (lit "id") = Ok cid ->
     exists r evs,
       send_newsletter id e s
       = (r, extend s2 (CampaignsCreate (campaign_data e)
                        :: CampaignsSetContent cid (html_content_of (c :: html))
                        :: evs))).
Proof.
  intros Hserved Hfail.
  pose proof (inlined_html_of_fallback _ _ _ _ _ Hfail) as Hin.
  assert (Hsend : send_newsletter id e s = deliver (c :: html) e s2).
  { rewrite (send_newsletter_fetched e s id c html _
               (get_newsletter_content_served e s id _ Hserved)).
    rewrite record_is_extend. now rewrite (bind_Ok _ _ _ _ _ _ Hin). }
  split; [exact Hin|]. split; [exact Hsend|].
  intros campaign cid Hlive Hcreate Hid. rewrite Hsend.
  now apply deliver_sets_content with (campaign := campaign).
Qed.

Lemma inlining_failure_keeps_original_witness :
  inlined_html_of linked_html malformed_env
    (extend s0 [HttpGet (content_url malformed_env abc)])
  = (Ok linked_html, extend s0 malformed_trace) /\
  send_newsletter abc malformed_env s0
  = deliver linked_html malformed_env (extend s0 malformed_trace) /\
  exists r evs,
    send_newsletter abc malformed_env s0
    = (r, extend (extend s0 malformed_trace)
            (CampaignsCreate (campaign_data malformed_env)
             :: CampaignsSetContent (JStr (lit "c1")) (html_content_of linked_html)
             :: evs)).
Proof.
  destruct (inlining_failure_keeps_original malformed_env s0 abc
              60%N (List.tl linked_html)
              (OtherError (lit "ParserError") (lit "malformed markup"))
              (extend s0 malformed_trace)) as (Hin & Hsend & Hset).
  - exists (served linked_html). repeat split; reflexivity.
  - vm_compute. reflexivity.
  - split; [exact Hin|]. split; [exact Hsend|].
    exact (Hset campaign_c1 (JStr (lit "c1")) eq_refl eq_refl eq_refl).
Defined.

(** ** Simulated mode *)



Lemma deliver_simulated e s html data :
  simulated (cfg e) = true ->
  request_json (req e) = Ok (JObj data) ->
  deliver html e s = (Ok (mock_reply (field "test_mode" data)), s).
Proof.
  intros Hsim Hreq. unfold deliver, bind, ask. unfold simulated in Hsim.
  rewrite Hsim. unfold get_request_json, bind, ask, lift. rewrite Hreq.
  reflexivity.
Qed.

Lemma send_newsletter_simulated e s id c html s1 data :
  simulated (cfg e) = true ->
  request_json (req e) = Ok (JObj data) ->
  get_newsletter_content id e s = (Ok (Some (c :: html)), s1) ->
  exists evs,
    send_newsletter id e s
    = (Ok (mock_reply (field "test_mode" data)), extend s1 evs) /\
    forallb is_inlining_event evs = true.
Proof.
  intros Hsim Hreq Hget.
  rewrite (send_newsletter_fetched _ _ _ _ _ _ Hget).
  destruct (inlined_html_of_total e s1 (c :: html)) as (out & evs & Hin & Hev).
  exists evs. split; [|exact Hev].
  rewrite (bind_Ok _ _ _ _ _ _ Hin). now apply deliver_simulated.
Qed.

Lemma deliver_simulated_footprint e s html :
  simulated (cfg e) = true -> exists r, deliver html e s = (r, s).
Proof.
  intros Hsim. unfold deliver, bind, ask. unfold simulated in Hsim.
  rewrite Hsim. unfold get_request_json, bind, ask, lift.
  destruct (request_json (req e)) as [data|x]; [|eexists; reflexivity].
  destruct (py_get data (lit "test_mode") JNull); eexists; reflexivity.
Qed.

Lemma send_newsletter_simulated_footprint e s id :
  simulated (cfg e) = true ->
  exists r evs,
    send_newsletter id e s = (r, extend s evs) /\
    existsb is_email_call evs = false.
Proof.
  intros Hsim.
  destruct (get_newsletter_content_total e s id) as (v & Hget).
  unfold send_newsletter. rewrite (bind_Ok _ _ _ _ _ _ Hget).
  destruct v as [[|c html]|];
    try (eexists _, [_]; split; [reflexivity | reflexivity]).
  destruct (inlined_html_of_total e (record s (HttpGet (content_url e id))) (c :: html))
    as (out & evs & Hin & Hev).
  rewrite (bind_Ok _ _ _ _ _ _ Hin).
  destruct (deliver_simulated_footprint e
              (extend (record s (HttpGet (content_url e id))) evs) out Hsim)
    as (r & Hr).
  rewrite Hr. exists r, (HttpGet (content_url e id) :: evs).
  split.
  - rewrite record_is_extend, extend_extend. reflexivity.
  - simpl. now apply inlining_event_not_email.
Qed.

(** Against [C9] as stated: in simulated mode, a test send of a newsletter
    that the backend does not serve is answered with HTTP 404, not with the
    mocked success; the content is asked for before the mode is looked
    at. *)
Lemma simulated_send_needs_the_newsletter :
  simulated (cfg mock_down_env) = true /\
  request_json (req mock_down_env) = Ok (JObj [(lit "test_mode", JBool true)]) /\
  send_newsletter abc mock_down_env s0
  = (Ok (Json 404 (JObj [(lit "error", JStr (lit "Newsletter not found"))])),
     extend s0 [HttpGet (content_url mock_down_env abc)]).
Proof. repeat split; vm_compute; reflexivity. Qed.

(** [C9], amended.  In simulated mode (the mock flag is set or there is no
    email-platform client), [send_newsletter] makes no call to the email
    platform, whatever the request.  A request whose body is a JSON object
    with a true [test_mode], for a newsletter whose content the backend
    serves and is not empty, is answered with
    [{"success": true, "message": "[MOCK] Test email sent!"}].  When the
    backend does not serve the newsletter (the request fails, the status is
    not 200, or the content is empty), the answer is HTTP 404
    [Newsletter not found], in simulated mode as in any other. *)
Theorem simulated_test_send e s id :
  simulated (cfg e) = true ->
  (exists r evs,
     send_newsletter id e s = (r, extend s evs) /\
     existsb is_email_call evs = false) /\
  (forall c html data,
     backend_serves e id (c :: html) ->
     request_json (req e) = Ok (JObj data) ->
     truthy (field "test_mode" data) = true ->
     exists evs,
       send_newsletter id e s
       = (Ok (Json 200 (JObj [(lit "success", JBool true);
                              (lit "message", JStr (lit "[MOCK] Test email sent!"))])),
          extend s evs) /\
       existsb is_email_call evs = false) /\
  (content_call_fails e id \/ backend_serves e id [] ->
   send_newsletter id e s
   = (Ok (Json 404 (JObj [(lit "error", JStr (lit "Newsletter not found"))])),
      extend s [HttpGet (content_url e id)])).
Proof.
  intros Hsim. split; [now apply send_newsletter_simulated_footprint|]. split.
  - intros c html data Hserved Hreq Htest.
    pose proof (get_newsletter_content_served _ s _ _ Hserved) as Hget.
    destruct (send_newsletter_simulated e s id _ _ _ _ Hsim Hreq Hget)
      as (evs & Hsend & Hev).
    exists (HttpGet (content_url e id) :: evs). split.
    + rewrite Hsend. unfold mock_reply. rewrite Htest.
      rewrite record_is_extend, extend_extend. reflexivity.
    + simpl. now apply inlining_event_not_email.
  - intros [Hfails|Hempty]; unfold send_newsletter.
    + rewrite (bind_Ok _ _ _ _ _ _ (get_newsletter_content_on_failure e s id Hfails)).
      reflexivity.
    + rewrite (bind_Ok _ _ _ _ _ _ (get_newsletter_content_served e s id _ Hempty)).
      reflexivity.
Qed.

Lemma simulated_test_send_witness :
  (exists evs,
     send_newsletter abc mock_env s0
     = (Ok (Json 200 (JObj [(lit "success", JBool true);
                            (lit "message", JStr (lit "[MOCK] Test email sent!"))])),
        extend s0 evs) /\
     existsb is_email_call evs = false) /\
  send_newsletter abc mock_down_env s0
  = (Ok (Json 404 (JObj [(lit "error", JStr (lit "Newsletter not found"))])),
     extend s0 [HttpGet (content_url mock_down_env abc)]).
Proof.
  split.
  - refine (proj1 (proj2 (simulated_test_send mock_env s0 abc _))
                  60%N (List.tl linked_html) [(lit "test_mode", JBool true)] _ _ _).
    + vm_compute. reflexivity.
    + exists (served linked_html). repeat split; reflexivity.
    + reflexivity.
    + reflexivity.
  - refine (proj2 (proj2 (simulated_test_send mock_down_env s0 abc _)) _).
    + vm_compute. reflexivity.
    + left. apply content_raises with (x := unreachable). reflexivity.
Defined.

(** ** Missing credentials *)





(** ** Exceptions at the route boundary *)

Lemma ai_review_newsletter_total e s id :
  exists r s', ai_review_newsletter id e s = (Ok r, s').
Proof.
  destruct (get_newsletter_content_total e s id) as (v & Hget).
  unfold ai_review_newsletter, bind, ask. rewrite Hget.
  destruct v as [[|c html]|]; try (eexists _, _; reflexivity).
  destruct (MOCK_MODE (cfg e) || negb (client (cfg e)));
    [eexists _, _; reflexivity|].
  unfold try_except.
  destruct (review_stage (c :: html) e (record s (HttpGet (content_url e id))))
    as [[r|x] s'']; eexists _, _; reflexivity.
Qed.

Lemma ai_review_stage_caught e s id c html x s' :
  backend_serves e id (c :: html) ->
  MOCK_MODE (cfg e) || negb (client (cfg e)) = false ->
  review_stage (c :: html) e (record s (HttpGet (content_url e id))) = (Raise x, s') ->
  ai_review_newsletter id e s = (Ok (review_failed x), s').
Proof.
  intros Hserved Hlive Hstage.
  unfold ai_review_newsletter, bind, ask.
  rewrite (get_newsletter_content_served _ s _ _ Hserved), Hlive.
  rewrite (try_except_any _ _ _ _ _ _ Hstage). reflexivity.
Qed.

(** Against [C4] as stated: an [HTTPError] of the revision-marker fetch
    leaves [save_newsletter], and a [KeyError] of the email-platform stage
    leaves [send_newsletter], both through the route and uncaught. *)
Lemma exceptions_escape_save_and_send :
  route_save_newsletter abc store_down_env s_in
  = (Raise (HTTPError 500), extend s_in [HttpGet abc_store_url]) /\
  route_send_newsletter abc odd_campaign_env s_in
  = (Raise (KeyError (lit "id")),
     extend s_in [HttpGet (content_url odd_campaign_env abc);
                  FileExists (css_file_path prod_config);
                  CampaignsCreate (campaign_data odd_campaign_env)]).
Proof. split; vm_compute; reflexivity. Qed.

(** [C4], amended.  An exception is turned into a JSON error body with a
    message where the handler catches it: [ai_review_newsletter] never ends
    in an exception, and answers HTTP 500 with [AI review failed: ...] for
    every exception of its provider stage; [send_newsletter] answers
    HTTP 500 with [Mailchimp error: ...] for an [ApiClientError] of its
    email-platform stage; [save_newsletter] answers HTTP 500 with
    [GitHub Save Failed: ...] when the commit helper returns an error
    result. *)
Theorem caught_at_the_boundary e s id :
  (exists r s', ai_review_newsletter id e s = (Ok r, s')) /\
  (forall c html x s',
     backend_serves e id (c :: html) ->
     MOCK_MODE (cfg e) || negb (client (cfg e)) = false ->
     review_stage (c :: html) e (extend s [HttpGet (content_url e id)]) = (Raise x, s') ->
     ai_review_newsletter id e s = (Ok (review_failed x), s') /\
     json_error (review_failed x)) /\
  (forall c html out s1 txt s2,
     backend_serves e id (c :: html) ->
     simulated (cfg e) = false ->
     inlined_html_of (c :: html) e (extend s [HttpGet (content_url e id)]) = (Ok out, s1) ->
     mailchimp_stage out e s1 = (Raise (ApiClientError txt), s2) ->
     send_newsletter id e s = (Ok (mailchimp_error txt), s2) /\
     json_error (mailchimp_error txt)) /\
  (forall data content fields s',
     request_json (req e) = Ok (JObj data) ->
     assoc (lit "html_content") data = Some content ->
     truthy content = true ->
     GITHUB_HELPER_AVAILABLE (cfg e) = true ->
     github_helper.commit_file (file_path_of id) content
       (commit_message_of id (notes_of (svc e) data)) e s = (Ok (JObj fields), s') ->
     truthy (field "success" fields) = false ->
     save_newsletter id e s = (Ok (save_failed e (field "error" fields)), s') /\
     json_error (save_failed e (field "error" fields))).
Proof.
  split; [apply ai_review_newsletter_total|]. split; [|split].
  - intros c html x s' Hserved Hlive Hstage. split.
    + now apply ai_review_stage_caught with (c := c) (html := html).
    + eexists _, _. reflexivity.
  - intros c html out s1 txt s2 Hserved Hlive Hin Hstage. split.
    + rewrite (send_newsletter_fetched _ _ _ _ _ _ (get_newsletter_content_served _ s _ _ Hserved)).
      rewrite (bind_Ok _ _ _ _ _ _ Hin). now apply deliver_ApiClientError.
    + eexists _, _. reflexivity.
  - intros data content fields s' Hreq Hfield Htruthy Hhelper Hcommit Hfail. split.
    + rewrite (save_newsletter_commits e s id data content Hreq Hfield Htruthy Hhelper).
      rewrite (bind_Ok _ _ _ _ _ _ Hcommit). now apply save_reply_error.
    + eexists _, _. reflexivity.
Qed.

Lemma caught_at_the_boundary_witness :
  ai_review_newsletter abc refusing_env s0
  = (Ok (review_failed (OtherError (lit "ImportError") [])),
     extend s0 [HttpGet (content_url refusing_env abc); SoupGetText linked_html]) /\
  send_newsletter abc refusing_env s0
  = (Ok (mailchimp_error (lit "unauthorized")),
     extend s0 [HttpGet (content_url refusing_env abc);
                FileExists (css_file_path prod_config);
                CampaignsCreate (campaign_data refusing_env)]) /\
  save_newsletter abc rejecting_store_env s0
  = (Ok (save_failed rejecting_store_env (JStr (lit "Invalid request"))),
     extend s0 [HttpGet abc_store_url; HttpPut abc_store_url (hi_commit [])]).
Proof.
  assert (S : backend_serves refusing_env abc (60%N :: List.tl linked_html))
    by (exists (served linked_html); repeat split; reflexivity).
  destruct (caught_at_the_boundary refusing_env s0 abc) as (_ & R & D & _).
  destruct (caught_at_the_boundary rejecting_store_env s0 abc) as (_ & _ & _ & V).
  split; [|split].
  - refine (proj1 (R 60%N (List.tl linked_html) _ _ S eq_refl _)).
    vm_compute. reflexivity.
  - refine (proj1 (D 60%N (List.tl linked_html) linked_html
                     (extend s0 [HttpGet (content_url refusing_env abc);
                                 FileExists (css_file_path prod_config)])
                     _ _ S eq_refl _ _)); vm_compute; reflexivity.
  - refine (proj1 (V _ (JStr (lit "<p>hi</p>"))
                     [(lit "error", JStr (lit "Invalid request"))] _
                     eq_refl eq_refl eq_refl eq_refl _ eq_refl)).
    vm_compute. reflexivity.
Defined.

(** ** An empty body from the backend *)

Lemma editor_served e s id html :
  backend_serves e id html ->
  editor id e s
  = (page_of (render (svc e) "editor.html" (editor_context id html)),
     extend s [HttpGet (content_url e id);
               RenderTemplate "editor.html" (editor_context id html)]).
Proof.
  intros Hserved. unfold editor.
  rewrite (bind_Ok _ _ _ _ _ _ (get_newsletter_content_served e s id html Hserved)).
  unfold render_template, bind. rewrite call_run.
  destruct (render (svc e) "editor.html" (editor_context id html));
    simpl; trace_norm; reflexivity.
Qed.

(** [C10] When the backend answers the per-item request with HTTP 200 and
    an empty body, [get_newsletter_content] returns the empty string, not
    [None]; the editor route then hands that newsletter to the template
    engine and answers with the page, while [send_newsletter] and
    [ai_review_newsletter] answer HTTP 404. *)
Theorem empty_body_inconsistency e s id :
  backend_serves e id [] ->
  let s1 := extend s [HttpGet (content_url e id)] in
  get_newsletter_content id e s = (Ok (Some []), s1) /\
  editor id e s
  = (page_of (render (svc e) "editor.html" (editor_context id [])),
     extend s1 [RenderTemplate "editor.html" (editor_context id [])]) /\
  send_newsletter id e s = (Ok send_not_found, s1) /\
  ai_review_newsletter id e s = (Ok review_not_found, s1).
Proof.
  intros Hserved s1.
  pose proof (get_newsletter_content_served e s id [] Hserved) as Hget.
  split; [exact Hget|]. split; [|split].
  - rewrite (editor_served e s id [] Hserved). unfold s1.
    rewrite extend_extend. reflexivity.
  - unfold send_newsletter. rewrite (bind_Ok _ _ _ _ _ _ Hget). reflexivity.
  - unfold ai_review_newsletter, bind, ask. rewrite Hget. reflexivity.
Qed.

Lemma empty_body_inconsistency_witness :
  let s1 := extend s_in [HttpGet (content_url empty_body_env abc)] in
  get_newsletter_content abc empty_body_env s_in = (Ok (Some []), s1) /\
  editor abc empty_body_env s_in
  = (Ok (Page 200 []),
     extend s1 [RenderTemplate "editor.html" (editor_context abc [])]) /\
  send_newsletter abc empty_body_env s_in = (Ok send_not_found, s1) /\
  ai_review_newsletter abc empty_body_env s_in = (Ok review_not_found, s1).
Proof.
  apply (empty_body_inconsistency empty_body_env s_in abc).
  exists (served []). repeat split; reflexivity.
Defined.

(** ** The removal of the stylesheet link *)

Lemma match_len_bound p : forall s n, match_len p s = Some n -> (n <= List.length s)%nat.
Proof.
  induction p as [|[f|f] p IH]; intros s n H.
  - simpl in H. injection H as <-. lia.
  - simpl in H. destruct s as [|c s]; [discriminate|].
    destruct (f c); [|discriminate].
    destruct (match_len p s) as [m|] eqn:E; [|discriminate].
    injection H as <-. apply IH in E. simpl. lia.
  - revert n H. induction s as [|c s IHs]; intros n H.
    + apply IH in H. exact H.
    + simpl in H. destruct (f c).
      * match type of H with
        | match ?star s with _ => _ end = _ =>
            change (star s) with (match_len (Star f :: p) s) in H
        end.
        destruct (match_len (Star f :: p) s) as [m|] eqn:E.
        -- injection H as <-. pose proof (IHs m eq_refl). simpl. lia.
        -- apply IH in H. exact H.
      * apply IH in H. exact H.
Qed.

Lemma matches_star_cons f p c m :
  f c = true -> matches (Star f :: p) m -> matches (Star f :: p) (c :: m).
Proof.
  intros Hc H. inversion H as [| |f' p' a m' Ha Hm]; subst.
  apply (matches_star f p (c :: a) m'); [simpl; now rewrite Hc | exact Hm].
Qed.

(** The matcher is sound: what it reports matched is a text of the pattern. *)
Lemma match_len_sound p : forall s n, match_len p s = Some n -> matches p (firstn n s).
Proof.
  induction p as [|[f|f] p IH]; intros s n H.
  - simpl in H. injection H as <-. constructor.
  - simpl in H. destruct s as [|c s]; [discriminate|].
    destruct (f c) eqn:Hc; [|discriminate].
    destruct (match_len p s) as [m|] eqn:E; [|discriminate].
    injection H as <-. simpl. constructor; [exact Hc | now apply IH].
  - revert n H. induction s as [|c s IHs]; intros n H.
    + apply (matches_star f p [] _ eq_refl). now apply IH.
    + simpl in H. destruct (f c) eqn:Hc.
      * match type of H with
        | match ?star s with _ => _ end = _ =>
            change (star s) with (match_len (Star f :: p) s) in H
        end.
        destruct (match_len (Star f :: p) s) as [m|] eqn:E.
        -- injection H as <-. simpl. apply matches_star_cons; [exact Hc|].
           now apply IHs.
        -- apply (matches_star f p [] _ eq_refl). now apply IH.
      * apply (matches_star f p [] _ eq_refl). now apply IH.
Qed.

Lemma match_len_star_fallback f p s :
  match_len p s <> None -> match_len (Star f :: p) s <> None.
Proof.
  intros H. destruct s as [|c s]; [exact H|].
  simpl. destruct (f c); [|exact H].
  match goal with
  | |- match ?star s with _ => _ end <> None => destruct (star s)
  end; [discriminate | exact H].
Qed.

(** The matcher is complete: where a text of the pattern begins, it reports
    a match (of that text or of another one that begins there). *)
Lemma match_len_complete p m :
  matches p m -> forall rest, match_len p (m ++ rest) <> None.
Proof.
  induction 1 as [|f p c m Hc _ IH|f p a m Ha _ IH]; intros rest.
  - discriminate.
  - simpl. rewrite Hc. specialize (IH rest).
    destruct (match_len p (m ++ rest)); [discriminate | contradiction].
  - induction a as [|c a IHa].
    + apply match_len_star_fallback, IH.
    + simpl in Ha. apply andb_prop in Ha. destruct Ha as [Hc Ha].
      specialize (IHa Ha). simpl. rewrite Hc.
      match goal with
      | |- match ?star ?t with _ => _ end <> None =>
          change (star t) with (match_len (Star f :: p) t)
      end.
      destruct (match_len (Star f :: p) ((a ++ m) ++ rest));
        [discriminate | contradiction].
Qed.

Lemma has_match_occurs p s : has_match p s = true <-> occurs p s.
Proof.
  split.
  - induction s as [|c s IH]; simpl; intros H.
    + destruct (match_len p []) as [n|] eqn:E; [|discriminate].
      exists [], (firstn n []), []. split; [now destruct n|].
      now apply match_len_sound.
    + destruct (match_len p (c :: s)) as [n|] eqn:E.
      * exists [], (firstn n (c :: s)), (skipn n (c :: s)). split.
        -- simpl app. now rewrite firstn_skipn.
        -- now apply match_len_sound.
      * destruct (IH H) as (before & m & after & -> & Hm).
        exists (c :: before), m, after. split; [reflexivity | exact Hm].
  - intros (before & m & after & -> & Hm).
    induction before as [|c before IH]; simpl app.
    + pose proof (match_len_complete p m Hm after) as Hc.
      destruct (m ++ after); simpl; destruct (match_len p _); congruence.
    + simpl. rewrite IH. now destruct (match_len p (c :: before ++ m ++ after)).
Qed.

Lemma sub_from_skip p : forall s n, sub_from p n s = sub_from p 0 (skipn n s).
Proof.
  induction s as [|c s IH]; intros n.
  - destruct n; reflexivity.
  - destruct n as [|n]; [reflexivity|]. simpl. apply IH.
Qed.

Lemma sub_from_no_empty_match p c s :
  match_len p (c :: s) <> Some 0%nat ->
  sub_from p 0 (c :: s)
  = match match_len p (c :: s) with
    | Some n => sub_from p 0 (skipn n (c :: s))
    | None => c :: sub_from p 0 s
    end.
Proof.
  intros H. simpl sub_from.
  destruct (match_len p (c :: s)) as [[|k]|]; try congruence.
  simpl skipn. apply sub_from_skip.
Qed.

(** The pattern of the link matches at least its first character. *)
Lemma css_link_re_not_empty s : match_len css_link_re s <> Some 0%nat.
Proof.
  destruct s as [|c s]; [discriminate|].
  unfold css_link_re. simpl.
  destruct (lit_ignore 60%N c); [|discriminate].
  match goal with
  | |- option_map S ?m <> _ => destruct m; discriminate
  end.
Qed.

Lemma re_sub_empty_scan p :
  (forall s, match_len p s <> Some 0%nat) ->
  forall s, scan p s (re_sub_empty p s).
Proof.
  intros Hne s. unfold re_sub_empty.
  remember (List.length s) as k eqn:Hk.
  revert s Hk. induction k as [k IH] using lt_wf_ind. intros s Hk.
  destruct s as [|c s]; [constructor|].
  rewrite (sub_from_no_empty_match p c s (Hne _)).
  destruct (match_len p (c :: s)) as [n|] eqn:E.
  - destruct n as [|n]; [now apply Hne in E|].
    apply scan_drop with (n := n); [exact E|].
    apply (IH (List.length (skipn (S n) (c :: s)))); [|reflexivity].
    subst k. rewrite length_skipn. simpl. lia.
  - apply scan_keep; [exact E|].
    apply (IH (List.length s)); [subst k; simpl; lia | reflexivity].
Qed.

(** The scan determines its outcome. *)
Lemma scan_deterministic p s out1 :
  scan p s out1 -> forall out2, scan p s out2 -> out1 = out2.
Proof.
  induction 1 as [|c s out Hm _ IH|s n out Hm _ IH]; intros out2 H2.
  - inversion H2 as [| |s' n' out' Hm' H']; subst; [reflexivity|].
    pose proof (match_len_bound _ _ _ Hm') as Hb. simpl in Hb. lia.
  - inversion H2 as [|c' s' out' Hm' H'|s' n' out' Hm' H']; subst.
    + f_equal. now apply IH.
    + congruence.
  - inversion H2 as [|c' s' out' Hm' H'|s' n' out' Hm' H']; subst.
    + pose proof (match_len_bound _ _ _ Hm) as Hb. simpl in Hb. lia.
    + congruence.
    + rewrite Hm in Hm'. injection Hm' as <-. now apply IH.
Qed.

Lemma re_sub_empty_no_match p : forall s, has_match p s = false -> re_sub_empty p s = s.
Proof.
  unfold re_sub_empty. induction s as [|c s IH]; intros H; [reflexivity|].
  simpl in H. simpl sub_from.
  destruct (match_len p (c :: s)); [discriminate|].
  rewrite IH; [reflexivity|exact H].
Qed.

(** *** [str.replace] and its outcome *)

Lemma replace_from_skip old new : forall s n,
  replace_from old new n s = replace_from old new 0 (skipn n s).
Proof.
  induction s as [|c s IH]; intros n.
  - destruct n; reflexivity.
  - destruct n as [|n]; [reflexivity|]. simpl. apply IH.
Qed.

Lemma starts_with_split old : forall s,
  starts_with old s = true -> s = old ++ skipn (List.length old) s.
Proof.
  induction old as [|x old IH]; intros s H; [reflexivity|].
  destruct s as [|c s]; [discriminate|].
  simpl in H. apply andb_prop in H. destruct H as [Hx H].
  apply N.eqb_eq in Hx. subst c. simpl. f_equal. now apply IH.
Qed.

Lemma replace_from_substituted old new :
  old <> [] -> forall s, substituted old new s (replace_from old new 0 s).
Proof.
  intros Hne s.
  remember (List.length s) as k eqn:Hk.
  revert s Hk. induction k as [k IH] using lt_wf_ind. intros s Hk.
  destruct s as [|c s]; [constructor|].
  simpl replace_from.
  destruct (starts_with old (c :: s)) eqn:E.
  - pose proof (starts_with_split old (c :: s) E) as Hsplit.
    rewrite replace_from_skip.
    replace (skipn (Nat.pred (List.length old)) s)
      with (skipn (List.length old) (c :: s))
      by (destruct old; [congruence | reflexivity]).
    rewrite Hsplit at 1. apply substituted_here.
    apply (IH (List.length (skipn (List.length old) (c :: s)))); [|reflexivity].
    subst k. rewrite length_skipn. destruct old; [congruence | simpl; lia].
  - apply substituted_keep.
    + intros tail Htail. rewrite Htail, starts_with_app in E. discriminate.
    + apply (IH (List.length s)); [subst k; simpl; lia | reflexivity].
Qed.

(** The replacement determines its outcome. *)
Lemma substituted_deterministic old new :
  old <> [] ->
  forall s out1, substituted old new s out1 ->
  forall out2, substituted old new s out2 -> out1 = out2.
Proof.
  intros Hne s out1 H1.
  induction H1 as [|c s out Hno _ IH|tail out _ IH]; intros out2 H2.
  - inversion H2 as [| |tail' out' H' Heq]; [reflexivity|].
    destruct old; [congruence | discriminate].
  - inversion H2 as [|c' s' out' Hno' H'|tail' out' H' Heq]; subst.
    + f_equal. now apply IH.
    + symmetry in Heq. now apply Hno in Heq.
  - remember (old ++ tail) as s eqn:Hs.
    destruct H2 as [|c' s' out' Hno' H'|tail' out' H'].
    + destruct old; [congruence | discriminate].
    + now apply Hno' in Hs.
    + apply app_inv_head in Hs. subst tail'. f_equal. now apply IH.
Qed.

(** What the inliner is given: the fetched HTML after the scan for the
    link, with the style block in the place of every [</head>]. *)
Lemma inliner_input_told html css_text :
  scan css_link_re html (remove_css_link html) /\
  substituted (lit "</head>")
    (lit "<style type=" ++ dquote ++ lit "text/css" ++ dquote ++ lit ">"
     ++ css_text ++ lit "</style></head>")
    (remove_css_link html) (inliner_input html css_text).
Proof.
  split.
  - apply re_sub_empty_scan. exact css_link_re_not_empty.
  - unfold inliner_input, str_replace. apply replace_from_substituted. discriminate.
Qed.

(** Against [C6] as stated.  Without the CSS asset the fetched HTML goes to
    the email platform as it is, its [<link>] to the stylesheet included;
    with the asset, what is left around a deleted occurrence can itself
    read as such a [<link>]; and with the asset, when the inliner answers
    with HTML that has no [style=] in it, that HTML goes to the email
    platform all the same. *)
Lemma link_reaches_the_platform :
  send_newsletter abc no_css_env s0
  = (Ok test_sent_reply,
     extend s0 [HttpGet (content_url no_css_env abc);
                FileExists (css_file_path prod_config);
                CampaignsCreate (campaign_data no_css_env);
                CampaignsSetContent (JStr (lit "c1")) (html_content_of linked_html);
                CampaignsSendTestEmail (JStr (lit "c1")) (test_payload_of no_css_env)]) /\
  occurs css_link_re linked_html /\
  remove_css_link split_link_html
  = lit "<head><link rel='stylesheet' href='newsletter.css'></head>" /\
  occurs css_link_re (remove_css_link split_link_html) /\
  send_newsletter abc unstyled_env s0
  = (Ok test_sent_reply,
     extend s0 [HttpGet (content_url unstyled_env abc);
                FileExists (css_file_path prod_config);
                FileRead (css_file_path prod_config);
                PremailerTransform (inliner_input linked_html (lit "h1 { color: red }"));
                CampaignsCreate (campaign_data unstyled_env);
                CampaignsSetContent (JStr (lit "c1")) (html_content_of unlinked_html);
                CampaignsSendTestEmail (JStr (lit "c1")) (test_payload_of unstyled_env)]) /\
  contains (lit "style=") unlinked_html = false.
Proof.
  repeat split; try apply has_match_occurs; vm_compute; reflexivity.
Qed.

(** [C6], amended.  For a newsletter that the backend serves, outside
    simulated mode and with a campaign created under id [cid]:
    - when the CSS asset is there and not empty and the inliner is
      available, the inliner is given the fetched HTML after one
      left-to-right, case-insensitive pass ([scan]) that keeps a character
      where the link pattern does not match and drops the matched
      characters where it does, with the style block
      [<style type="text/css">...</style></head>] in the place of every
      [</head>] ([substituted]); if the transform succeeds, its output,
      whatever it is, is the HTML set as the campaign's content;
    - when the CSS asset is not there, or is empty, the fetched HTML itself
      is set as the campaign's content. *)
Theorem stylesheet_link_removal e s id c html campaign cid :
  backend_serves e id (c :: html) ->
  simulated (cfg e) = false ->
  campaigns_create (svc e) (campaign_data e) = Ok campaign ->
  py_index campaign (lit "id") = Ok cid ->
  (forall c' css,
     path_exists (svc e) (css_file_path (cfg e)) = true ->
     read_file (svc e) (css_file_path (cfg e)) = Ok (c' :: css) ->
     PREMAILER_AVAILABLE (cfg e) = true ->
     exists without_link given,
       scan css_link_re (c :: html) without_link /\
       substituted (lit "</head>")
         (lit "<style type=" ++ dquote ++ lit "text/css" ++ dquote ++ lit ">"
          ++ (c' :: css) ++ lit "</style></head>")
         without_link given /\
       forall out,
         premailer_transform (svc e) given = Ok out ->
         exists r evs,
           send_newsletter id e s
           = (r, extend s ([HttpGet (content_url e id);
                            FileExists (css_file_path (cfg e));
                            FileRead (css_file_path (cfg e));
                            PremailerTransform given;
                            CampaignsCreate (campaign_data e);
                            CampaignsSetContent cid (html_content_of out)] ++ evs))) /\
  (path_exists (svc e) (css_file_path (cfg e)) = false ->
   exists r evs,
     send_newsletter id e s
     = (r, extend s ([HttpGet (content_url e id);
                      FileExists (css_file_path (cfg e));
                      CampaignsCreate (campaign_data e);
                      CampaignsSetContent cid (html_content_of (c :: html))] ++ evs))) /\
  (path_exists (svc e) (css_file_path (cfg e)) = true ->
   read_file (svc e) (css_file_path (cfg e)) = Ok [] ->
   exists r evs,
     send_newsletter id e s
     = (r, extend s ([HttpGet (content_url e id);
                      FileExists (css_file_path (cfg e));
                      FileRead (css_file_path (cfg e));
                      CampaignsCreate (campaign_data e);
                      CampaignsSetContent cid (html_content_of (c :: html))] ++ evs))).
Proof.
  intros Hserved Hlive Hcreate Hid.
  pose proof (get_newsletter_content_served e s id _ Hserved) as Hget.
  rewrite (send_newsletter_fetched e s id c html _ Hget).
  split; [|split].
  - intros c' css Hex Hread Hprem.
    exists (remove_css_link (c :: html)), (inliner_input (c :: html) (c' :: css)).
    destruct (inliner_input_told (c :: html) (c' :: css)) as [Hscan Hsub].
    split; [exact Hscan|]. split; [exact Hsub|].
    intros out Hout.
    pose proof (css_inlining_with_css e (record s (HttpGet (content_url e id)))
                  (c :: html) c' css Hex Hread Hprem) as Hstage.
    rewrite Hout in Hstage.
    rewrite (bind_Ok _ _ _ _ _ _ (inlined_html_of_success _ _ _ _ _ Hstage)).
    destruct (deliver_sets_content e
                (extend (record s (HttpGet (content_url e id)))
                   [FileExists (css_file_path (cfg e));
                    FileRead (css_file_path (cfg e));
                    PremailerTransform (inliner_input (c :: html) (c' :: css))])
                out campaign cid Hlive Hcreate Hid) as (r & evs & Hd).
    exists r, evs. rewrite Hd. rewrite record_is_extend, !extend_extend.
    reflexivity.
  - intros Hex.
    pose proof (css_inlining_without_css e (record s (HttpGet (content_url e id)))
                  (c :: html) Hex) as Hstage.
    rewrite (bind_Ok _ _ _ _ _ _ (inlined_html_of_success _ _ _ _ _ Hstage)).
    destruct (deliver_sets_content e
                (extend (record s (HttpGet (content_url e id)))
                   [FileExists (css_file_path (cfg e))])
                (c :: html) campaign cid Hlive Hcreate Hid) as (r & evs & Hd).
    exists r, evs. rewrite Hd. rewrite record_is_extend, !extend_extend.
    reflexivity.
  - intros Hex Hread.
    pose proof (css_inlining_empty_css e (record s (HttpGet (content_url e id)))
                  (c :: html) Hex Hread) as Hstage.
    rewrite (bind_Ok _ _ _ _ _ _ (inlined_html_of_success _ _ _ _ _ Hstage)).
    destruct (deliver_sets_content e
                (extend (record s (HttpGet (content_url e id)))
                   [FileExists (css_file_path (cfg e));
                    FileRead (css_file_path (cfg e))])
                (c :: html) campaign cid Hlive Hcreate Hid) as (r & evs & Hd).
    exists r, evs. rewrite Hd. rewrite record_is_extend, !extend_extend.
    reflexivity.
Qed.

(** The scan and the replacement on the sample newsletter. *)
Lemma linked_html_unlinked : scan css_link_re linked_html unlinked_html.
Proof.
  replace unlinked_html with (remove_css_link linked_html)
    by (vm_compute; reflexivity).
  apply (proj1 (inliner_input_told linked_html [])).
Qed.

Lemma unlinked_html_styled :
  substituted (lit "</head>")
    (lit "<style type=" ++ dquote ++ lit "text/css" ++ dquote ++ lit ">"
     ++ lit "p { color: red }" ++ lit "</style></head>")
    unlinked_html styled_html.
Proof.
  replace styled_html
    with (replace_from (lit "</head>")
            (lit "<style type=" ++ dquote ++ lit "text/css" ++ dquote ++ lit ">"
             ++ lit "p { color: red }" ++ lit "</style></head>") 0 unlinked_html)
    by (vm_compute; reflexivity).
  apply replace_from_substituted. discriminate.
Qed.

Lemma stylesheet_link_removal_witness :
  (exists r evs,
     send_newsletter abc inlining_env s0
     = (r, extend s0 ([HttpGet (content_url inlining_env abc);
                       FileExists (css_file_path prod_config);
                       FileRead (css_file_path prod_config);
                       PremailerTransform styled_html;
                       CampaignsCreate (campaign_data inlining_env);
                       CampaignsSetContent (JStr (lit "c1"))
                         (html_content_of inlined_sample)] ++ evs))) /\
  (exists r evs,
     send_newsletter abc no_css_env s0
     = (r, extend s0 ([HttpGet (content_url no_css_env abc);
                       FileExists (css_file_path prod_config);
                       CampaignsCreate (campaign_data no_css_env);
                       CampaignsSetContent (JStr (lit "c1"))
                         (html_content_of linked_html)] ++ evs))).
Proof.
  split.
  - destruct (proj1 (stylesheet_link_removal inlining_env s0 abc
                       60%N (List.tl linked_html) campaign_c1 (JStr (lit "c1"))
                       (ex_intro _ (served linked_html)
                                 (conj eq_refl (conj eq_refl eq_refl)))
                       eq_refl eq_refl eq_refl)
                    112%N (List.tl (lit "p { color: red }")) eq_refl eq_refl eq_refl)
      as (without_link & given & Hscan & Hsub & Hsend).
    assert (Hw : without_link = unlinked_html)
      by exact (scan_deterministic _ _ _ Hscan _ linked_html_unlinked).
    rewrite Hw in Hsub.
    assert (Hnonempty : lit "</head>" <> []) by discriminate.
    assert (Hg : given = styled_html)
      by exact (substituted_deterministic _ _ Hnonempty _ _ Hsub _ unlinked_html_styled).
    rewrite Hg in Hsend. exact (Hsend inlined_sample eq_refl).
  - refine (proj1 (proj2 (stylesheet_link_removal no_css_env s0 abc
                            60%N (List.tl linked_html) campaign_c1 (JStr (lit "c1")) _
                            eq_refl eq_refl eq_refl))
              eq_refl).
    exists (served linked_html). repeat split; reflexivity.
Defined.

(** * Further properties *)

(** ** Logging in and out *)

Lemma text_eqb_eq a : forall b, text_eqb a b = true -> a = b.
Proof.
  induction a as [|x a IH]; intros [|y b] H; simpl in H; try discriminate.
  - reflexivity.
  - apply andb_prop in H. destruct H as [Hx Hab].
    apply N.eqb_eq in Hx. subst. f_equal. now apply IH.
Qed.

Lemma env_truthy_Some (t : text) : t <> [] -> env_truthy (Some t) = true.
Proof. destruct t; [congruence | reflexivity]. Qed.

Lemma session_set_available e s v :
  session_unavailable (svc e) = None ->
  session_set_logged_in v e s
  = if env_truthy (SECRET_KEY (cfg e)) then (Ok tt, with_flag s (Some v))
    else (Raise null_session_error, s).
Proof.
  intros H. unfold session_set_logged_in, session_write_guard, session_guard, bind, ask.
  rewrite H. simpl. destruct (env_truthy (SECRET_KEY (cfg e))); reflexivity.
Qed.

Lemma session_pop_available e s :
  session_unavailable (svc e) = None ->
  session_pop_logged_in e s
  = if env_truthy (SECRET_KEY (cfg e)) then (Ok tt, with_flag s None)
    else (Raise null_session_error, s).
Proof.
  intros H. unfold session_pop_logged_in, session_write_guard, session_guard, bind, ask.
  rewrite H. simpl. destruct (env_truthy (SECRET_KEY (cfg e))); reflexivity.
Qed.

Lemma login_checks_password e s password :
  EDITOR_PASSWORD (cfg e) = Some password ->
  password <> [] ->
  session_unavailable (svc e) = None ->
  truthy (logged s) = false ->
  request_method (req e) = POST ->
  login e s
  = if match request_form_password (req e) with
       | Some p => text_eqb p password
       | None => false
       end
    then (if env_truthy (SECRET_KEY (cfg e))
          then (Ok (Redirect match request_args_next (req e) with
                             | Some (c :: u) => Url (c :: u)
                             | _ => UrlFor "index" []
                             end),
                with_flag s (Some (JBool true)))
          else (Raise null_session_error, s))
    else (page_of (render (svc e) "login.html" (login_page invalid_password)),
          extend s [RenderTemplate "login.html" (login_page invalid_password)]).
Proof.
  intros Hpw Hne Hsession Hout Hpost.
  unfold login, bind, ask. rewrite Hpw, (env_truthy_Some _ Hne).
  change (negb true) with false. cbv beta iota.
  rewrite (session_get_available e s Hsession). fold (logged s). rewrite Hout.
  rewrite Hpost.
  destruct (request_form_password (req e)) as [p|].
  - destruct (text_eqb p password).
    + rewrite (session_set_available e s _ Hsession).
      destruct (env_truthy (SECRET_KEY (cfg e))); reflexivity.
    + unfold render_template, login_page, invalid_password. rewrite call_run.
      destruct (render (svc e) "login.html" _); reflexivity.
  - unfold render_template, login_page, invalid_password. rewrite call_run.
    destruct (render (svc e) "login.html" _); reflexivity.
Qed.

Lemma gate_open e s f :
  env_truthy (EDITOR_PASSWORD (cfg e)) = true ->
  env_truthy (SECRET_KEY (cfg e)) = true ->
  session_unavailable (svc e) = None ->
  logged_in s = Some (JBool true) ->
  login_required f e s = f e s.
Proof.
  intros Hpw Hkey Hsession Hin.
  rewrite (login_required_enforced e s f Hpw Hkey Hsession), Hin. reflexivity.
Qed.

Lemma gate_closed e s f :
  env_truthy (EDITOR_PASSWORD (cfg e)) = true ->
  env_truthy (SECRET_KEY (cfg e)) = true ->
  session_unavailable (svc e) = None ->
  is_True (logged s) = false ->
  login_required f e s = (Ok (to_login e), s).
Proof.
  intros Hpw Hkey Hsession Hout.
  rewrite (login_required_enforced e s f Hpw Hkey Hsession).
  fold (logged s). rewrite Hout. reflexivity.
Qed.

(** [X1] A [POST] to [login] with the configured password, by a visitor
    who is not logged in and whose session can be reached.  With a session
    secret key configured, it sets [session['logged_in']] to [True] and
    makes no call to the outside; it redirects to the [next] argument of the
    request, taken as it is, when there is a non-empty one, and to [index]
    otherwise; after it the gate of the protected routes runs the handler.
    Without a secret key the session cannot be written: the assignment
    raises [RuntimeError], which [login] does not catch, and the session is
    as it was. *)
Theorem login_accepts_password e s password :
  EDITOR_PASSWORD (cfg e) = Some password ->
  password <> [] ->
  session_unavailable (svc e) = None ->
  truthy (logged s) = false ->
  request_method (req e) = POST ->
  request_form_password (req e) = Some password ->
  (env_truthy (SECRET_KEY (cfg e)) = true ->
   (forall c u,
      request_args_next (req e) = Some (c :: u) ->
      login e s = (Ok (Redirect (Url (c :: u))), with_flag s (Some (JBool true)))) /\
   (request_args_next (req e) = None \/ request_args_next (req e) = Some [] ->
    login e s = (Ok (Redirect (UrlFor "index" [])), with_flag s (Some (JBool true)))) /\
   (forall e' f,
      cfg e' = cfg e -> svc e' = svc e ->
      login_required f e' (with_flag s (Some (JBool true)))
      = f e' (with_flag s (Some (JBool true))))) /\
  (env_truthy (SECRET_KEY (cfg e)) = false ->
   login e s = (Raise null_session_error, s)).
Proof.
  intros Hpw Hne Hsession Hout Hpost Hform.
  pose proof (login_checks_password e s password Hpw Hne Hsession Hout Hpost) as H.
  rewrite Hform, text_eqb_refl in H.
  split.
  - intros Hkey. rewrite Hkey in H. split; [|split].
    + intros c u Hnext. rewrite H, Hnext. reflexivity.
    + intros [Hnext|Hnext]; rewrite H, Hnext; reflexivity.
    + intros e' f Hcfg Hsvc. apply gate_open.
      * rewrite Hcfg, Hpw. now apply env_truthy_Some.
      * now rewrite Hcfg.
      * now rewrite Hsvc.
      * reflexivity.
  - intros Hkey. rewrite Hkey in H. exact H.
Qed.

Lemma login_accepts_password_witness :
  login (login_env (login_post (Some (lit "hunter2"))
                      (Some (lit "http://elsewhere.example/")))) s0
  = (Ok (Redirect (Url (lit "http://elsewhere.example/"))),
     with_flag s0 (Some (JBool true))) /\
  login (login_env (login_post (Some (lit "hunter2")) None)) s0
  = (Ok (Redirect (UrlFor "index" [])), with_flag s0 (Some (JBool true))) /\
  login_required (editor abc) (gate_env prod_config) (with_flag s0 (Some (JBool true)))
  = editor abc (gate_env prod_config) (with_flag s0 (Some (JBool true))) /\
  login (keyless_login_env (login_post (Some (lit "hunter2")) None)) s0
  = (Raise null_session_error, s0).
Proof.
  split; [|split; [|split]].
  - refine (proj1 (proj1 (login_accepts_password
                            (login_env (login_post (Some (lit "hunter2"))
                                          (Some (lit "http://elsewhere.example/"))))
                            s0 (lit "hunter2") eq_refl _ eq_refl eq_refl eq_refl eq_refl)
                         eq_refl)
              104%N (List.tl (lit "http://elsewhere.example/")) eq_refl).
    discriminate.
  - refine (proj1 (proj2 (proj1 (login_accepts_password
                                   (login_env (login_post (Some (lit "hunter2")) None))
                                   s0 (lit "hunter2") eq_refl _ eq_refl eq_refl eq_refl
                                   eq_refl)
                                eq_refl))
              (or_introl eq_refl)).
    discriminate.
  - refine (proj2 (proj2 (proj1 (login_accepts_password
                                   (login_env (login_post (Some (lit "hunter2")) None))
                                   s0 (lit "hunter2") eq_refl _ eq_refl eq_refl eq_refl
                                   eq_refl)
                                eq_refl))
              (gate_env prod_config) (editor abc) eq_refl eq_refl).
    discriminate.
  - refine (proj2 (login_accepts_password
                     (keyless_login_env (login_post (Some (lit "hunter2")) None))
                     s0 (lit "hunter2") eq_refl _ eq_refl eq_refl eq_refl eq_refl)
              eq_refl).
    discriminate.
Defined.

(** [X2] A [POST] to [login] with another password than the configured
    one, or with none, renders the login form with the error
    [Invalid password. Please try again.] and leaves the session as it was,
    so that the gate of the protected routes still redirects to the login
    form. *)
Theorem login_rejects_password e s password :
  EDITOR_PASSWORD (cfg e) = Some password ->
  password <> [] ->
  session_unavailable (svc e) = None ->
  truthy (logged s) = false ->
  request_method (req e) = POST ->
  request_form_password (req e) <> Some password ->
  let s' := extend s [RenderTemplate "login.html" (login_page invalid_password)] in
  login e s
  = (page_of (render (svc e) "login.html" (login_page invalid_password)), s') /\
  logged_in s' = logged_in s /\
  (forall e' f,
     cfg e' = cfg e -> svc e' = svc e ->
     env_truthy (SECRET_KEY (cfg e)) = true ->
     login_required f e' s' = (Ok (to_login e'), s')).
Proof.
  intros Hpw Hne Hsession Hout Hpost Hform s'.
  pose proof (login_checks_password e s password Hpw Hne Hsession Hout Hpost) as H.
  assert (Hno : match request_form_password (req e) with
                | Some p => text_eqb p password
                | None => false
                end = false).
  { destruct (request_form_password (req e)) as [p|]; [|reflexivity].
    destruct (text_eqb p password) eqn:E; [|reflexivity].
    apply text_eqb_eq in E. subst. congruence. }
  rewrite Hno in H. split; [exact H|]. split; [reflexivity|].
  intros e' f Hcfg Hsvc Hkey. apply gate_closed.
  - rewrite Hcfg, Hpw. now apply env_truthy_Some.
  - now rewrite Hcfg.
  - now rewrite Hsvc.
  - change (logged s') with (logged s).
    destruct (logged s) as [|[|]| | | | |]; simpl in *; congruence.
Qed.

Lemma login_rejects_password_witness :
  let s' := extend s0 [RenderTemplate "login.html" (login_page invalid_password)] in
  login (login_env (login_post (Some (lit "hunter3")) None)) s0
  = (Ok (Page 200 []), s') /\
  logged_in s' = None /\
  login_required (editor abc) (gate_env prod_config) s'
  = (Ok (to_login (gate_env prod_config)), s').
Proof.
  destruct (login_rejects_password
              (login_env (login_post (Some (lit "hunter3")) None))
              s0 (lit "hunter2") eq_refl) as (H1 & H2 & H3);
    try reflexivity; try discriminate.
  split; [exact H1|]. split; [exact H2|].
  exact (H3 (gate_env prod_config) (editor abc) eq_refl eq_refl eq_refl).
Defined.

(** [X3] [logout], when the session can be reached.  With a session
    secret key configured it drops the session flag, makes no call to the
    outside and redirects to [login]; with a password configured, the gate
    of the protected routes afterwards redirects to the login form, whoever
    was logged in.  Without a secret key the session cannot be changed: the
    [pop] raises [RuntimeError], which [logout] does not catch, and the
    session is as it was. *)
Theorem logout_closes_the_gate e s :
  session_unavailable (svc e) = None ->
  (env_truthy (SECRET_KEY (cfg e)) = true ->
   logout e s = (Ok (Redirect (UrlFor "login" [])), with_flag s None) /\
   (forall e' f,
      cfg e' = cfg e -> svc e' = svc e ->
      env_truthy (EDITOR_PASSWORD (cfg e)) = true ->
      login_required f e' (with_flag s None)
      = (Ok (to_login e'), with_flag s None))) /\
  (env_truthy (SECRET_KEY (cfg e)) = false ->
   logout e s = (Raise null_session_error, s)).
Proof.
  intros Hsession. split; intros Hkey.
  - split.
    + unfold logout. unfold bind.
      rewrite (session_pop_available e s Hsession), Hkey. reflexivity.
    + intros e' f Hcfg Hsvc Hpw. apply gate_closed.
      * now rewrite Hcfg.
      * now rewrite Hcfg.
      * now rewrite Hsvc.
      * reflexivity.
  - unfold logout. unfold bind.
    rewrite (session_pop_available e s Hsession), Hkey. reflexivity.
Qed.

Lemma logout_closes_the_gate_witness :
  logout (gate_env prod_config) s_in
  = (Ok (Redirect (UrlFor "login" [])), with_flag s_in None) /\
  login_required (editor abc) (gate_env prod_config) (with_flag s_in None)
  = (Ok (to_login (gate_env prod_config)), with_flag s_in None) /\
  logout (gate_env keyless_config) s_in = (Raise null_session_error, s_in).
Proof.
  destruct (logout_closes_the_gate (gate_env prod_config) s_in eq_refl) as [Hkey _].
  destruct (Hkey eq_refl) as [H1 H2].
  split; [exact H1|]. split.
  - exact (H2 (gate_env prod_config) (editor abc) eq_refl eq_refl eq_refl).
  - exact (proj2 (logout_closes_the_gate (gate_env keyless_config) s_in eq_refl) eq_refl).
Defined.

(** [X4] With a password and a session secret key configured, an
    exception of the session access decides the gate by its class: on a
    [RuntimeError] the handler runs as if there were no gate; any other
    exception leaves the gate uncaught, the handler not having run. *)
Theorem gate_on_session_errors e s f x :
  env_truthy (EDITOR_PASSWORD (cfg e)) = true ->
  env_truthy (SECRET_KEY (cfg e)) = true ->
  session_unavailable (svc e) = Some x ->
  ((exists msg, x = RuntimeError msg) -> login_required f e s = f e s) /\
  ((forall msg, x <> RuntimeError msg) -> login_required f e s = (Raise x, s)).
Proof.
  intros Hpw Hkey Hsession. split.
  - intros (msg & ->).
    now apply login_required_session_unavailable with (msg := msg).
  - intros Hother.
    unfold login_required, bind, ask. rewrite Hpw, Hkey. simpl.
    unfold try_except, bind, session_get_logged_in, session_guard, bind, ask.
    rewrite Hsession. unfold raise.
    destruct x; try reflexivity. now destruct (Hother msg).
Qed.

Lemma gate_on_session_errors_witness :
  login_required (editor abc) (broken_session_env (RuntimeError (lit "no session"))) s0
  = editor abc (broken_session_env (RuntimeError (lit "no session"))) s0 /\
  login_required (editor abc) (broken_session_env (KeyError (lit "sid"))) s0
  = (Raise (KeyError (lit "sid")), s0).
Proof.
  split.
  - refine (proj1 (gate_on_session_errors
                     (broken_session_env (RuntimeError (lit "no session"))) s0
                     (editor abc) _ eq_refl eq_refl eq_refl) _).
    eexists. reflexivity.
  - refine (proj2 (gate_on_session_errors
                     (broken_session_env (KeyError (lit "sid"))) s0
                     (editor abc) _ eq_refl eq_refl eq_refl) _).
    discriminate.
Defined.

(** ** The version-control store *)

(** [X5] What [get_file_sha] makes of the store's answer to its one
    request: a 404 is [None], whatever the body; any other status from 400
    to 599 is raised as [HTTPError] to the caller; on any other status the
    result is the [sha] entry of the decoded body, a body without one
    raises, and a body that cannot be decoded raises the exception of the
    decoding (which is no [HTTPError]) to the caller. *)
Theorem get_file_sha_by_status e s path r :
  requests_get (svc e) (github_helper.contents_url path) = Ok r ->
  let s' := extend s [HttpGet (github_helper.contents_url path)] in
  (status_code r = 404%Z -> github_helper.get_file_sha path e s = (Ok JNull, s')) /\
  ((400 <= status_code r < 600)%Z -> status_code r <> 404%Z ->
   github_helper.get_file_sha path e s = (Raise (HTTPError (status_code r)), s')) /\
  ((status_code r < 400)%Z \/ (600 <= status_code r)%Z ->
   (forall body,
      response_json r = Ok body ->
      github_helper.get_file_sha path e s = (py_index body (lit "sha"), s')) /\
   (forall x,
      response_json r = Raise x ->
      (forall status, x <> HTTPError status) ->
      github_helper.get_file_sha path e s = (Raise x, s'))).
Proof.
  intros Hget s'.
  assert (Hrun : github_helper.get_file_sha path e s
                 = try_except
                     (github_helper.raise_for_status r ;;
                      body <- lift (response_json r) ;;
                      lift (py_index body (lit "sha")))
                     (fun x =>
                        match x with
                        | HTTPError status =>
                            Some (if (status =? 404)%Z then ret JNull else raise x)
                        | _ => None
                        end) e s').
  { unfold github_helper.get_file_sha, try_except. unfold bind at 1.
    rewrite call_run, Hget. reflexivity. }
  rewrite Hrun. unfold try_except, bind, github_helper.raise_for_status.
  split; [|split].
  - intros H404. rewrite H404. reflexivity.
  - intros [Hlo Hhi] Hnot.
    assert ((400 <=? status_code r)%Z && (status_code r <? 600)%Z = true) as ->.
    { apply andb_true_iff. split; lia. }
    unfold raise. apply Z.eqb_neq in Hnot. rewrite Hnot. reflexivity.
  - intros Hst.
    assert ((400 <=? status_code r)%Z && (status_code r <? 600)%Z = false) as ->.
    { apply andb_false_iff. destruct Hst; [left|right]; lia. }
    unfold ret, lift. split.
    + intros body Hbody. rewrite Hbody.
      destruct body as [| | | | | |fields]; try reflexivity.
      unfold py_index. destruct (assoc (lit "sha") fields); reflexivity.
    + intros x Hbody Hother. rewrite Hbody.
      destruct x; try reflexivity. now destruct (Hother status).
Qed.

Lemma get_file_sha_by_status_witness :
  github_helper.get_file_sha (file_path_of abc) (marker_env 404 JNull) s0
  = (Ok JNull, extend s0 [HttpGet abc_store_url]) /\
  github_helper.get_file_sha (file_path_of abc) (marker_env 403 JNull) s0
  = (Raise (HTTPError 403), extend s0 [HttpGet abc_store_url]) /\
  github_helper.get_file_sha (file_path_of abc) (marker_env 200 (JObj [])) s0
  = (Raise (KeyError (lit "sha")), extend s0 [HttpGet abc_store_url]) /\
  github_helper.get_file_sha (file_path_of abc) undecodable_marker_env s0
  = (Raise (OtherError (lit "JSONDecodeError") []), extend s0 [HttpGet abc_store_url]).
Proof.
  split; [|split; [|split]].
  - exact (proj1 (get_file_sha_by_status (marker_env 404 JNull) s0 (file_path_of abc)
                    (answered 404 JNull) eq_refl) eq_refl).
  - refine (proj1 (proj2 (get_file_sha_by_status (marker_env 403 JNull) s0
                            (file_path_of abc) (answered 403 JNull) eq_refl)) _ _).
    + simpl. lia.
    + discriminate.
  - refine (proj1 (proj2 (proj2 (get_file_sha_by_status (marker_env 200 (JObj [])) s0
                                   (file_path_of abc) (answered 200 (JObj [])) eq_refl))
                     _) (JObj []) eq_refl).
    left. simpl. lia.
  - refine (proj2 (proj2 (proj2 (get_file_sha_by_status undecodable_marker_env s0
                                   (file_path_of abc) (served (lit "<html>")) eq_refl))
                     _) _ eq_refl _).
    + left. simpl. lia.
    + discriminate.
Defined.

Lemma commit_file_rejected e s path content bytes message sha r body :
  env_truthy (GITHUB_TOKEN (cfg e)) = true ->
  utf8_encode content = Some bytes ->
  revision_marker e path sha ->
  let url := github_helper.contents_url path in
  let put := github_helper.commit_data message (b64encode bytes) sha in
  requests_put (svc e) url put = Ok r ->
  status_code r <> 200%Z -> status_code r <> 201%Z ->
  response_json r = Ok (JObj body) ->
  github_helper.commit_file path (JStr content) message e s
  = (Ok (JObj [(lit "error", rejection_message body)]),
     extend s [HttpGet url; HttpPut url put]).
Proof.
  intros Htok Hutf Hmarker url put Hput H200 H201 Hbody.
  unfold github_helper.commit_file. unfold bind at 1. unfold ask.
  rewrite Htok. change (negb true) with false. cbv beta iota.
  unfold bind at 1. unfold lift at 1. unfold b64_of_content. rewrite Hutf.
  unfold bind at 1. rewrite (get_file_sha_marker e s path sha Hmarker).
  fold url. fold put.
  unfold bind at 1. rewrite call_run, Hput.
  apply Z.eqb_neq in H200. apply Z.eqb_neq in H201. rewrite H200, H201.
  unfold bind, lift, ret. rewrite Hbody. simpl.
  unfold rejection_message. trace_norm. reflexivity.
Qed.

(** [X6] When the store answers the put with a status other than 200 and
    201 and a JSON object, [save_newsletter] answers HTTP 500 with
    [GitHub Save Failed: ] followed by the [message] of that object as it
    is, or by [Unknown error] when the object has none; the store has then
    been asked for the marker and sent the put, once each. *)
Theorem save_reports_rejection e s id data c html bytes sha r body :
  request_json (req e) = Ok (JObj data) ->
  assoc (lit "html_content") data = Some (JStr (c :: html)) ->
  utf8_encode (c :: html) = Some bytes ->
  env_truthy (GITHUB_TOKEN (cfg e)) = true ->
  GITHUB_HELPER_AVAILABLE (cfg e) = true ->
  revision_marker e (file_path_of id) sha ->
  let url := github_helper.contents_url (file_path_of id) in
  let put := github_helper.commit_data
               (commit_message_of id (notes_of (svc e) data)) (b64encode bytes) sha in
  requests_put (svc e) url put = Ok r ->
  status_code r <> 200%Z -> status_code r <> 201%Z ->
  response_json r = Ok (JObj body) ->
  save_newsletter id e s
  = (Ok (Json 500
           (JObj [(lit "error",
                   JStr (lit "GitHub Save Failed: "
                         ++ str_of (svc e) (rejection_message body)))])),
     extend s [HttpGet url; HttpPut url put]).
Proof.
  intros Hreq Hcontent Hutf Htok Hhelper Hmarker url put Hput H200 H201 Hbody.
  rewrite (save_newsletter_commits e s id data (JStr (c :: html))
             Hreq Hcontent eq_refl Hhelper).
  rewrite (bind_Ok _ _ _ _ _ _
             (commit_file_rejected e s (file_path_of id) (c :: html) bytes _ sha r body
                Htok Hutf Hmarker Hput H200 H201 Hbody)).
  reflexivity.
Qed.

Lemma save_reports_rejection_witness :
  save_newsletter abc
    (rejected_save_env (JStr (lit "<p>hi</p>"))
       (JObj [(lit "message", JStr (lit "sha wasn't supplied"))])) s0
  = (Ok (Json 500
           (JObj [(lit "error",
                   JStr (lit "GitHub Save Failed: sha wasn't supplied"))])),
     extend s0 [HttpGet abc_store_url; HttpPut abc_store_url (hi_commit [])]) /\
  save_newsletter abc (rejected_save_env (JStr (lit "<p>hi</p>")) (JObj [])) s0
  = (Ok (Json 500
           (JObj [(lit "error", JStr (lit "GitHub Save Failed: Unknown error"))])),
     extend s0 [HttpGet abc_store_url; HttpPut abc_store_url (hi_commit [])]).
Proof.
  split.
  - refine (save_reports_rejection
              (rejected_save_env (JStr (lit "<p>hi</p>"))
                 (JObj [(lit "message", JStr (lit "sha wasn't supplied"))]))
              s0 abc _ 60%N (List.tl (lit "<p>hi</p>")) (lit "<p>hi</p>") JNull
              (answered 422 (JObj [(lit "message", JStr (lit "sha wasn't supplied"))]))
              [(lit "message", JStr (lit "sha wasn't supplied"))]
              eq_refl eq_refl eq_refl eq_refl eq_refl _ eq_refl _ _ eq_refl);
      try discriminate.
    eapply marker_absent; reflexivity.
  - refine (save_reports_rejection
              (rejected_save_env (JStr (lit "<p>hi</p>")) (JObj []))
              s0 abc _ 60%N (List.tl (lit "<p>hi</p>")) (lit "<p>hi</p>") JNull
              (answered 422 (JObj [])) []
              eq_refl eq_refl eq_refl eq_refl eq_refl _ eq_refl _ _ eq_refl);
      try discriminate.
    eapply marker_absent; reflexivity.
Defined.

Lemma utf8_encode_surrogate c : forall t,
  In c t -> is_surrogate c = true -> utf8_encode t = None.
Proof.
  induction t as [|d t IH]; intros Hin Hs; [contradiction|].
  simpl. destruct Hin as [->|Hin].
  - assert (utf8_char c = None) as ->; [|reflexivity].
    unfold utf8_char, is_surrogate in *.
    apply andb_prop in Hs. destruct Hs as [Hlo Hhi].
    apply N.leb_le in Hlo. apply N.leb_le in Hhi.
    assert ((c <? 128)%N = false) as -> by (apply N.ltb_ge; lia).
    assert ((c <? 2048)%N = false) as -> by (apply N.ltb_ge; lia).
    assert ((c <? 65536)%N = true) as -> by (apply N.ltb_lt; lia).
    assert (((55296 <=? c) && (c <=? 57343))%N = true) as ->.
    { apply andb_true_iff. split; apply N.leb_le; lia. }
    reflexivity.
  - rewrite (IH Hin Hs). now destruct (utf8_char d).
Qed.

(** [X7] [save_newsletter] encodes the content before it contacts the
    store: when [html_content] is true but is no string, the save ends in
    an [AttributeError], and when it is a string with a surrogate code
    point, in a [UnicodeEncodeError]; in both cases no request has been
    made, and the exception is not caught by the handler. *)
Theorem save_encodes_before_contact e s id data content :
  request_json (req e) = Ok (JObj data) ->
  assoc (lit "html_content") data = Some content ->
  truthy content = true ->
  env_truthy (GITHUB_TOKEN (cfg e)) = true ->
  GITHUB_HELPER_AVAILABLE (cfg e) = true ->
  (is_string content = false -> save_newsletter id e s = (Raise no_encode, s)) /\
  (forall t c,
     content = JStr t -> In c t -> is_surrogate c = true ->
     save_newsletter id e s = (Raise UnicodeEncodeError, s)).
Proof.
  intros Hreq Hcontent Htruthy Htok Hhelper.
  rewrite (save_newsletter_commits e s id data content Hreq Hcontent Htruthy Hhelper).
  unfold github_helper.commit_file, bind, ask. rewrite Htok. simpl negb. cbv iota.
  unfold lift. split.
  - intros Hns. destruct content; try discriminate; reflexivity.
  - intros t c -> Hin Hs. unfold b64_of_content.
    rewrite (utf8_encode_surrogate c t Hin Hs). reflexivity.
Qed.

Lemma save_encodes_before_contact_witness :
  save_newsletter abc (rejected_save_env (JInt 5) JNull) s0 = (Raise no_encode, s0) /\
  save_newsletter abc (rejected_save_env (JStr [104; 55357; 105]%N) JNull) s0
  = (Raise UnicodeEncodeError, s0).
Proof.
  split.
  - exact (proj1 (save_encodes_before_contact (rejected_save_env (JInt 5) JNull)
                    s0 abc _ (JInt 5) eq_refl eq_refl eq_refl eq_refl eq_refl) eq_refl).
  - exact (proj2 (save_encodes_before_contact
                    (rejected_save_env (JStr [104; 55357; 105]%N) JNull)
                    s0 abc _ (JStr [104; 55357; 105]%N)
                    eq_refl eq_refl eq_refl eq_refl eq_refl)
             [104; 55357; 105]%N 55357%N eq_refl (or_intror (or_introl eq_refl)) eq_refl).
Defined.

(** ** The link pattern, the case of letters and what the removal keeps *)

Ltac N_bools :=
  repeat match goal with
         | H : _ && _ = true |- _ => apply andb_prop in H; destruct H
         | H : _ && _ = false |- _ => apply andb_false_iff in H
         | H : (_ <=? _)%N = true |- _ => apply N.leb_le in H
         | H : (_ <=? _)%N = false |- _ => apply N.leb_gt in H
         | H : (_ =? _)%N = true |- _ => apply N.eqb_eq in H
         | H : (_ =? _)%N = false |- _ => apply N.eqb_neq in H
         end.

Lemma recases_tolower g c :
  recases g -> unicode_tolower (g c) = unicode_tolower c.
Proof.
  intros Hg. specialize (Hg c). unfold ascii_lower, unicode_tolower in *.
  destruct ((65 <=? g c)%N && (g c <=? 90)%N) eqn:Ha;
    destruct ((65 <=? c)%N && (c <=? 90)%N) eqn:Hc;
    try exact Hg;
    destruct (g c =? 304)%N eqn:E1; destruct (g c =? 8490)%N eqn:E2;
    destruct (c =? 304)%N eqn:E3; destruct (c =? 8490)%N eqn:E4;
    N_bools; try lia;
    repeat match goal with H : _ \/ _ |- _ => destruct H end; lia.
Qed.

Lemma recases_eqb g c k :
  recases g -> (k < 65)%N -> (g c =? k)%N = (c =? k)%N.
Proof.
  intros Hg Hk. specialize (Hg c). unfold ascii_lower in Hg.
  destruct ((65 <=? g c)%N && (g c <=? 90)%N) eqn:Ha;
    destruct ((65 <=? c)%N && (c <=? 90)%N) eqn:Hc;
    destruct (g c =? k)%N eqn:E1; destruct (c =? k)%N eqn:E2;
    try reflexivity; N_bools;
    repeat match goal with H : _ \/ _ |- _ => destruct H end; lia.
Qed.

Lemma respects_app g p q : respects g p -> respects g q -> respects g (p ++ q).
Proof.
  induction p as [|[f|f] p IH]; simpl; intros Hp Hq; [exact Hq| |];
    destruct Hp as [Hf Hp]; split; auto.
Qed.

Lemma respects_lits_ignore g w : recases g -> respects g (lits_ignore w).
Proof.
  intros Hg. unfold lits_ignore. induction (lit w) as [|pc l IH]; simpl; [exact I|].
  split; [|exact IH]. intros c. unfold lit_ignore.
  now rewrite (recases_tolower g c Hg).
Qed.

Lemma css_link_re_respects g : recases g -> respects g css_link_re.
Proof.
  intros Hg. unfold css_link_re.
  repeat first [ apply respects_app | apply respects_lits_ignore; exact Hg ];
    cbn [respects]; (split; [|exact I]); intros c;
    cbv [not_in existsb quotes gt_char];
    rewrite ?(N.eqb_sym 62%N);
    rewrite !(recases_eqb g c _ Hg) by lia; reflexivity.
Qed.

Lemma match_len_map g p :
  respects g p -> forall s, match_len p (List.map g s) = match_len p s.
Proof.
  induction p as [|[f|f] p IH]; intros Hp s.
  - reflexivity.
  - destruct Hp as [Hf Hp]. destruct s as [|c s]; [reflexivity|].
    simpl. rewrite Hf, (IH Hp). reflexivity.
  - destruct Hp as [Hf Hp]. induction s as [|c s IHs].
    + exact (IH Hp []).
    + change (List.map g (c :: s)) with (g c :: List.map g s).
      pose proof (IH Hp (c :: s)) as Hhere.
      change (List.map g (c :: s)) with (g c :: List.map g s) in Hhere.
      simpl. rewrite Hf.
      simpl in IHs. rewrite IHs. simpl in Hhere. rewrite Hhere. reflexivity.
Qed.

Lemma sub_from_map g p :
  respects g p ->
  forall s k, sub_from p k (List.map g s) = List.map g (sub_from p k s).
Proof.
  intros Hp. induction s as [|c s IH]; intros k; [reflexivity|].
  destruct k as [|k].
  - change (List.map g (c :: s)) with (g c :: List.map g s).
    pose proof (match_len_map g p Hp (c :: s)) as Hm.
    change (List.map g (c :: s)) with (g c :: List.map g s) in Hm.
    simpl sub_from. rewrite Hm.
    destruct (match_len p (c :: s)) as [[|n]|]; simpl; rewrite IH; reflexivity.
  - simpl. apply IH.
Qed.

Lemma has_match_map g p :
  respects g p -> forall s, has_match p (List.map g s) = has_match p s.
Proof.
  intros Hp. induction s as [|c s IH].
  - reflexivity.
  - pose proof (match_len_map g p Hp (c :: s)) as Hm.
    change (List.map g (c :: s)) with (g c :: List.map g s) in *.
    simpl. rewrite Hm, IH. reflexivity.
Qed.

Lemma recases_ascii_upper : recases ascii_upper.
Proof.
  intros c. unfold ascii_lower, ascii_upper.
  destruct ((97 <=? c)%N && (c <=? 122)%N) eqn:Hu;
    destruct ((65 <=? c)%N && (c <=? 90)%N) eqn:Hl;
    try reflexivity; N_bools; try lia.
  assert ((65 <=? c - 32)%N && (c - 32 <=? 90)%N = true) as ->.
  { apply andb_true_iff. split; apply N.leb_le; lia. }
  lia.
Qed.

(** [X8] The removal of the stylesheet link does not depend on the case of
    ASCII letters: re-casing the letters of the HTML in any way (all of
    them or some) changes neither whether a link is found nor which
    characters are removed. *)
Theorem link_removal_ignores_case g s :
  recases g ->
  remove_css_link (List.map g s) = List.map g (remove_css_link s) /\
  has_match css_link_re (List.map g s) = has_match css_link_re s.
Proof.
  intros Hg. split.
  - apply sub_from_map. now apply css_link_re_respects.
  - apply has_match_map. now apply css_link_re_respects.
Qed.

Lemma link_removal_ignores_case_witness :
  remove_css_link (List.map ascii_upper linked_html)
  = List.map ascii_upper (remove_css_link linked_html) /\
  has_match css_link_re (List.map ascii_upper linked_html)
  = has_match css_link_re linked_html.
Proof.
  apply (link_removal_ignores_case ascii_upper linked_html).
  exact recases_ascii_upper.
Defined.

Lemma sub_from_length p : forall s k, (List.length (sub_from p k s) <= List.length s)%nat.
Proof.
  induction s as [|c s IH]; intros k; [simpl; lia|].
  destruct k as [|k]; simpl.
  - destruct (match_len p (c :: s)) as [[|n]|]; simpl;
      try (specialize (IH 0%nat); lia).
    specialize (IH n). lia.
  - specialize (IH k). lia.
Qed.

Lemma re_sub_empty_shrinks p :
  (forall s, match_len p s <> Some 0%nat) ->
  forall s, has_match p s = true ->
            (List.length (re_sub_empty p s) < List.length s)%nat.
Proof.
  intros Hne. unfold re_sub_empty. induction s as [|c s IH]; intros H.
  - simpl in H. destruct (match_len p []) as [[|n]|] eqn:E; try discriminate.
    + now apply Hne in E.
    + apply match_len_bound in E. simpl in E. lia.
  - simpl in H. simpl sub_from.
    destruct (match_len p (c :: s)) as [[|n]|] eqn:E.
    + now apply Hne in E.
    + pose proof (sub_from_length p s n). simpl. lia.
    + specialize (IH H). simpl. lia.
Qed.

(** [X9] The removal of the stylesheet link only deletes.  HTML in which
    the link pattern occurs nowhere is left exactly as it is; HTML in which
    it occurs comes out strictly shorter. *)
Theorem link_removal_only_deletes s :
  (~ occurs css_link_re s -> remove_css_link s = s) /\
  (occurs css_link_re s ->
   (List.length (remove_css_link s) < List.length s)%nat).
Proof.
  split.
  - intros Hno. apply re_sub_empty_no_match.
    destruct (has_match css_link_re s) eqn:E; [|reflexivity].
    apply has_match_occurs in E. contradiction.
  - intros Hocc. apply re_sub_empty_shrinks; [exact css_link_re_not_empty|].
    now apply has_match_occurs.
Qed.

Lemma link_removal_only_deletes_witness :
  remove_css_link (lit "<head><title>t</title></head>")
  = lit "<head><title>t</title></head>" /\
  (List.length (remove_css_link linked_html) < List.length linked_html)%nat.
Proof.
  split.
  - apply (proj1 (link_removal_only_deletes (lit "<head><title>t</title></head>"))).
    intros H. apply has_match_occurs in H. vm_compute in H. discriminate.
  - apply (proj2 (link_removal_only_deletes linked_html)).
    apply has_match_occurs. vm_compute. reflexivity.
Defined.

Lemma replace_from_absent old new : forall s,
  contains old s = false -> replace_from old new 0 s = s.
Proof.
  induction s as [|c s IH]; intros H; [reflexivity|].
  simpl in H. apply orb_false_iff in H. destruct H as [Hhere Hlater].
  simpl replace_from.
  destruct old as [|o old]; [discriminate|].
  simpl in Hhere. simpl. rewrite Hhere, (IH Hlater). reflexivity.
Qed.

(** [X10] The style block is put only before a [</head>] written exactly
    so, in lower case.  When the HTML, once the link is removed, has no
    such [</head>] (none at all, or one written [</HEAD>]), the inliner is
    given that HTML as it is, without the style block: the stylesheet is
    not embedded. *)
Theorem no_head_no_style html css_text :
  contains (lit "</head>") (remove_css_link html) = false ->
  inliner_input html css_text = remove_css_link html /\
  contains (style_block css_text) (inliner_input html css_text) = false.
Proof.
  intros Hno. unfold inliner_input, str_replace.
  rewrite (replace_from_absent _ _ _ Hno). split; [reflexivity|].
  destruct (contains (style_block css_text) (remove_css_link html)) eqn:E;
    [|reflexivity].
  exfalso. revert Hno E. unfold style_block.
  generalize (remove_css_link html) as t.
  set (pre := lit "<style type=" ++ dquote ++ lit "text/css" ++ dquote ++ lit ">"
              ++ css_text ++ lit "</style>").
  replace (lit "<style type=" ++ dquote ++ lit "text/css" ++ dquote ++ lit ">"
           ++ css_text ++ lit "</style></head>")
    with (pre ++ lit "</head>")
    by (unfold pre; repeat rewrite <- app_assoc; reflexivity).
  clearbody pre. intros t.
  assert (Hst : forall a b u, starts_with (a ++ b) u = true ->
                              starts_with b (skipn (List.length a) u) = true).
  { induction a as [|x a IHa]; intros b u H; [exact H|].
    destruct u as [|y u]; [discriminate|]. simpl in H.
    apply andb_prop in H. destruct H as [_ H]. simpl. now apply IHa. }
  assert (Hsk : forall n u, contains (lit "</head>") u = false ->
                            contains (lit "</head>") (skipn n u) = false).
  { induction n as [|n IHn]; intros u H; [exact H|].
    destruct u as [|y u]; [exact H|]. simpl in H.
    apply orb_false_iff in H. destruct H as [_ H]. simpl skipn. now apply IHn. }
  induction t as [|y t IH]; intros Hno E.
  - simpl in E. rewrite orb_false_r in E.
    apply Hst in E. destruct (List.length pre); discriminate.
  - simpl in E. apply orb_true_iff in E. destruct E as [E|E].
    + apply Hst in E. apply contains_here in E.
      rewrite (Hsk _ _ Hno) in E. discriminate.
    + simpl in Hno. apply orb_false_iff in Hno. destruct Hno as [_ Hno].
      now apply IH.
Qed.

Lemma no_head_no_style_witness :
  inliner_input upper_head_html (lit "p { color: red }")
  = lit "<HTML><HEAD></HEAD><BODY><P>hi</P></BODY></HTML>" /\
  contains (style_block (lit "p { color: red }"))
    (inliner_input upper_head_html (lit "p { color: red }")) = false.
Proof.
  destruct (no_head_no_style upper_head_html (lit "p { color: red }")) as [H1 H2].
  - vm_compute. reflexivity.
  - split; [rewrite H1; vm_compute; reflexivity | exact H2].
Defined.

(** ** The email platform *)

Lemma inlining_event_no_email_calls evs :
  forallb is_inlining_event evs = true -> email_calls evs = [].
Proof.
  induction evs as [|ev evs IH]; simpl; [reflexivity|].
  intros H. apply andb_prop in H. destruct H as [H1 H2].
  unfold email_calls in *. simpl. rewrite (IH H2).
  destruct ev; simpl in *; congruence.
Qed.

Lemma email_calls_app a b : email_calls (a ++ b) = email_calls a ++ email_calls b.
Proof. apply filter_app. Qed.

(** The email stage, whatever the platform answers: its events are email
    calls only, in the order create, set content, send. *)
Lemma mailchimp_stage_shape e s inlined :
  exists r evs,
    mailchimp_stage inlined e s = (r, extend s evs) /\
    email_calls evs = evs /\
    (evs = [CampaignsCreate (campaign_data e)] \/
     exists campaign cid,
       campaigns_create (svc e) (campaign_data e) = Ok campaign /\
       py_index campaign (lit "id") = Ok cid /\
       (evs = [CampaignsCreate (campaign_data e);
               CampaignsSetContent cid (html_content_of inlined)] \/
        campaigns_set_content (svc e) cid (html_content_of inlined) = Ok tt /\
        exists data test_mode,
          request_json (req e) = Ok data /\
          py_get data (lit "test_mode") JNull = Ok test_mode /\
          evs = [CampaignsCreate (campaign_data e);
                 CampaignsSetContent cid (html_content_of inlined);
                 last_email_call e cid test_mode])).
Proof.
  unfold mailchimp_stage, bind, ask. rewrite call_run.
  destruct (campaigns_create (svc e) (campaign_data e)) as [campaign|x] eqn:Hcreate.
  2:{ eexists _, [_]. split; [reflexivity|]. split; [reflexivity|]. now left. }
  unfold lift at 1.
  destruct (py_index campaign (lit "id")) as [cid|x] eqn:Hid.
  2:{ eexists _, [_]. split; [reflexivity|]. split; [reflexivity|]. now left. }
  rewrite call_run.
  destruct (campaigns_set_content (svc e) cid (html_content_of inlined)) as [[]|x] eqn:Hset.
  2:{ eexists _, [_; _]. split; [trace_norm; reflexivity|]. split; [reflexivity|].
      right. exists campaign, cid. repeat split; trivial. now left. }
  unfold get_request_json, bind, ask, lift.
  destruct (request_json (req e)) as [data|x] eqn:Hreq.
  2:{ eexists _, [_; _]. split; [trace_norm; reflexivity|]. split; [reflexivity|].
      right. exists campaign, cid. repeat split; trivial. now left. }
  destruct (py_get data (lit "test_mode") JNull) as [test_mode|x] eqn:Hget.
  2:{ eexists _, [_; _]. split; [trace_norm; reflexivity|]. split; [reflexivity|].
      right. exists campaign, cid. repeat split; trivial. now left. }
  destruct (truthy test_mode) eqn:Htest; rewrite call_run.
  - destruct (campaigns_send_test_email (svc e) cid _) as [[]|x];
      (eexists _, [_; _; _]; split; [trace_norm; reflexivity|];
       split; [reflexivity|]; right; exists campaign, cid; repeat split; trivial;
       right; split; [exact Hset|]; exists data, test_mode;
       unfold last_email_call; rewrite Htest; repeat split; trivial).
  - destruct (campaigns_send (svc e) cid) as [[]|x];
      (eexists _, [_; _; _]; split; [trace_norm; reflexivity|];
       split; [reflexivity|]; right; exists campaign, cid; repeat split; trivial;
       right; split; [exact Hset|]; exists data, test_mode;
       unfold last_email_call; rewrite Htest; repeat split; trivial).
Qed.

Lemma deliver_live e s inlined :
  simulated (cfg e) = false ->
  exists r, deliver inlined e s = (r, snd (mailchimp_stage inlined e s)).
Proof.
  intros Hlive. unfold deliver, bind, ask. unfold simulated in Hlive.
  rewrite Hlive. unfold try_except.
  destruct (mailchimp_stage inlined e s) as [[r|x] s']; [eexists; reflexivity|].
  destruct x; eexists; reflexivity.
Qed.

(** [X11] Whatever the backend, the file system, the inliner and the email
    platform answer, the calls that [send_newsletter] makes to the email
    platform are, in this order: the creation of a campaign; then, only
    when the creation has returned a campaign with an [id], the setting of
    that campaign's content; then, only when that has succeeded and the
    request body is readable, one last call on the same campaign: a test
    email to the editor's address when [test_mode] is true, the send to the
    whole list when it is not.  Nothing is sent twice, and in test mode
    nothing goes to the list. *)
Theorem email_calls_in_order e s id :
  exists r evs,
    send_newsletter id e s = (r, extend s evs) /\
    (email_calls evs = [] \/
     email_calls evs = [CampaignsCreate (campaign_data e)] \/
     exists campaign cid content,
       campaigns_create (svc e) (campaign_data e) = Ok campaign /\
       py_index campaign (lit "id") = Ok cid /\
       (email_calls evs = [CampaignsCreate (campaign_data e);
                           CampaignsSetContent cid content] \/
        campaigns_set_content (svc e) cid content = Ok tt /\
        exists data test_mode,
          request_json (req e) = Ok data /\
          py_get data (lit "test_mode") JNull = Ok test_mode /\
          email_calls evs = [CampaignsCreate (campaign_data e);
                             CampaignsSetContent cid content;
                             last_email_call e cid test_mode])).
Proof.
  destruct (get_newsletter_content_total e s id) as (v & Hget).
  unfold send_newsletter. rewrite (bind_Ok _ _ _ _ _ _ Hget).
  destruct v as [[|c html]|];
    try (eexists _, [_]; split; [reflexivity | left; reflexivity]).
  destruct (inlined_html_of_total e (record s (HttpGet (content_url e id))) (c :: html))
    as (out & evs & Hin & Hev).
  rewrite (bind_Ok _ _ _ _ _ _ Hin).
  rewrite record_is_extend, extend_extend.
  destruct (simulated (cfg e)) eqn:Hsim.
  - destruct (deliver_simulated_footprint e
                (extend s ([HttpGet (content_url e id)] ++ evs)) out Hsim) as (r & Hr).
    rewrite Hr. eexists _, _. split; [reflexivity|]. left.
    rewrite email_calls_app. simpl. now apply inlining_event_no_email_calls.
  - destruct (deliver_live e (extend s ([HttpGet (content_url e id)] ++ evs)) out Hsim)
      as (r & Hr).
    rewrite Hr.
    destruct (mailchimp_stage_shape e (extend s ([HttpGet (content_url e id)] ++ evs)) out)
      as (r' & evs' & Hstage & Hmail & Hshape).
    rewrite Hstage. simpl snd. rewrite extend_extend.
    assert (Hall : email_calls (([HttpGet (content_url e id)] ++ evs) ++ evs') = evs').
    { rewrite !email_calls_app, (inlining_event_no_email_calls _ Hev), Hmail.
      reflexivity. }
    exists r, (([HttpGet (content_url e id)] ++ evs) ++ evs').
    split; [reflexivity|]. rewrite Hall.
    destruct Hshape as [Hone | (campaign & cid & Hc & Hi & Hrest)].
    + right. left. exact Hone.
    + right. right. exists campaign, cid, (html_content_of out).
      repeat split; trivial.
Qed.

(** ** The AI review *)

(** [X12] The AI review outside mock mode, for a newsletter that the
    backend serves.  The provider is asked once, with the review prompt
    built around the text extracted from the HTML (the extracted text is
    part of the prompt), after the one request to the backend and the
    extraction.  The answer is HTTP 200 with the text of the provider's
    first content block as [review]; an answer without any block is
    reported as HTTP 500 [AI review failed: list index out of range].  When
    the extraction of the text fails, the provider is not asked at all and
    the failure is reported as HTTP 500. *)
Theorem ai_review_live e s id c html :
  MOCK_MODE (cfg e) || negb (client (cfg e)) = false ->
  backend_serves e id (c :: html) ->
  (forall txt blocks,
     soup_get_text (svc e) (c :: html) = Ok txt ->
     messages_create (svc e) (review_prompt txt) = Ok blocks ->
     ai_review_newsletter id e s
     = (Ok match blocks with
           | first :: _ => review_reply first
           | [] => review_failed (IndexError (lit "list index out of range"))
           end,
        extend s [HttpGet (content_url e id);
                  SoupGetText (c :: html);
                  MessagesCreate (review_prompt txt)]) /\
     contains txt (review_prompt txt) = true) /\
  (forall x,
     soup_get_text (svc e) (c :: html) = Raise x ->
     ai_review_newsletter id e s
     = (Ok (review_failed x),
        extend s [HttpGet (content_url e id); SoupGetText (c :: html)])).
Proof.
  intros Hlive Hserved. split.
  - intros txt blocks Hsoup Hcreate. split.
    + unfold ai_review_newsletter, bind, ask.
      rewrite (get_newsletter_content_served _ s _ _ Hserved), Hlive.
      unfold try_except, review_stage, bind. rewrite call_run, Hsoup.
      rewrite call_run, Hcreate.
      destruct blocks as [|first rest]; trace_norm; reflexivity.
    + unfold review_prompt. apply contains_app.
  - intros x Hsoup.
    unfold ai_review_newsletter, bind, ask.
    rewrite (get_newsletter_content_served _ s _ _ Hserved), Hlive.
    unfold try_except, review_stage, bind. rewrite call_run, Hsoup.
    trace_norm. reflexivity.
Qed.

Lemma ai_review_live_witness :
  ai_review_newsletter abc (reviewing_env (Ok [lit "Clear and useful."; lit "(more)"])) s0
  = (Ok (review_reply (lit "Clear and useful.")),
     extend s0 [HttpGet (content_url (reviewing_env (Ok [])) abc);
                SoupGetText (lit "<p>Rates rose.</p>");
                MessagesCreate (review_prompt (lit "Rates rose."))]) /\
  ai_review_newsletter abc (reviewing_env (Ok [])) s0
  = (Ok (Json 500 (JObj [(lit "error",
                          JStr (lit "AI review failed: list index out of range"))])),
     extend s0 [HttpGet (content_url (reviewing_env (Ok [])) abc);
                SoupGetText (lit "<p>Rates rose.</p>");
                MessagesCreate (review_prompt (lit "Rates rose."))]).
Proof.
  split.
  - refine (proj1 (proj1 (ai_review_live
                            (reviewing_env (Ok [lit "Clear and useful."; lit "(more)"]))
                            s0 abc 60%N (lit "p>Rates rose.</p>") _ _)
                         (lit "Rates rose.") _ eq_refl eq_refl)).
    + vm_compute. reflexivity.
    + exists (served (lit "<p>Rates rose.</p>")). repeat split; reflexivity.
  - refine (proj1 (proj1 (ai_review_live (reviewing_env (Ok [])) s0 abc
                            60%N (lit "p>Rates rose.</p>") _ _)
                         (lit "Rates rose.") _ eq_refl eq_refl)).
    + vm_compute. reflexivity.
    + exists (served (lit "<p>Rates rose.</p>")). repeat split; reflexivity.
Defined.

(** ** The listing and the index page *)

(** Whatever the backend answers, what [get_all_newsletters] returns has a
    length: the count that its debug line prints is taken inside the [try]. *)
Lemma get_all_newsletters_sized e s :
  exists v n,
    get_all_newsletters e s = (Ok v, record s (HttpGet (list_url e))) /\
    py_len v = Ok n.
Proof.
  unfold get_all_newsletters, try_except, bind, ask.
  rewrite call_run.
  destruct (requests_get (svc e) (list_url e)) as [r|x];
    [|eexists _, _; split; reflexivity].
  destruct (status_code r =? 200)%Z; [|eexists _, _; split; reflexivity].
  unfold lift. destruct (response_json r) as [data|x];
    [|eexists _, _; split; reflexivity].
  destruct (py_get data (lit "success") JNull) as [flag|x];
    [|eexists _, _; split; reflexivity].
  destruct (truthy flag); [|eexists _, _; split; reflexivity].
  destruct (py_get data (lit "newsletters") (JList [])) as [n|x];
    [|eexists _, _; split; reflexivity].
  destruct (py_len n) as [k|x] eqn:Hlen; eexists _, _; split;
    try reflexivity; exact Hlen.
Qed.

(** [X13] When the backend answers the listing request with HTTP 200 and a
    JSON object whose [success] is true, [get_all_newsletters] returns the
    value under [newsletters] as it is, without looking at what it is (a
    list, but also a string or an object), provided that value has a
    length; it returns the empty list when the key is missing and when the
    value has no length (a number, [null], a boolean). *)
Theorem listing_passes_through e s r fields :
  requests_get (svc e) (list_url e) = Ok r ->
  status_code r = 200%Z ->
  response_json r = Ok (JObj fields) ->
  truthy (field "success" fields) = true ->
  get_all_newsletters e s
  = (Ok match assoc (lit "newsletters") fields with
        | Some v => if sized v then v else JList []
        | None => JList []
        end,
     record s (HttpGet (list_url e))).
Proof.
  intros Hget Hst Hjson Hflag.
  unfold get_all_newsletters, try_except, bind, ask.
  rewrite call_run, Hget, Hst. simpl Z.eqb. cbv iota.
  unfold lift. rewrite Hjson. unfold py_get at 1.
  unfold field in Hflag. rewrite Hflag. unfold py_get.
  destruct (assoc (lit "newsletters") fields) as [v|]; [|reflexivity].
  destruct v; reflexivity.
Qed.

Lemma listing_passes_through_witness :
  get_all_newsletters
    (listing_env (JObj [(lit "success", JBool true);
                        (lit "newsletters", JStr (lit "none yet"))])) s0
  = (Ok (JStr (lit "none yet")),
     record s0 (HttpGet (lit "https://backend.example/api/newsletters"))) /\
  get_all_newsletters
    (listing_env (JObj [(lit "success", JBool true); (lit "newsletters", JNull)])) s0
  = (Ok (JList []),
     record s0 (HttpGet (lit "https://backend.example/api/newsletters"))).
Proof.
  split.
  - exact (listing_passes_through
             (listing_env (JObj [(lit "success", JBool true);
                                 (lit "newsletters", JStr (lit "none yet"))])) s0
             _ _ eq_refl eq_refl eq_refl eq_refl).
  - exact (listing_passes_through
             (listing_env (JObj [(lit "success", JBool true);
                                 (lit "newsletters", JNull)])) s0
             _ _ eq_refl eq_refl eq_refl eq_refl).
Defined.

(** [X14] The index page never ends in an exception.  The handler makes one
    request to the backend and one call to the template engine, with what
    [get_all_newsletters] returned as [newsletters]; it answers HTTP 200
    with the rendered page, and when rendering raises, with its fallback
    page, which shows the number of newsletters found and the text of the
    exception.  The count on the fallback page can always be taken: what
    [get_all_newsletters] returns has a length. *)
Theorem index_always_answers e s :
  exists newsletters found,
    get_all_newsletters e s
    = (Ok newsletters, record s (HttpGet (list_url e))) /\
    py_len newsletters = Ok found /\
    index e s
    = (Ok (Page 200
             match render (svc e) "index.html" (index_context newsletters) with
             | Ok page => page
             | Raise x => index_fallback (Z_to_text found) (exn_str x)
             end),
       extend s [HttpGet (list_url e);
                 RenderTemplate "index.html" (index_context newsletters)]).
Proof.
  destruct (get_all_newsletters_sized e s) as (v & n & Hget & Hlen).
  exists v, n. split; [exact Hget|]. split; [exact Hlen|].
  unfold index. unfold bind at 1. unfold try_except at 1.
  unfold bind at 1. rewrite Hget. unfold ret at 1.
  unfold try_except, bind, render_template. rewrite call_run.
  destruct (render (svc e) "index.html" (index_context v)) as [page|x].
  - trace_norm. reflexivity.
  - unfold any_exception, bind, lift. rewrite Hlen. trace_norm. reflexivity.
Qed.
(** * Properties of the generation and listing routes *)

Ltac host_run :=
  unfold exists_on_disk, Host.try_except, Host.any_exception, Host.bind, Host.ask,
    Host.ask_host, Host.lift, Host.ret, Host.raise, Host.call, Host.portal,
    Host.local, Host.py_str;
  cbv beta iota zeta.

Ltac answered_with evs :=
  eexists _, _, evs;
  split; [rewrite <- ?app_assoc; reflexivity|];
  split; [auto|];
  split; [eexists; reflexivity|];
  split; [reflexivity|];
  try (intros; discriminate).

(** ** Generation *)

(** [X15] Outside mock mode [generate_newsletter] never ends in an
    exception, never answers a success and never touches the disk: whatever
    the backend answers, the answer is HTTP 409 or HTTP 500 with an [error]
    message, and no directory is made and no file opened or written.  While
    the lock file exists the answer is HTTP 409 and the backend is not
    called. *)
Theorem generation_never_stores h e t :
  MOCK_MODE (cfg e) = false ->
  exists status body evs,
    generate_newsletter h e t = (Ok (Json status (JObj body)), t ++ evs) /\
    (status = 409 \/ status = 500)%Z /\
    (exists msg, assoc (lit "error") body = Some (JStr msg)) /\
    existsb touches_disk evs = false /\
    (path_exists (svc e) (lock_file (cfg e)) = true ->
     status = 409%Z /\ evs = [Portal (FileExists (lock_file (cfg e)))]).
Proof.
  intros Hlive. unfold generate_newsletter. unfold Host.bind at 1, Host.ask at 1.
  rewrite Hlive. unfold generation_failed. host_run.
  destruct (path_exists (svc e) (lock_file (cfg e))).
  { answered_with [Portal (FileExists (lock_file (cfg e)))]. intros _. now split. }
  destruct (import_requests h) as [[]|x].
  2:{ answered_with [Portal (FileExists (lock_file (cfg e)))]. }
  unfold generate_request, generation_failed. host_run.
  destruct (requests_post h (railway_url (cfg e) ++ lit "/api/generate") (JObj []))
    as [r|x].
  2:{ answered_with [Portal (FileExists (lock_file (cfg e)));
                     HttpPost (railway_url (cfg e) ++ lit "/api/generate") (JObj [])]. }
  destruct (status_code r =? 200)%Z.
  2:{ answered_with [Portal (FileExists (lock_file (cfg e)));
                     HttpPost (railway_url (cfg e) ++ lit "/api/generate") (JObj [])]. }
  destruct (response_json r) as [data|x].
  2:{ answered_with [Portal (FileExists (lock_file (cfg e)));
                     HttpPost (railway_url (cfg e) ++ lit "/api/generate") (JObj [])]. }
  destruct (py_get data (lit "success") JNull) as [flag|x].
  2:{ answered_with [Portal (FileExists (lock_file (cfg e)));
                     HttpPost (railway_url (cfg e) ++ lit "/api/generate") (JObj [])]. }
  destruct (truthy flag).
  - destruct (py_get data (lit "html") (JStr [])) as [html|x];
      answered_with [Portal (FileExists (lock_file (cfg e)));
                     HttpPost (railway_url (cfg e) ++ lit "/api/generate") (JObj [])].
  - destruct (py_get data (lit "error") (JStr (lit "Unknown error"))) as [err|x];
      answered_with [Portal (FileExists (lock_file (cfg e)));
                     HttpPost (railway_url (cfg e) ++ lit "/api/generate") (JObj [])].
Qed.

(** [X16] Outside mock mode a newsletter that the backend has generated is
    lost.  When no lock file exists and the backend answers the generation
    request with HTTP 200 and a JSON object whose [success] is true, the
    handler fails on the read of its local [datetime], which only the mock
    branch binds: it answers HTTP 500 with
    [Failed to generate newsletter: ...], the traceback and the backend URL,
    having made the one request to the backend and written nothing. *)
Theorem generated_newsletter_is_lost h e t r data :
  MOCK_MODE (cfg e) = false ->
  path_exists (svc e) (lock_file (cfg e)) = false ->
  import_requests h = Ok tt ->
  requests_post h (generate_url e) (JObj []) = Ok r ->
  status_code r = 200%Z ->
  response_json r = Ok (JObj data) ->
  truthy (field "success" data) = true ->
  generate_newsletter h e t
  = (Ok (generation_lost h e),
     t ++ [Portal (FileExists (lock_file (cfg e)));
           HttpPost (generate_url e) (JObj [])]).
Proof.
  intros Hlive Hlock Himport Hpost Hstatus Hjson Hflag.
  unfold generate_newsletter. unfold Host.bind at 1, Host.ask at 1.
  rewrite Hlive. unfold generation_failed, generate_request. host_run.
  rewrite Hlock, Himport. cbv beta iota.
  unfold generate_url in Hpost. rewrite Hpost, Hstatus. simpl Z.eqb. cbv beta iota.
  rewrite Hjson. unfold py_get at 1. unfold field in Hflag. rewrite Hflag.
  cbv beta iota. unfold py_get. rewrite <- app_assoc. reflexivity.
Qed.

Lemma generated_newsletter_is_lost_witness :
  generate_newsletter (host_of (Ok generated_ok) [] three_times) (live_env false) []
  = (Ok (Json 500
           (JObj [(lit "error",
                   JStr (lit "Failed to generate newsletter: cannot access local variable 'datetime' where it is not associated with a value"));
                  (lit "traceback", JStr (lit "Traceback (most recent call last): ..."));
                  (lit "railway_url", JStr (lit "https://backend.example"))])),
     [Portal (FileExists (lit "/app/generation.lock"));
      HttpPost (lit "https://backend.example/api/generate") (JObj [])]).
Proof.
  exact (generated_newsletter_is_lost
           (host_of (Ok generated_ok) [] three_times) (live_env false) [] _ _
           eq_refl eq_refl eq_refl eq_refl eq_refl eq_refl eq_refl).
Defined.

Lemma generation_never_stores_witness :
  exists status body evs,
    generate_newsletter (host_of (Ok generated_ok) [] three_times) (live_env false) []
    = (Ok (Json status (JObj body)), [] ++ evs) /\
    (status = 409 \/ status = 500)%Z /\
    (exists msg, assoc (lit "error") body = Some (JStr msg)) /\
    existsb touches_disk evs = false /\
    (path_exists (svc (live_env false)) (lock_file (cfg (live_env false))) = true ->
     status = 409%Z /\
     evs = [Portal (FileExists (lock_file (cfg (live_env false))))]).
Proof.
  exact (generation_never_stores
           (host_of (Ok generated_ok) [] three_times) (live_env false) [] eq_refl).
Defined.

(** ** The generation status *)

(** [max] with a key, from the second element on: the element returned is
    the first of those whose key is greatest, and every key is read once,
    in the order of the list. *)
Lemma max_from_first_greatest h e dir (ctime : text -> Z) :
  forall rest best t,
    (forall x, In x rest -> getctime h (path_join dir x) = Ok (ctime x)) ->
    exists before latest after,
      best :: rest = before ++ latest :: after /\
      (forall x, In x before -> (ctime x < ctime latest)%Z) /\
      (forall x, In x after -> (ctime x <= ctime latest)%Z) /\
      max_from (ctime_in dir) best (ctime best) rest h e t
      = (Ok latest, t ++ List.map (fun x => GetCTime (path_join dir x)) rest).
Proof.
  induction rest as [|x rest IH]; intros best t Hkeys.
  - exists [], best, []. repeat split; try (intros ? []).
    simpl. rewrite app_nil_r. reflexivity.
  - assert (Hx : getctime h (path_join dir x) = Ok (ctime x))
      by (apply Hkeys; now left).
    assert (Hrest : forall y, In y rest -> getctime h (path_join dir y) = Ok (ctime y))
      by (intros y Hy; apply Hkeys; now right).
    simpl max_from. unfold Host.bind at 1. unfold ctime_in at 1, Host.call.
    rewrite Hx. destruct (ctime best <? ctime x)%Z eqn:Hlt.
    + apply Z.ltb_lt in Hlt.
      destruct (IH x (t ++ [GetCTime (path_join dir x)]) Hrest)
        as (before & latest & after & Hsplit & Hbefore & Hafter & Hrun).
      exists (best :: before), latest, after. repeat split.
      * simpl. rewrite Hsplit. reflexivity.
      * intros y [<-|Hy]; [|now apply Hbefore].
        assert (ctime x <= ctime latest)%Z; [|lia].
        destruct before as [|b before].
        -- injection Hsplit as <- _. lia.
        -- injection Hsplit as <- _.
           assert (ctime x < ctime latest)%Z by (apply Hbefore; now left). lia.
      * exact Hafter.
      * rewrite Hrun. simpl. rewrite <- app_assoc. reflexivity.
    + apply Z.ltb_ge in Hlt.
      destruct (IH best (t ++ [GetCTime (path_join dir x)]) Hrest)
        as (before & latest & after & Hsplit & Hbefore & Hafter & Hrun).
      destruct before as [|b before].
      * injection Hsplit as <- <-.
        exists [], best, (x :: rest). repeat split.
        -- intros ? [].
        -- intros y [<-|Hy]; [lia | now apply Hafter].
        -- rewrite Hrun. simpl. rewrite <- app_assoc. reflexivity.
      * injection Hsplit as <- Hsplit.
        exists (best :: x :: before), latest, after. repeat split.
        -- simpl. rewrite Hsplit. reflexivity.
        -- assert (ctime best < ctime latest)%Z by (apply Hbefore; now left).
           intros y [<-|[<-|Hy]]; [assumption | lia |].
           apply Hbefore. now right.
        -- exact Hafter.
        -- rewrite Hrun. simpl. rewrite <- app_assoc. reflexivity.
Qed.

(** [X17] The file that [generation_status] reports.  When no lock file
    exists, the newsletters directory exists and the change time of each of
    its [.html] entries can be read, the answer is [idle] when the directory
    has no [.html] entry, and otherwise [completed] with, as [latest_file],
    the [.html] entry with the greatest change time, the first such entry in
    the order of the listing when several are equally recent.  Entries that
    do not end in [.html] are not looked at. *)
Theorem latest_file_is_newest h e t entries ctime :
  path_exists (svc e) (lock_file (cfg e)) = false ->
  path_exists (svc e) (newsletter_dir (cfg e)) = true ->
  listdir h (newsletter_dir (cfg e)) = Ok entries ->
  (forall x, In x (List.filter is_html entries) ->
             getctime h (path_join (newsletter_dir (cfg e)) x) = Ok (ctime x)) ->
  let looked_up :=
    t ++ [Portal (FileExists (lock_file (cfg e)));
          Portal (FileExists (newsletter_dir (cfg e)));
          ListDir (newsletter_dir (cfg e))]
      ++ List.map (fun x => GetCTime (path_join (newsletter_dir (cfg e)) x))
                  (List.filter is_html entries) in
  (List.filter is_html entries = [] /\
   generation_status h e t = (Ok status_idle, looked_up)) \/
  (exists before latest after,
     List.filter is_html entries = before ++ latest :: after /\
     (forall x, In x before -> (ctime x < ctime latest)%Z) /\
     (forall x, In x after -> (ctime x <= ctime latest)%Z) /\
     generation_status h e t = (Ok (status_completed latest), looked_up)).
Proof.
  intros Hlock Hdir Hlist Hkeys looked_up. subst looked_up.
  unfold generation_status. host_run. rewrite Hlock, Hdir, Hlist.
  destruct (List.filter is_html entries) as [|first rest].
  - left. split; [reflexivity|]. simpl. rewrite <- !app_assoc. reflexivity.
  - right.
    assert (Hfirst : getctime h (path_join (newsletter_dir (cfg e)) first)
                     = Ok (ctime first)) by (apply Hkeys; now left).
    assert (Hrest : forall x, In x rest ->
              getctime h (path_join (newsletter_dir (cfg e)) x) = Ok (ctime x))
      by (intros x Hx; apply Hkeys; now right).
    unfold ctime_in at 1. unfold Host.call. rewrite Hfirst.
    destruct (max_from_first_greatest h e (newsletter_dir (cfg e)) ctime rest first
                ((((t ++ [Portal (FileExists (lock_file (cfg e)))])
                    ++ [Portal (FileExists (newsletter_dir (cfg e)))])
                   ++ [ListDir (newsletter_dir (cfg e))])
                ++ [GetCTime (path_join (newsletter_dir (cfg e)) first)]) Hrest)
      as (before & latest & after & Hsplit & Hbefore & Hafter & Hrun).
    exists before, latest, after. repeat split; trivial.
    rewrite Hrun. simpl. rewrite <- !app_assoc. reflexivity.
Qed.

Lemma latest_file_is_newest_witness :
  let h := host_of (Raise unreachable) three_files three_times in
  let e := live_env true in
  let ctime := fun x => fst (three_times (path_join (lit "/app/newsletters") x)) in
  let looked_up :=
    [Portal (FileExists (lit "/app/generation.lock"));
     Portal (FileExists (lit "/app/newsletters"));
     ListDir (lit "/app/newsletters");
     GetCTime (lit "/app/newsletters/a.html");
     GetCTime (lit "/app/newsletters/b.html");
     GetCTime (lit "/app/newsletters/c.html")] in
  ([lit "a.html"; lit "b.html"; lit "c.html"] = [] /\
   generation_status h e [] = (Ok status_idle, looked_up)) \/
  (exists before latest after,
     [lit "a.html"; lit "b.html"; lit "c.html"] = before ++ latest :: after /\
     (forall x, In x before -> (ctime x < ctime latest)%Z) /\
     (forall x, In x after -> (ctime x <= ctime latest)%Z) /\
     generation_status h e [] = (Ok (status_completed latest), looked_up)).
Proof.
  exact (latest_file_is_newest
           (host_of (Raise unreachable) three_files three_times) (live_env true) []
           three_files
           (fun x => fst (three_times (path_join (lit "/app/newsletters") x)))
           eq_refl eq_refl eq_refl (fun x _ => eq_refl)).
Defined.

Example generation_status_on_three_files :
  fst (generation_status (host_of (Raise unreachable) three_files three_times)
         (live_env true) [])
  = Ok (status_completed (lit "b.html")).
Proof. vm_compute. reflexivity. Qed.

(** ** The list of generated newsletters *)

Lemma text_ltb_asym : forall a b, text_ltb a b = true -> text_ltb b a = false.
Proof.
  induction a as [|x a IH]; intros [|y b] H; try reflexivity; try discriminate.
  simpl in *. apply orb_true_iff in H. apply orb_false_iff.
  destruct H as [H|H].
  - apply N.ltb_lt in H. split.
    + apply N.ltb_ge. lia.
    + apply andb_false_iff. left. apply N.eqb_neq. lia.
  - apply andb_prop in H. destruct H as [Heq H]. apply N.eqb_eq in Heq. subst y.
    split.
    + apply N.ltb_irrefl.
    + rewrite (IH _ H). apply andb_false_r.
Qed.

Lemma text_ltb_cotrans : forall a b c,
  text_ltb a c = true -> text_ltb a b = true \/ text_ltb b c = true.
Proof.
  induction a as [|x a IH]; intros b c H.
  - destruct c as [|z c]; [discriminate|].
    destruct b as [|y b]; [now right | now left].
  - destruct c as [|z c]; [discriminate|].
    destruct b as [|y b]; [now right|].
    simpl in *. apply orb_true_iff in H.
    destruct (N.lt_trichotomy x y) as [Hxy|[Hxy|Hxy]].
    + left. apply orb_true_iff. left. now apply N.ltb_lt.
    + subst y. destruct H as [H|H].
      * right. apply orb_true_iff. now left.
      * apply andb_prop in H. destruct H as [Heq H].
        destruct (IH b c H) as [Hab|Hbc].
        -- left. rewrite N.eqb_refl, Hab. apply orb_true_r.
        -- right. rewrite Heq, Hbc. apply orb_true_r.
    + right. apply orb_true_iff. left. apply N.ltb_lt.
      destruct H as [H|H].
      * apply N.ltb_lt in H. lia.
      * apply andb_prop in H. destruct H as [Heq _]. apply N.eqb_eq in Heq. lia.
Qed.

Lemma insert_desc_perm key x : forall l, Permutation (insert_desc key x l) (x :: l).
Proof.
  induction l as [|y l IH]; simpl; [apply Permutation_refl|].
  destruct (text_ltb (key x) (key y)); [|apply Permutation_refl].
  eapply perm_trans; [apply perm_skip, IH | apply perm_swap].
Qed.

Lemma sort_reverse_perm key : forall l, Permutation (sort_reverse key l) l.
Proof.
  induction l as [|x l IH]; simpl; [apply perm_nil|].
  eapply perm_trans; [apply insert_desc_perm | apply perm_skip, IH].
Qed.

Lemma insert_desc_sorted key x : forall l,
  StronglySorted (fun a b => text_ltb (key a) (key b) = false) l ->
  StronglySorted (fun a b => text_ltb (key a) (key b) = false) (insert_desc key x l).
Proof.
  induction l as [|y l IH]; intros Hs; simpl.
  - constructor; constructor.
  - inversion Hs as [|? ? Hl Hy]; subst.
    destruct (text_ltb (key x) (key y)) eqn:Hxy.
    + constructor; [now apply IH|].
      apply Forall_forall. intros z Hz.
      apply (Permutation_in _ (insert_desc_perm key x l)) in Hz.
      destruct Hz as [<-|Hz]; [now apply text_ltb_asym|].
      rewrite Forall_forall in Hy. now apply Hy.
    + constructor; [exact Hs|]. constructor; [exact Hxy|].
      apply Forall_forall. intros z Hz.
      rewrite Forall_forall in Hy. specialize (Hy z Hz).
      destruct (text_ltb (key x) (key z)) eqn:Hxz; [|reflexivity].
      destruct (text_ltb_cotrans _ (key y) _ Hxz); congruence.
Qed.

Lemma sort_reverse_sorted key : forall l,
  StronglySorted (fun a b => text_ltb (key a) (key b) = false) (sort_reverse key l).
Proof.
  induction l as [|x l IH]; simpl; [constructor|].
  now apply insert_desc_sorted.
Qed.

Lemma stat_entries_run h e (created : text -> text) (size : text -> Z) :
  forall names t,
    (forall x, In x (List.filter is_html names) ->
               stat h (path_join NEWSLETTER_DIR x) = Ok (created x, size x)) ->
    stat_entries names h e t
    = (Ok (List.map (fun x => newsletter_entry x (created x) (size x))
                    (List.filter is_html names)),
       t ++ List.map (fun x => Stat (path_join NEWSLETTER_DIR x))
                     (List.filter is_html names)).
Proof.
  induction names as [|x names IH]; intros t Hstat.
  - simpl. rewrite app_nil_r. reflexivity.
  - simpl in *. destruct (is_html x).
    + unfold Host.bind at 1. unfold Host.call.
      rewrite (Hstat x (or_introl eq_refl)).
      unfold Host.bind. rewrite IH by (intros y Hy; apply Hstat; now right).
      unfold Host.ret. simpl. rewrite <- app_assoc. reflexivity.
    + now apply IH.
Qed.

(** [X18] The list that [get_newsletters] answers.  When the newsletters
    directory exists and each of its [.html] entries can be examined, the
    answer is HTTP 200 with exactly one entry for every [.html] name of the
    directory and none for any other name, each with the name, the creation
    text and the size of its file, in descending order of the creation
    text: no entry is followed by one whose [created] is greater, as
    strings compare.  Each file is examined once. *)
Theorem newsletters_newest_first h e t names created size :
  path_exists (svc e) NEWSLETTER_DIR = true ->
  listdir h NEWSLETTER_DIR = Ok names ->
  (forall x, In x (List.filter is_html names) ->
             stat h (path_join NEWSLETTER_DIR x) = Ok (created x, size x)) ->
  exists listed,
    get_newsletters h e t
    = (Ok (Json 200 (JList listed)),
       t ++ [Portal (FileExists NEWSLETTER_DIR); ListDir NEWSLETTER_DIR]
         ++ List.map (fun x => Stat (path_join NEWSLETTER_DIR x))
                     (List.filter is_html names)) /\
    Permutation listed
      (List.map (fun x => newsletter_entry x (created x) (size x))
                (List.filter is_html names)) /\
    StronglySorted not_older listed.
Proof.
  intros Hdir Hlist Hstat.
  exists (sort_reverse created_of
            (List.map (fun x => newsletter_entry x (created x) (size x))
                      (List.filter is_html names))).
  split; [|split].
  - unfold get_newsletters. host_run. rewrite Hdir, Hlist.
    rewrite (stat_entries_run h e created size names _ Hstat).
    rewrite <- !app_assoc. reflexivity.
  - apply sort_reverse_perm.
  - apply sort_reverse_sorted.
Qed.

Lemma newsletters_newest_first_witness :
  exists listed,
    get_newsletters (host_of (Raise unreachable) three_files three_times)
      (live_env true) []
    = (Ok (Json 200 (JList listed)),
       [] ++ [Portal (FileExists NEWSLETTER_DIR); ListDir NEWSLETTER_DIR]
          ++ List.map (fun x => Stat (path_join NEWSLETTER_DIR x))
                      (List.filter is_html three_files)) /\
    Permutation listed
      (List.map (fun x => newsletter_entry x
                            (snd (three_times (path_join NEWSLETTER_DIR x))) 120%Z)
                (List.filter is_html three_files)) /\
    StronglySorted not_older listed.
Proof.
  exact (newsletters_newest_first
           (host_of (Raise unreachable) three_files three_times) (live_env true) []
           three_files
           (fun x => snd (three_times (path_join NEWSLETTER_DIR x)))
           (fun _ => 120%Z)
           eq_refl eq_refl (fun x _ => eq_refl)).
Defined.

Example get_newsletters_on_three_files :
  fst (get_newsletters (host_of (Raise unreachable) three_files three_times)
         (live_env true) [])
  = Ok (Json 200 (JList [newsletter_entry (lit "b.html") (lit "2024-05-02T09:00:00") 120;
                         newsletter_entry (lit "c.html") (lit "2024-05-02T09:00:00") 120;
                         newsletter_entry (lit "a.html") (lit "2024-05-01T09:00:00") 120])).
Proof. vm_compute. reflexivity. Qed.

(** ** The environment check *)

(** [X19] The environment check, which is served without a login, shows of
    each secret only whether it is set: two configurations that agree on
    which of the session key, the password and the two API keys are set, and
    on the backend URL, get the same answer, whatever the values of the
    secrets.  The answer is HTTP 200 and the handler calls nothing. *)
Theorem env_check_hides_values h1 h2 e1 e2 t :
  same_exposure (cfg e1) (cfg e2) ->
  env_check h1 e1 t = env_check h2 e2 t /\
  exists body, env_check h1 e1 t = (Ok (Json 200 body), t).
Proof.
  intros (Hkey & Hpw & Hai & Hmc & Hurl).
  unfold env_check, set_or_not. host_run.
  rewrite Hkey, Hpw, Hai, Hmc, Hurl. split; [reflexivity|].
  eexists. reflexivity.
Qed.

Lemma env_check_hides_values_witness :
  env_check (host_of (Raise unreachable) [] three_times) (gate_env prod_config) []
  = env_check (host_of (Raise unreachable) [] three_times) rotated_env [].
Proof.
  refine (proj1 (env_check_hides_values _ _ (gate_env prod_config) rotated_env [] _)).
  repeat split; reflexivity.
Defined.
